(** * HDF5 wrapper layer of deal.II (source/base/hdf5.cc)

    A shallow embedding of the resource-management layer that deal.II puts
    over the HDF5 C library: the type-descriptor resolver
    [internal::get_hdf5_datatype], the [DataSet<T>] constructor, destructor
    and its write operations, and [Group] with its child-creating methods.

    The HDF5 library itself is an external collaborator.  Every call into it
    is recorded, with its arguments and the value it returned, in a trace;
    the value returned is supplied by an oracle [lib] that sees the calls
    made so far.  Handles held through [std::shared_ptr<hid_t>] live in a
    heap of control blocks with a use count and a deleter, so that sharing
    and the moment a disposal action fires are explicit. *)

From stdpp Require Import base numbers list strings.

Local Open Scope Z_scope.

Module HDF5.

(** ** Machine integers *)

(** Value of [x] converted to an unsigned integer type of [bits] bits. *)
Definition wrap (bits x : Z) : Z := x mod 2 ^ bits.

(** Conversion to [std::size_t] / [hsize_t] (64 bit, unsigned). *)
Definition to_size_t (x : Z) : Z := wrap 64 x.

(** Conversion to [unsigned int] (32 bit). *)
Definition to_unsigned_int (x : Z) : Z := wrap 32 x.

(** Conversion to [int] (32 bit, two's complement). *)
Definition to_int (x : Z) : Z := (x + 2 ^ 31) mod 2 ^ 32 - 2 ^ 31.

(** [std::multiplies<unsigned int>()(a, b)]: both arguments are converted to
    [unsigned int] at the call, the product is taken in that type. *)
Definition multiplies_unsigned_int (a b : Z) : Z :=
  to_unsigned_int (to_unsigned_int a * to_unsigned_int b).

(** The mathematical product of a list of extents. *)
Definition product (l : list Z) : Z := foldr Z.mul 1 l.

(** ** Identifiers and calls of the HDF5 library *)

(** An [hid_t] as the wrapper sees it: one of the identifiers the library
    predefines, a value returned by an earlier library call, or the
    indeterminate content of a [new hid_t] that was never assigned. *)
Inductive hid_t : Type :=
| H5P_DEFAULT
| H5S_ALL
| H5T_NATIVE_FLOAT
| H5T_NATIVE_DOUBLE
| H5T_NATIVE_LDOUBLE
| H5T_NATIVE_INT
| H5T_NATIVE_UINT
| H5P_DATASET_XFER
| H5P_FILE_ACCESS
| Hid (z : Z)
| Indeterminate.

Inductive H5T_class_t : Type := H5T_COMPOUND.
Inductive H5S_seloper_t : Type := H5S_SELECT_SET.
Inductive H5FD_mpio_xfer_t : Type := H5FD_MPIO_INDEPENDENT | H5FD_MPIO_COLLECTIVE.
Inductive H5F_flags : Type := H5F_ACC_TRUNC | H5F_ACC_RDWR.

(** MPI communicators and info objects are opaque values passed through. *)
Definition MPI_Comm := Z.
Inductive MPI_Info : Type := MPI_INFO_NULL.

(** [Fatal] is a failed [Assert]; [Undefined] is undefined behaviour of the
    wrapper itself (dereferencing an empty or dangling shared pointer). *)
Inductive result (A : Type) : Type :=
| Ok (a : A)
| Fatal
| Undefined.
Arguments Ok {A} a.
Arguments Fatal {A}.
Arguments Undefined {A}.

Section Library.

(** The type of the elements of a data buffer. *)
Context {V : Type}.

(** The library functions hdf5.cc calls.  A pointer argument is given by
    what it points to; [None] is a [NULL] pointer. *)
Inductive H5call : Type :=
| H5Tcreate (class : H5T_class_t) (size : Z)
| H5Tinsert (parent : hid_t) (member_name : string) (offset : Z) (member : hid_t)
| H5Tclose (id : hid_t)
| H5Screate_simple (rank : Z) (dims : list Z) (maxdims : option (list Z))
| H5Sselect_elements (space : hid_t) (op : H5S_seloper_t) (num_elements : Z)
    (coord : list Z)
| H5Sselect_hyperslab (space : hid_t) (op : H5S_seloper_t) (start : list Z)
    (stride : option (list Z)) (count : list Z) (block : option (list Z))
| H5Sselect_none (space : hid_t)
| H5Sclose (id : hid_t)
| H5Dcreate2 (loc : hid_t) (dset_name : string) (type space lcpl dcpl dapl : hid_t)
| H5Dwrite (dset type mem_space file_space plist : hid_t) (buf : option (list V))
| H5Dclose (id : hid_t)
| H5Gcreate2 (loc : hid_t) (group_name : string) (lcpl gcpl gapl : hid_t)
| H5Gopen2 (loc : hid_t) (group_name : string) (gapl : hid_t)
| H5Gclose (id : hid_t)
| H5Pcreate (cls : hid_t)
| H5Pset_dxpl_mpio (plist : hid_t) (mode : H5FD_mpio_xfer_t)
| H5Pset_fapl_mpio (plist : hid_t) (comm : MPI_Comm) (info : MPI_Info)
| H5Pclose (id : hid_t)
| H5Fcreate (file_name : string) (flags : H5F_flags) (fcpl fapl : hid_t)
| H5Fopen (file_name : string) (flags : H5F_flags) (fapl : hid_t)
| H5Fclose (id : hid_t).

(** A call together with the integer ([hid_t] or [herr_t]) it returned. *)
Definition event : Type := H5call * Z.

(** ** Shared handles *)

(** The disposal action bound to a [std::shared_ptr<hid_t>] at construction:
    the lambda that closes the identifier before deleting the cell. *)
Inductive closer : Type := close_H5T | close_H5D | close_H5S | close_H5G | close_H5F.

Definition closer_call (c : closer) (id : hid_t) : H5call :=
  match c with
  | close_H5T => H5Tclose id
  | close_H5D => H5Dclose id
  | close_H5S => H5Sclose id
  | close_H5G => H5Gclose id
  | close_H5F => H5Fclose id
  end.

(** The control block of a shared pointer with the [hid_t] it manages.
    [deleter = None] is the default deleter (plain [delete]). *)
Record ctrl_block : Type := Block {
  value : hid_t;
  deleter : option closer;
  use_count : nat
}.

(** A [std::shared_ptr<hid_t>]: the address of its control block, or empty. *)
Definition shared_ptr : Type := option nat.

(** ** Program states and the monad of wrapper code *)

Record World : Type := mkWorld {
  trace : list event;
  heap : list ctrl_block
}.

Definition M (A : Type) : Type := World -> result A * World.

Definition ret {A} (a : A) : M A := fun w => (Ok a, w).

Definition bind {A B} (m : M A) (k : A -> M B) : M B :=
  fun w =>
    match m w with
    | (Ok a, w') => k a w'
    | (Fatal, w') => (Fatal, w')
    | (Undefined, w') => (Undefined, w')
    end.

Definition fatal {A} : M A := fun w => (Fatal, w).

End Library.

Arguments H5call : clear implicits.
Arguments event : clear implicits.
Arguments World : clear implicits.
Arguments M : clear implicits.

Declare Scope h5_scope.
Delimit Scope h5_scope with h5.
Notation "x <- m ;; k" := (bind m (fun x => k))
  (at level 100, m at next level, right associativity) : h5_scope.
Notation "m ;; k" := (bind m (fun _ => k))
  (at level 100, right associativity) : h5_scope.
Local Open Scope h5_scope.

Section Wrapper.

Context {V : Type}.

(** The HDF5 library: the value a call returns, given the calls before it. *)
Variable lib : list (event V) -> H5call V -> Z.

(** [sizeof(long double)] depends on the platform. *)
Variable sizeof_long_double : Z.

(** The members [rank] and [total_size] of [DataSet<T>] are declared in
    hdf5.h; hdf5.cc only uses them.  Their types are taken to be unsigned
    integer types of [rank_bits] and [total_size_bits] bits. *)
Variable rank_bits : Z.
Variable total_size_bits : Z.

(** Perform a library call: ask the library for the result and log both. *)
Definition call (c : H5call V) : M V Z :=
  fun w =>
    let r := lib (trace w) c in
    (Ok r, mkWorld (trace w ++ [(c, r)]) (heap w)).

(** [std::shared_ptr<hid_t>(new hid_t, d)]: a new cell with indeterminate
    content, owned once. *)
Definition new_hid (d : option closer) : M V shared_ptr :=
  fun w =>
    (Ok (Some (length (heap w))),
     mkWorld (trace w) (heap w ++ [Block Indeterminate d 1])).

(** [*p], read. *)
Definition load (p : shared_ptr) : M V hid_t :=
  fun w =>
    match p with
    | Some a =>
        match heap w !! a with
        | Some b => if Nat.eqb (use_count b) 0 then (Undefined, w) else (Ok (value b), w)
        | None => (Undefined, w)
        end
    | None => (Undefined, w)
    end.

(** [*p = v]. *)
Definition store (p : shared_ptr) (v : hid_t) : M V unit :=
  fun w =>
    match p with
    | Some a =>
        match heap w !! a with
        | Some b =>
            if Nat.eqb (use_count b) 0 then (Undefined, w)
            else (Ok tt,
                  mkWorld (trace w)
                    (<[a := Block v (deleter b) (use_count b)]> (heap w)))
        | None => (Undefined, w)
        end
    | None => (Undefined, w)
    end.

(** [p.reset()], and the destructor of a shared pointer: this owner gives up
    its share; the last owner runs the deleter on the cell.  Nothing happens
    on an empty pointer. *)
Definition reset (p : shared_ptr) : M V unit :=
  fun w =>
    match p with
    | None => (Ok tt, w)
    | Some a =>
        match heap w !! a with
        | Some b =>
            match use_count b with
            | O => (Undefined, w)
            | S O =>
                let w' := mkWorld (trace w)
                            (<[a := Block (value b) (deleter b) 0]> (heap w)) in
                match deleter b with
                | Some c => bind (call (closer_call c (value b))) (fun _ => ret tt) w'
                | None => (Ok tt, w')
                end
            | S n =>
                (Ok tt,
                 mkWorld (trace w) (<[a := Block (value b) (deleter b) n]> (heap w)))
            end
        | None => (Undefined, w)
        end
    end.

(** Modelled from the spec: the assertion macros [Assert] and
    [AssertDimension], which hdf5.cc uses and deal.II's base/exceptions.h
    defines (that header is not among the sources).  A violated condition
    takes the fatal path; [AssertDimension] compares its two arguments,
    given here after the conversion to their common type, for equality. *)
Definition Assert (cond : bool) : M V unit :=
  if cond then ret tt else fatal.

Definition AssertDimension (dim1 dim2 : Z) : M V unit :=
  Assert (dim1 =? dim2).

(** ** internal::get_hdf5_datatype *)

(** The element types the template is asked about: the eight the file
    instantiates, and a type outside that set. *)
Inductive ctype : Type :=
| t_float | t_double | t_long_double | t_int | t_unsigned_int
| t_complex_float | t_complex_double | t_complex_long_double
| t_other.

#[global] Instance ctype_eq_dec : EqDecision ctype.
Proof. solve_decision. Defined.

Definition sizeof_float : Z := 4.
Definition sizeof_double : Z := 8.

(** [sizeof(std::complex<F>)] is the size of an array [F[2]]. *)
Definition sizeof_complex (sizeof_F : Z) : Z := 2 * sizeof_F.

(** The branch of a primitive type: a plain cell holding the predefined
    identifier, default deleter. *)
Definition native_datatype (native : hid_t) : M V shared_ptr :=
  t_type <- new_hid None ;;
  store t_type native ;;
  ret t_type.

(** The branch of a complex type. *)
Definition compound_datatype (native : hid_t) (sizeof_F : Z) : M V shared_ptr :=
  t_type <- new_hid (Some close_H5T) ;;
  id <- call (H5Tcreate H5T_COMPOUND (sizeof_complex sizeof_F)) ;;
  store t_type (Hid id) ;;
  t <- load t_type ;;
  call (H5Tinsert t "r" 0 native) ;;
  t <- load t_type ;;
  call (H5Tinsert t "i" sizeof_F native) ;;
  ret t_type.

Definition get_hdf5_datatype (T : ctype) : M V shared_ptr :=
  match T with
  | t_float => native_datatype H5T_NATIVE_FLOAT
  | t_double => native_datatype H5T_NATIVE_DOUBLE
  | t_long_double => native_datatype H5T_NATIVE_LDOUBLE
  | t_int => native_datatype H5T_NATIVE_INT
  | t_unsigned_int => native_datatype H5T_NATIVE_UINT
  | t_complex_float => compound_datatype H5T_NATIVE_FLOAT sizeof_float
  | t_complex_double => compound_datatype H5T_NATIVE_DOUBLE sizeof_double
  | t_complex_long_double => compound_datatype H5T_NATIVE_LDOUBLE sizeof_long_double
  | t_other => Assert false ;; ret None
  end.

(** ** HDF5Object, DataSet<T> *)

Record HDF5Object : Type := mkObject {
  name : string;
  mpi : bool;
  hdf5_reference : shared_ptr
}.

Inductive Mode : Type := create | open.

Record DataSet : Type := mkDataSet {
  base : HDF5Object;
  rank : Z;
  dimensions : list Z;
  t_type : shared_ptr;
  dataspace : shared_ptr;
  total_size : Z
}.

(** [v.size()] of a [std::vector]. *)
Definition size {A} (v : list A) : Z := Z.of_nat (length v).

(** The loop [total_size = 1; for (d : dimensions) total_size *= d;]: each
    product is taken in [hsize_t] and stored back into [total_size]. *)
Definition compute_total_size (dims : list Z) : Z :=
  fold_left (fun acc d => wrap total_size_bits (to_size_t (acc * d)))
    dims (wrap total_size_bits 1).

Definition DataSet_ctor (T : ctype) (name : string) (parent_group_id : hid_t)
    (dimensions : list Z) (mpi : bool) (mode : Mode) : M V DataSet :=
  let rank := wrap rank_bits (size dimensions) in
  t_type <- get_hdf5_datatype T ;;
  hdf5_reference <- new_hid (Some close_H5D) ;;
  dataspace <- new_hid (Some close_H5S) ;;
  let total_size := compute_total_size dimensions in
  match mode with
  | create =>
      space <- call (H5Screate_simple rank dimensions None) ;;
      store dataspace (Hid space) ;;
      type <- load t_type ;;
      space <- load dataspace ;;
      dset <- call (H5Dcreate2 parent_group_id name type space
                      H5P_DEFAULT H5P_DEFAULT H5P_DEFAULT) ;;
      store hdf5_reference (Hid dset)
  | open =>
      id <- call (H5Gopen2 parent_group_id name H5P_DEFAULT) ;;
      store hdf5_reference (Hid id)
  end ;;
  ret (mkDataSet (mkObject name mpi hdf5_reference)
         rank dimensions t_type dataspace total_size).

(** [~DataSet]: the body resets the dataset handle, then the dataspace;
    after the body the remaining member that still owns something, [t_type],
    is destroyed. *)
Definition DataSet_dtor (ds : DataSet) : M V unit :=
  reset (hdf5_reference (base ds)) ;;
  reset (dataspace ds) ;;
  reset (t_type ds).

(** ** Write operations of DataSet<T> *)

(** The dense matrix [FullMatrix<T>] is an external collaborator: [m()]
    rows, [n()] columns, and the contiguous row-major storage that
    [&*data.begin()] points to. *)
Record FullMatrix : Type := mkFullMatrix {
  m : Z;
  n : Z;
  elements : list V
}.

(** The block [if (mpi) { plist = H5Pcreate(H5P_DATASET_XFER);
    H5Pset_dxpl_mpio(plist, H5FD_MPIO_COLLECTIVE); } else
    { plist = H5P_DEFAULT; }] that every write operation starts with. *)
Definition transfer_plist (mpi : bool) : M V hid_t :=
  if mpi then
    plist <- call (H5Pcreate H5P_DATASET_XFER) ;;
    call (H5Pset_dxpl_mpio (Hid plist) H5FD_MPIO_COLLECTIVE) ;;
    ret (Hid plist)
  else ret H5P_DEFAULT.

(** The block [if (mpi) { H5Pclose(plist); }] that follows the write. *)
Definition transfer_plist_close (mpi : bool) (plist : hid_t) : M V unit :=
  if mpi then call (H5Pclose plist) ;; ret tt else ret tt.

(** [write_data(const std::vector<T> &)]. *)
Definition write_data (ds : DataSet) (data : list V) : M V unit :=
  AssertDimension (total_size ds) (size data) ;;
  plist <- transfer_plist (mpi (base ds)) ;;
  dset <- load (hdf5_reference (base ds)) ;;
  type <- load (t_type ds) ;;
  call (H5Dwrite dset type H5S_ALL H5S_ALL plist (Some data)) ;;
  transfer_plist_close (mpi (base ds)) plist.

(** [write_data(const FullMatrix<T> &)]. *)
Definition write_data_matrix (ds : DataSet) (data : FullMatrix) : M V unit :=
  AssertDimension (total_size ds) (to_size_t (m data * n data)) ;;
  plist <- transfer_plist (mpi (base ds)) ;;
  dset <- load (hdf5_reference (base ds)) ;;
  type <- load (t_type ds) ;;
  call (H5Dwrite dset type H5S_ALL H5S_ALL plist (Some (elements data))) ;;
  transfer_plist_close (mpi (base ds)) plist.

Definition write_data_selection (ds : DataSet) (data : list V)
    (coordinates : list Z) : M V unit :=
  AssertDimension (size coordinates) (to_size_t (size data * rank ds)) ;;
  let data_dimensions := [size data] in
  memory_dataspace <- call (H5Screate_simple 1 data_dimensions None) ;;
  space <- load (dataspace ds) ;;
  call (H5Sselect_elements space H5S_SELECT_SET (size data) coordinates) ;;
  plist <- transfer_plist (mpi (base ds)) ;;
  dset <- load (hdf5_reference (base ds)) ;;
  type <- load (t_type ds) ;;
  space <- load (dataspace ds) ;;
  call (H5Dwrite dset type (Hid memory_dataspace) space plist (Some data)) ;;
  transfer_plist_close (mpi (base ds)) plist ;;
  call (H5Sclose (Hid memory_dataspace)) ;;
  ret tt.

(** [std::accumulate(count.begin(), count.end(), 1,
    std::multiplies<unsigned int>())]: the accumulator has the type of the
    initial value [1], which is [int]; each step stores the [unsigned int]
    product back into it. *)
Definition accumulate_count (count : list Z) : Z :=
  fold_left (fun acc c => to_int (multiplies_unsigned_int acc c)) count 1.

(** [write_data_hyperslab(const std::vector<T> &, offset, count)]. *)
Definition write_data_hyperslab (ds : DataSet) (data : list V)
    (offset count : list Z) : M V unit :=
  AssertDimension (to_size_t (accumulate_count count)) (size data) ;;
  let data_dimensions := [size data] in
  memory_dataspace <- call (H5Screate_simple 1 data_dimensions None) ;;
  space <- load (dataspace ds) ;;
  call (H5Sselect_hyperslab space H5S_SELECT_SET offset None count None) ;;
  plist <- transfer_plist (mpi (base ds)) ;;
  dset <- load (hdf5_reference (base ds)) ;;
  type <- load (t_type ds) ;;
  space <- load (dataspace ds) ;;
  call (H5Dwrite dset type (Hid memory_dataspace) space plist (Some data)) ;;
  transfer_plist_close (mpi (base ds)) plist ;;
  call (H5Sclose (Hid memory_dataspace)) ;;
  ret tt.

(** [write_data_hyperslab(const FullMatrix<T> &, offset, count)]. *)
Definition write_data_hyperslab_matrix (ds : DataSet) (data : FullMatrix)
    (offset count : list Z) : M V unit :=
  AssertDimension (to_size_t (accumulate_count count))
    (to_size_t (m data * n data)) ;;
  let data_dimensions := [m data; n data] in
  memory_dataspace <- call (H5Screate_simple 2 data_dimensions None) ;;
  space <- load (dataspace ds) ;;
  call (H5Sselect_hyperslab space H5S_SELECT_SET offset None count None) ;;
  plist <- transfer_plist (mpi (base ds)) ;;
  dset <- load (hdf5_reference (base ds)) ;;
  type <- load (t_type ds) ;;
  space <- load (dataspace ds) ;;
  call (H5Dwrite dset type (Hid memory_dataspace) space plist
          (Some (elements data))) ;;
  transfer_plist_close (mpi (base ds)) plist ;;
  call (H5Sclose (Hid memory_dataspace)) ;;
  ret tt.

Definition write_data_none (ds : DataSet) : M V unit :=
  let data_dimensions := [0] in
  memory_dataspace <- call (H5Screate_simple 1 data_dimensions None) ;;
  space <- load (dataspace ds) ;;
  call (H5Sselect_none space) ;;
  plist <- transfer_plist (mpi (base ds)) ;;
  dset <- load (hdf5_reference (base ds)) ;;
  type <- load (t_type ds) ;;
  space <- load (dataspace ds) ;;
  call (H5Dwrite dset type (Hid memory_dataspace) space plist None) ;;
  transfer_plist_close (mpi (base ds)) plist ;;
  call (H5Sclose (Hid memory_dataspace)) ;;
  ret tt.

(** ** Group and File *)

(** A [Group] adds no member to [HDF5Object]. *)
Definition Group : Type := HDF5Object.

(** [Group(name, parentGroup, mpi, mode)]. *)
Definition Group_ctor (name : string) (parentGroup : Group) (mpi : bool)
    (mode : Mode) : M V Group :=
  this_reference <- new_hid (Some close_H5G) ;;
  match mode with
  | create =>
      parent <- load (hdf5_reference parentGroup) ;;
      id <- call (H5Gcreate2 parent name H5P_DEFAULT H5P_DEFAULT H5P_DEFAULT) ;;
      store this_reference (Hid id)
  | open =>
      parent <- load (hdf5_reference parentGroup) ;;
      id <- call (H5Gopen2 parent name H5P_DEFAULT) ;;
      store this_reference (Hid id)
  end ;;
  ret (mkObject name mpi this_reference).

(** [Group(name, mpi)], the constructor [File] builds on: no handle yet. *)
Definition Group_ctor_root (name : string) (mpi : bool) : Group :=
  mkObject name mpi None.

Definition group (this : Group) (name : string) : M V Group :=
  Group_ctor name this (mpi this) open.

Definition create_group (this : Group) (name : string) : M V Group :=
  Group_ctor name this (mpi this) create.

Definition create_dataset (T : ctype) (this : Group) (name : string)
    (dimensions : list Z) : M V DataSet :=
  parent <- load (hdf5_reference this) ;;
  DataSet_ctor T name parent dimensions (mpi this) create.

(** [write_dataset(name, const std::vector<T> &)]; the local [dataset] is
    destroyed when the function returns. *)
Definition write_dataset (T : ctype) (this : Group) (name : string)
    (data : list V) : M V unit :=
  let dimensions := [size data] in
  dataset <- create_dataset T this name dimensions ;;
  write_data dataset data ;;
  DataSet_dtor dataset.

(** [write_dataset(name, const FullMatrix<T> &)]. *)
Definition write_dataset_matrix (T : ctype) (this : Group) (name : string)
    (data : FullMatrix) : M V unit :=
  let dimensions := [m data; n data] in
  dataset <- create_dataset T this name dimensions ;;
  write_data_matrix dataset data ;;
  DataSet_dtor dataset.

(** [File(name, mpi, mpi_communicator, mode)]. *)
Definition File_ctor (name : string) (mpi : bool) (mpi_communicator : MPI_Comm)
    (mode : Mode) : M V Group :=
  hdf5_reference <- new_hid (Some close_H5F) ;;
  plist <- (if mpi then
              plist <- call (H5Pcreate H5P_FILE_ACCESS) ;;
              call (H5Pset_fapl_mpio (Hid plist) mpi_communicator MPI_INFO_NULL) ;;
              ret (Hid plist)
            else ret H5P_DEFAULT) ;;
  match mode with
  | create =>
      id <- call (H5Fcreate name H5F_ACC_TRUNC H5P_DEFAULT plist) ;;
      store hdf5_reference (Hid id)
  | open =>
      id <- call (H5Fopen name H5F_ACC_RDWR plist) ;;
      store hdf5_reference (Hid id)
  end ;;
  (if mpi then call (H5Pclose plist) ;; ret tt else ret tt) ;;
  ret (mkObject name mpi hdf5_reference).

End Wrapper.

(** A library for running the wrapper on concrete inputs: every call
    returns the number of calls made before it, plus one. *)
Definition counting_lib {V} (history : list (event V)) (c : H5call V) : Z :=
  size history + 1.

Definition empty_world {V} : World V := mkWorld [] [].

(** A concrete scenario: with that library, the state reached from the
    empty one by creating the file "f.h5" for collective access and, under
    it, the 2x3 dataset "d" of doubles. *)
Definition demo_file : Group := mkObject "f.h5" true (Some 0%nat).

Definition demo_file_world : World Z :=
  mkWorld
    [(H5Pcreate H5P_FILE_ACCESS, 1);
     (H5Pset_fapl_mpio (Hid 1) 0 MPI_INFO_NULL, 2);
     (H5Fcreate "f.h5" H5F_ACC_TRUNC H5P_DEFAULT (Hid 1), 3);
     (H5Pclose (Hid 1), 4)]
    [Block (Hid 3) (Some close_H5F) 1].

Definition demo_dataset : DataSet :=
  mkDataSet (mkObject "d" true (Some 2%nat)) 2 [2; 3]
    (Some 1%nat) (Some 3%nat) 6.

Definition demo_world : World Z :=
  mkWorld
    (trace demo_file_world ++
     [(H5Screate_simple 2 [2; 3] None, 5);
      (H5Dcreate2 (Hid 3) "d" H5T_NATIVE_DOUBLE (Hid 5)
         H5P_DEFAULT H5P_DEFAULT H5P_DEFAULT, 6)])
    (heap demo_file_world ++
     [Block H5T_NATIVE_DOUBLE None 1;
      Block (Hid 6) (Some close_H5D) 1;
      Block (Hid 5) (Some close_H5S) 1]).

(** * What a run is observed to do

    The vocabulary in which the properties below are stated. *)

Section Observations.

Context {V : Type}.
Variable lib : list (event V) -> H5call V -> Z.
Variable sizeof_long_double rank_bits total_size_bits : Z.

(** The trace after one more call. *)
Definition perform (t : list (event V)) (c : H5call V) : list (event V) :=
  t ++ [(c, lib t c)].

(** [p] is a live shared pointer to a cell of [h] that holds [v]. *)
Definition points_to (h : list ctrl_block) (p : shared_ptr) (v : hid_t) : Prop :=
  exists a b, p = Some a /\ h !! a = Some b /\ use_count b <> O /\ value b = v.

(** The calls of one [H5Dwrite] of [buf] from [mem_space] to [file_space]:
    under [mpi] it is preceded by the creation of a transfer property list
    set to collective mode and followed by its release; otherwise it is made
    with [H5P_DEFAULT] and nothing else. *)
Definition transfer_write (mpi : bool) (t : list (event V))
    (dset type mem_space file_space : hid_t) (buf : option (list V)) :
    list (event V) :=
  if mpi then
    let plist := Hid (lib t (H5Pcreate H5P_DATASET_XFER)) in
    perform
      (perform
         (perform (perform t (H5Pcreate H5P_DATASET_XFER))
            (H5Pset_dxpl_mpio plist H5FD_MPIO_COLLECTIVE))
         (H5Dwrite dset type mem_space file_space plist buf))
      (H5Pclose plist)
  else perform t (H5Dwrite dset type mem_space file_space H5P_DEFAULT buf).

(** The calls of a write through a selection: a memory dataspace of extent
    [mem_dims] is created, [select] is applied to the dataset's dataspace
    [space], the write goes from the one to the other, and the memory
    dataspace is closed. *)
Definition selected_write (mpi : bool) (t : list (event V)) (mem_dims : list Z)
    (select : hid_t -> H5call V) (dset type space : hid_t)
    (buf : option (list V)) : list (event V) :=
  let c := H5Screate_simple (size mem_dims) mem_dims None in
  let memory_dataspace := Hid (lib t c) in
  perform
    (transfer_write mpi (perform (perform t c) (select space))
       dset type memory_dataspace space buf)
    (H5Sclose memory_dataspace).

(** Calls that concern a property list, and the write itself. *)
Definition transfer_or_write (c : H5call V) : bool :=
  match c with
  | H5Pcreate _ | H5Pset_dxpl_mpio _ _ | H5Pset_fapl_mpio _ _ _ | H5Pclose _
  | H5Dwrite _ _ _ _ _ _ => true
  | _ => false
  end.

Definition plain (es : list (event V)) : Prop :=
  Forall (fun e => transfer_or_write (fst e) = false) es.

(** The calls [es] contain one write, made inside a transfer property list
    that was created for it, set to collective mode before the write and
    closed after it. *)
Definition collective_write (es : list (event V)) : Prop :=
  exists before plist r1 dset type ms fs buf r2 r3 after,
    es = before ++
         [(H5Pcreate H5P_DATASET_XFER, plist);
          (H5Pset_dxpl_mpio (Hid plist) H5FD_MPIO_COLLECTIVE, r1);
          (H5Dwrite dset type ms fs (Hid plist) buf, r2);
          (H5Pclose (Hid plist), r3)] ++ after /\
    plain before /\ plain after.

(** The calls [es] contain one write, made with the default transfer
    property list, and no property list call at all. *)
Definition default_write (es : list (event V)) : Prop :=
  exists before dset type ms fs buf r after,
    es = before ++ [(H5Dwrite dset type ms fs H5P_DEFAULT buf, r)] ++ after /\
    plain before /\ plain after.

(** The six write operations of [DataSet<T>]. *)
Inductive write_request : Type :=
| FullVector (data : list V)
| FullMatrixData (data : @FullMatrix V)
| Selection (data : list V) (coordinates : list Z)
| Hyperslab (data : list V) (offset count : list Z)
| HyperslabMatrix (data : @FullMatrix V) (offset count : list Z)
| NoData.

Definition issue (ds : DataSet) (req : write_request) : M V unit :=
  match req with
  | FullVector data => write_data lib ds data
  | FullMatrixData data => write_data_matrix lib ds data
  | Selection data coordinates => write_data_selection lib ds data coordinates
  | Hyperslab data offset count => write_data_hyperslab lib ds data offset count
  | HyperslabMatrix data offset count =>
      write_data_hyperslab_matrix lib ds data offset count
  | NoData => write_data_none lib ds
  end.

(** The two operands of the [AssertDimension] with which each write
    begins, before its first call; [write_data_none] asserts nothing. *)
Definition asserted_dimensions (ds : DataSet) (req : write_request) :
    option (Z * Z) :=
  match req with
  | FullVector data => Some (total_size ds, size data)
  | FullMatrixData data => Some (total_size ds, to_size_t (m data * n data))
  | Selection data coordinates =>
      Some (size coordinates, to_size_t (size data * rank ds))
  | Hyperslab data offset count =>
      Some (to_size_t (accumulate_count count), size data)
  | HyperslabMatrix data offset count =>
      Some (to_size_t (accumulate_count count), to_size_t (m data * n data))
  | NoData => None
  end.

(** The assertion of the write, if it has one, holds. *)
Definition check_passes (ds : DataSet) (req : write_request) : bool :=
  match asserted_dimensions ds req with
  | Some (dim1, dim2) => dim1 =? dim2
  | None => true
  end.

(** A command that leaves every cell of the heap as it is, however it
    ends. *)
Definition keeps_heap {A} (c : M V A) : Prop :=
  forall w r w', c w = (r, w') -> heap w' = heap w.

(** The sequence a caller issues by hand, in the words of the
    specification, as three separate statements on the caller's side:
    create the dataset with the given dimensions under the group; if that
    returned, write the whole buffer to the dataset it returned; if that
    returned too, leave the scope, which destroys the caller's dataset
    object.  [write] is the full-array write for the kind of buffer. *)
Definition create_then_write {D} (write : DataSet -> D -> M V unit) (T : ctype)
    (g : Group) (name : string) (dimensions : list Z) (data : D)
    (w : World V) : result unit * World V :=
  match create_dataset lib sizeof_long_double rank_bits total_size_bits
          T g name dimensions w with
  | (Ok dataset, after_create) =>
      match write dataset data after_create with
      | (Ok _, after_write) => DataSet_dtor lib dataset after_write
      | (Fatal, after_write) => (Fatal, after_write)
      | (Undefined, after_write) => (Undefined, after_write)
      end
  | (Fatal, after_create) => (Fatal, after_create)
  | (Undefined, after_create) => (Undefined, after_create)
  end.


(** What it means for [get_hdf5_datatype<T>] to answer with an owned
    compound descriptor of two [native] fields of [width] bytes each: from
    any state, the call returns a pointer to a new cell; the cell holds the
    identifier [id] that [H5Tcreate(H5T_COMPOUND, ...)] returned in this very
    call; exactly two members were inserted into [id], "r" at offset 0 and
    "i" at offset [width], both of type [native]; and giving up the pointer
    closes [id] with [H5Tclose]. *)
Definition owned_compound_descriptor (T : ctype) (native : hid_t) (width : Z) : Prop :=
  forall w : World V, exists id r1 r2 r3 w' w'',
    get_hdf5_datatype lib sizeof_long_double T w = (Ok (Some (length (heap w))), w') /\
    trace w' = trace w ++ [(H5Tcreate H5T_COMPOUND (2 * width), id);
                           (H5Tinsert (Hid id) "r" 0 native, r1);
                           (H5Tinsert (Hid id) "i" width native, r2)] /\
    heap w' = heap w ++ [Block (Hid id) (Some close_H5T) 1] /\
    reset lib (Some (length (heap w))) w' = (Ok tt, w'') /\
    trace w'' = trace w' ++ [(H5Tclose (Hid id), r3)].

End Observations.

(** * The rest of the file: more of the wrapper and of its vocabulary *)

Section MoreWrapper.

Context {V : Type}.
Variable lib : list (event V) -> H5call V -> Z.

(** [MPI_COMM_NULL] is a constant of the MPI implementation. *)
Variable MPI_COMM_NULL : MPI_Comm.

(** [File(name, mpi_communicator, mode)]. *)
Definition File_ctor_mpi (name : string) (mpi_communicator : MPI_Comm)
    (mode : Mode) : M V Group :=
  File_ctor lib name true mpi_communicator mode.

(** [File(name, mode)]. *)
Definition File_ctor_serial (name : string) (mode : Mode) : M V Group :=
  File_ctor lib name false MPI_COMM_NULL mode.

(** The destructor of an [HDF5Object] (a [Group] or a [File]): its one
    member that owns something is destroyed. *)
Definition HDF5Object_dtor (obj : HDF5Object) : M V unit :=
  reset lib (hdf5_reference obj).

(** The identifier a call brings into being, and the identifier a call
    closes. *)
Definition created (e : event V) : option hid_t :=
  match fst e with
  | H5Tcreate _ _ | H5Screate_simple _ _ _ | H5Dcreate2 _ _ _ _ _ _ _
  | H5Gcreate2 _ _ _ _ _ | H5Gopen2 _ _ _ | H5Pcreate _
  | H5Fcreate _ _ _ _ | H5Fopen _ _ _ => Some (Hid (snd e))
  | _ => None
  end.

Definition closed (e : event V) : option hid_t :=
  match fst e with
  | H5Tclose id | H5Sclose id | H5Dclose id | H5Gclose id | H5Pclose id
  | H5Fclose id => Some id
  | _ => None
  end.

(** Whether a call transfers data to the file. *)
Definition is_H5Dwrite (e : event V) : bool :=
  match fst e with
  | H5Dwrite _ _ _ _ _ _ => true
  | _ => false
  end.

Definition created_ids (es : list (event V)) : list hid_t := omap created es.
Definition closed_ids (es : list (event V)) : list hid_t := omap closed es.

(** The predefined identifier of each primitive element type. *)
Definition native_of (T : ctype) : option hid_t :=
  match T with
  | t_float => Some H5T_NATIVE_FLOAT
  | t_double => Some H5T_NATIVE_DOUBLE
  | t_long_double => Some H5T_NATIVE_LDOUBLE
  | t_int => Some H5T_NATIVE_INT
  | t_unsigned_int => Some H5T_NATIVE_UINT
  | _ => None
  end.

End MoreWrapper.

(** * Attributes of an HDF5Object

    [HDF5Object::attr<T>], its three specialisations and
    [HDF5Object::write_attr<T>] call library functions that the rest of the
    file does not, and some of these hand data back through a pointer
    argument.  They get a log of their own: the calls above are entered in
    it as they are made, between the attribute calls, so that the order of
    all calls is kept. *)

Inductive H5S_class_t : Type := H5S_SCALAR.
Inductive H5T_cset_t : Type := H5T_CSET_UTF8.

(** The two buffers the attribute functions release with [free]. *)
Inductive buffer : Type := string_out | hdf5_data.

Section AttributeLibrary.

Context {V : Type}.

(** The further functions called; [H5Tcopy_C_S1] is [H5Tcopy(H5T_C_S1)].
    A buffer argument that the library fills is left out of the call: what
    it holds afterwards is asked of the library separately. *)
Inductive H5Acall : Type :=
| H5Aopen (obj : hid_t) (attr_name : string) (aapl : hid_t)
| H5Aread (attr type : hid_t)
| H5Aclose (attr : hid_t)
| H5Acreate2 (loc : hid_t) (attr_name : string) (type space acpl aapl : hid_t)
| H5Awrite (attr type : hid_t) (value : V)
| H5Aget_space (attr : hid_t)
| H5Sget_simple_extent_ndims (space : hid_t)
| H5Sget_simple_extent_dims (space : hid_t)
| H5Screate (class : H5S_class_t)
| H5Tcopy_C_S1
| H5Tset_cset (type : hid_t) (cset : H5T_cset_t)
| H5Tset_size_variable (type : hid_t)
| malloc (bytes : Z)
| free (b : buffer).

Inductive aevent : Type :=
| Base (e : event V)
| Attr (c : H5Acall) (r : Z).

(** The library as the attribute functions see it: the integer a call
    returns, and what the buffer passed to it holds when it has returned,
    read at the type the caller declared the buffer with: a [T], an [int],
    a [char *], the array [hdf5_data] of doubles, the array [dims] of two
    [hsize_t]. *)
Record AttrLib : Type := mkAttrLib {
  returns : list aevent -> H5Acall -> Z;
  value_read : list aevent -> H5Acall -> V;
  int_read : list aevent -> H5Acall -> Z;
  string_read : list aevent -> H5Acall -> string;
  doubles_read : list aevent -> H5Acall -> Z -> V;
  dims_read : list aevent -> H5Acall -> Z * Z
}.

Record AWorld : Type := mkAWorld {
  world : World V;
  log : list aevent
}.

Definition MA (A : Type) : Type := AWorld -> result A * AWorld.

Definition aret {A} (a : A) : MA A := fun aw => (Ok a, aw).

Definition aundefined {A} : MA A := fun aw => (Undefined, aw).

Definition abind {A B} (c : MA A) (k : A -> MA B) : MA B :=
  fun aw =>
    match c aw with
    | (Ok a, aw') => k a aw'
    | (Fatal, aw') => (Fatal, aw')
    | (Undefined, aw') => (Undefined, aw')
    end.

(** A command of the rest of the file, run here: the calls it adds to the
    trace are entered in the log. *)
Definition lift {A} (c : M V A) : MA A :=
  fun aw =>
    match c (world aw) with
    | (r, w') =>
        (r, mkAWorld w'
              (log aw ++
               map Base (drop (length (trace (world aw))) (trace w'))))
    end.

End AttributeLibrary.

Arguments H5Acall : clear implicits.
Arguments aevent : clear implicits.
Arguments AttrLib : clear implicits.
Arguments AWorld : clear implicits.
Arguments MA : clear implicits.

Declare Scope attr_scope.
Delimit Scope attr_scope with attr.
Notation "x <- c ;; k" := (abind c (fun x => k))
  (at level 100, c at next level, right associativity) : attr_scope.
Notation "c ;; k" := (abind c (fun _ => k))
  (at level 100, right associativity) : attr_scope.

(** Where a counted loop stands after a number of tests of its condition:
    it has ended, it is still running, or its body has read outside the
    block it reads from. *)
Inductive loop (S : Type) : Type :=
| Finished (s : S)
| Running
| Overrun.

Arguments Finished {S} s.
Arguments Running {S}.
Arguments Overrun {S}.

Section Attributes.

Context {V : Type}.
Variable lib : list (event V) -> H5call V -> Z.
Variable alib : AttrLib V.
Variable sizeof_long_double : Z.

(** The value a value-initialised element of a [FullMatrix] has. *)
Variable zero : V.

Local Open Scope attr_scope.

(** An attribute call that returns an integer and fills no buffer that is
    read afterwards. *)
Definition acall (c : H5Acall V) : MA V Z :=
  fun aw =>
    let r := returns alib (log aw) c in
    (Ok r, mkAWorld (world aw) (log aw ++ [Attr c r])).

(** An attribute call that fills a buffer: what it returned, and what the
    buffer holds. *)
Definition aread {A} (buffer_after : AttrLib V -> list (aevent V) -> H5Acall V -> A)
    (c : H5Acall V) : MA V (Z * A) :=
  fun aw =>
    let r := returns alib (log aw) c in
    (Ok (r, buffer_after alib (log aw) c),
     mkAWorld (world aw) (log aw ++ [Attr c r])).

(** [attr<T>(attr_name)], the primary template. *)
Definition attr (T : ctype) (this : HDF5Object) (attr_name : string) : MA V V :=
  t_type <- lift (get_hdf5_datatype lib sizeof_long_double T) ;;
  obj <- lift (load (hdf5_reference this)) ;;
  attr <- acall (H5Aopen obj attr_name H5P_DEFAULT) ;;
  type <- lift (load t_type) ;;
  read <- aread value_read (H5Aread (Hid attr) type) ;;
  acall (H5Aclose (Hid attr)) ;;
  lift (reset lib t_type) ;;
  aret (snd read).

(** [attr<bool>(attr_name)]. *)
Definition attr_bool (this : HDF5Object) (attr_name : string) : MA V bool :=
  obj <- lift (load (hdf5_reference this)) ;;
  attr <- acall (H5Aopen obj attr_name H5P_DEFAULT) ;;
  read <- aread int_read (H5Aread (Hid attr) H5T_NATIVE_INT) ;;
  acall (H5Aclose (Hid attr)) ;;
  let int_value := snd read in
  let bool_value := negb (int_value =? 0) in
  aret bool_value.

(** [attr<std::string>(attr_name)].  The second assertion tests [type]
    again, as the source does, not the result of [H5Tset_cset]. *)
Definition attr_string (this : HDF5Object) (attr_name : string) : MA V string :=
  type <- acall H5Tcopy_C_S1 ;;
  lift (Assert (0 <=? type)) ;;
  ret <- acall (H5Tset_cset (Hid type) H5T_CSET_UTF8) ;;
  lift (Assert (0 <=? type)) ;;
  ret <- acall (H5Tset_size_variable (Hid type)) ;;
  lift (Assert (0 <=? ret)) ;;
  obj <- lift (load (hdf5_reference this)) ;;
  attr <- acall (H5Aopen obj attr_name H5P_DEFAULT) ;;
  lift (Assert (0 <=? attr)) ;;
  read <- aread string_read (H5Aread (Hid attr) (Hid type)) ;;
  lift (Assert (0 <=? fst read)) ;;
  let string_value := snd read in
  acall (free string_out) ;;
  lift (call lib (H5Tclose (Hid type))) ;;
  acall (H5Aclose (Hid attr)) ;;
  aret string_value.

(** [AssertDimension(dim1, dim2)] with a library call as [dim1].  The
    operand is the argument of a macro: it is evaluated for the comparison
    and, when the comparison fails, once more for the exception the
    assertion raises, so that the call is then made twice. *)
Definition AssertDimension_of_call (dim1 : H5Acall V) (dim2 : Z) : MA V unit :=
  compared <- acall dim1 ;;
  if compared =? dim2 then aret tt
  else (acall dim1 ;; lift fatal).

(** [for (unsigned int i = start; i < bound; ++i) body], with [bound] an
    [hsize_t]: the counter wraps at 2^32.  The loop is run for at most
    [fuel] tests of its condition. *)
Fixpoint for_unsigned {S} (fuel : nat) (i bound : Z) (body : Z -> S -> loop S)
    (s : S) : loop S :=
  match fuel with
  | O => Running
  | Datatypes.S fuel' =>
      if i <? bound then
        match body i s with
        | Finished s' => for_unsigned fuel' (to_unsigned_int (i + 1)) bound body s'
        | Running => Running
        | Overrun => Overrun
        end
      else Finished s
  end.

(** [FullMatrix<double> matrix_value(rows, cols)]: the storage is
    value-initialised.  A constructor that cannot allocate leaves the
    function by an exception; like every allocation made by [new] or by a
    container in this development, this one is taken to succeed. *)
Definition new_matrix (rows cols : Z) : FullMatrix :=
  mkFullMatrix rows cols (replicate (Z.to_nat (rows * cols)) zero).

(** [matrix[i][j] = x] on the row-major storage. *)
Definition set_entry (matrix : FullMatrix) (i j : Z) (x : V) : FullMatrix :=
  mkFullMatrix (m matrix) (n matrix)
    (<[Z.to_nat (i * n matrix + j) := x]> (elements matrix)).

(** The address [block] that [malloc(bytes)] returned: 0 is [NULL], which
    [malloc] returns when it cannot allocate.  [H5Aread] stores the whole
    attribute, [count] values, in the buffer it is given, and refuses a
    [NULL] buffer: the block has to hold them. *)
Definition holds_attribute (block bytes count : Z) : bool :=
  (block =? 0) || (sizeof_double * count <=? bytes).

(** [hdf5_data[k]]: defined when the block exists and extends over the
    element. *)
Definition read_double (block bytes : Z) (content : Z -> V) (k : Z) :
    option V :=
  if negb (block =? 0) && (0 <=? k) && (sizeof_double * (k + 1) <=? bytes)
  then Some (content k)
  else None.

(** The two nested loops that copy [hdf5_data] into the matrix. *)
Definition copy_rows (fuel : nat) (dims0 dims1 : Z) (block bytes : Z)
    (content : Z -> V) (matrix_value : FullMatrix) : loop FullMatrix :=
  for_unsigned fuel 0 dims0
    (fun dim0_idx matrix =>
       for_unsigned fuel 0 dims1
         (fun dim1_idx matrix =>
            match read_double block bytes content
                    (to_size_t (dim0_idx * dims1 + dim1_idx)) with
            | Some x => Finished (set_entry matrix dim0_idx dim1_idx x)
            | None => Overrun
            end)
         matrix)
    matrix_value.

(** [attr<FullMatrix<double>>(attr_name)]; [None] is returned when the
    copying loops are still running after [fuel] tests.  The result of
    [malloc] is not tested by the code: reading the attribute into a block
    that is too small for it, or copying from a block that is not there,
    is undefined behaviour. *)
Definition attr_matrix (fuel : nat) (this : HDF5Object) (attr_name : string) :
    MA V (option FullMatrix) :=
  obj <- lift (load (hdf5_reference this)) ;;
  attr <- acall (H5Aopen obj attr_name H5P_DEFAULT) ;;
  attr_space <- acall (H5Aget_space (Hid attr)) ;;
  AssertDimension_of_call (H5Sget_simple_extent_ndims (Hid attr_space)) 2 ;;
  dims <- aread dims_read (H5Sget_simple_extent_dims (Hid attr_space)) ;;
  let dims0 := fst (snd dims) in
  let dims1 := snd (snd dims) in
  let matrix_value := new_matrix dims0 dims1 in
  let bytes := to_size_t (dims0 * dims1 * sizeof_double) in
  block <- acall (malloc bytes) ;;
  read <- aread doubles_read (H5Aread (Hid attr) H5T_NATIVE_DOUBLE) ;;
  if holds_attribute block bytes (dims0 * dims1) then
    match copy_rows fuel dims0 dims1 block bytes (snd read) matrix_value with
    | Running => aret None
    | Overrun => aundefined
    | Finished matrix_value =>
        lift (call lib (H5Sclose (Hid attr_space))) ;;
        acall (H5Aclose (Hid attr)) ;;
        acall (free hdf5_data) ;;
        aret (Some matrix_value)
    end
  else aundefined.

(** [write_attr<T>(attr_name, value)]. *)
Definition write_attr (T : ctype) (this : HDF5Object) (attr_name : string)
    (value : V) : MA V unit :=
  t_type <- lift (get_hdf5_datatype lib sizeof_long_double T) ;;
  aid <- acall (H5Screate H5S_SCALAR) ;;
  obj <- lift (load (hdf5_reference this)) ;;
  type <- lift (load t_type) ;;
  attr <- acall (H5Acreate2 obj attr_name type (Hid aid) H5P_DEFAULT H5P_DEFAULT) ;;
  type <- lift (load t_type) ;;
  acall (H5Awrite (Hid attr) type value) ;;
  lift (call lib (H5Sclose (Hid aid))) ;;
  acall (H5Aclose (Hid attr)) ;;
  lift (reset lib t_type).

End Attributes.

(** The matrix the copying loops are meant to produce: [rows] x [cols]
    with the first [rows * cols] entries of [hdf5_data] as its row-major
    storage. *)
Definition matrix_of {V} (rows cols : Z) (hdf5_data : Z -> V) : @FullMatrix V :=
  mkFullMatrix rows cols (hdf5_data <$> seqZ 0 (rows * cols)).

(** The matrix while it is being filled: its first [p] entries copied, the
    rest still as initialised. *)
Definition filled {V} (zero : V) (rows cols : Z) (hdf5_data : Z -> V) (p : Z) :
    @FullMatrix V :=
  mkFullMatrix rows cols
    ((hdf5_data <$> seqZ 0 p) ++ replicate (Z.to_nat (rows * cols - p)) zero).

(** A library for running the attribute functions on concrete inputs: every
    call returns the length of the log plus one, with two exceptions:
    [H5Sget_simple_extent_ndims] says 2, and the dimensions are 2 x 3; the
    buffers read hold 7, or 10 + k at index k, or the text "seven". *)
Definition counting_alib : AttrLib Z :=
  mkAttrLib
    (fun l c => match c with
                | H5Sget_simple_extent_ndims _ => 2
                | _ => size l + 1
                end)
    (fun _ _ => 7) (fun _ _ => 7) (fun _ _ => "seven"%string)
    (fun _ _ k => 10 + k) (fun _ _ => (2, 3)).

Definition demo_attr_world : AWorld Z := mkAWorld demo_file_world [].

(** The same library, but with an attribute of rank 1, and with an
    attribute of 2^32 x 1 entries. *)
Definition flat_alib : AttrLib Z :=
  mkAttrLib
    (fun l c => match c with
                | H5Sget_simple_extent_ndims _ => 1
                | _ => size l + 1
                end)
    (fun _ _ => 7) (fun _ _ => 7) (fun _ _ => "seven"%string)
    (fun _ _ k => 10 + k) (fun _ _ => (6, 1)).

Definition huge_alib : AttrLib Z :=
  mkAttrLib
    (fun l c => match c with
                | H5Sget_simple_extent_ndims _ => 2
                | _ => size l + 1
                end)
    (fun _ _ => 7) (fun _ _ => 7) (fun _ _ => "seven"%string)
    (fun _ _ k => 10 + k) (fun _ _ => (2 ^ 32, 1)).

(** A library in which no attribute can be opened. *)
Definition missing_alib : AttrLib Z :=
  mkAttrLib
    (fun l c => match c with
                | H5Aopen _ _ _ => -1
                | _ => size l + 1
                end)
    (fun _ _ => 7) (fun _ _ => 7) (fun _ _ => "seven"%string)
    (fun _ _ k => 10 + k) (fun _ _ => (2, 3)).

(** The cell of the file handle in the scenario, and a dataset with a zero
    extent created under the file. *)
Definition demo_file_cell : ctrl_block := Block (Hid 3) (Some close_H5F) 1.

Definition demo_empty_dataset : DataSet :=
  mkDataSet (mkObject "z" true (Some 2%nat)) 2 [2; 0]
    (Some 1%nat) (Some 3%nat) 0.

(** * Reasoning about runs *)

Section Runs.

Context {V : Type}.
Variable lib : list (event V) -> H5call V -> Z.

Lemma bind_Ok {A B} (c : M V A) (k : A -> M V B) w a w' :
  c w = (Ok a, w') -> bind c k w = k a w'.
Proof. intros E. unfold bind. now rewrite E. Qed.

Lemma bind_Fatal {A B} (c : M V A) (k : A -> M V B) w w' :
  c w = (Fatal, w') -> bind c k w = (Fatal, w').
Proof. intros E. unfold bind. now rewrite E. Qed.

Lemma bind_assoc {A B C} (c : M V A) (f : A -> M V B) (g : B -> M V C) w :
  bind (bind c f) g w = bind c (fun x => bind (f x) g) w.
Proof. unfold bind. destruct (c w) as [[a| |] w1]; reflexivity. Qed.

Lemma bind_ret {A B} (a : A) (k : A -> M V B) w : bind (ret a) k w = k a w.
Proof. reflexivity. Qed.

Lemma bind_inv_Ok {A B} (c : M V A) (k : A -> M V B) w b w2 :
  bind c k w = (Ok b, w2) ->
  exists a w1, c w = (Ok a, w1) /\ k a w1 = (Ok b, w2).
Proof.
  unfold bind. destruct (c w) as [[a| |] w1]; intros E; try discriminate.
  exists a, w1. split; [reflexivity | exact E].
Qed.

Lemma run_call (c : H5call V) t h :
  call lib c (mkWorld t h) = (Ok (lib t c), mkWorld (t ++ [(c, lib t c)]) h).
Proof. reflexivity. Qed.

(** The heap is read as the cells [h] that were there when the run started,
    followed by the cells [l] allocated since; a cell of [l] has the address
    [length h + k]. *)

Lemma lookup_new (h l : list ctrl_block) k : (h ++ l) !! (length h + k)%nat = l !! k.
Proof. rewrite lookup_app_r by lia. f_equal. lia. Qed.

Lemma run_new_hid d t (h l : list ctrl_block) :
  new_hid d (mkWorld t (h ++ l)) =
  (Ok (Some (length h + length l)%nat),
   mkWorld (V:=V) t (h ++ (l ++ [Block Indeterminate d 1]))).
Proof. unfold new_hid. simpl. now rewrite length_app, app_assoc. Qed.

Lemma run_load_new t (h l : list ctrl_block) k b :
  l !! k = Some b -> use_count b <> O ->
  load (Some (length h + k)%nat) (mkWorld (V:=V) t (h ++ l)) =
  (Ok (value b), mkWorld t (h ++ l)).
Proof.
  intros E Hc. unfold load. simpl. rewrite lookup_new, E.
  destruct (use_count b); [congruence | reflexivity].
Qed.

Lemma run_store_new t (h l : list ctrl_block) k b v :
  l !! k = Some b -> use_count b <> O ->
  store (Some (length h + k)%nat) v (mkWorld (V:=V) t (h ++ l)) =
  (Ok tt, mkWorld t (h ++ <[k := Block v (deleter b) (use_count b)]> l)).
Proof.
  intros E Hc. unfold store. simpl. rewrite lookup_new, E.
  destruct (use_count b) eqn:Eu; [congruence |]. simpl.
  now rewrite insert_app_r.
Qed.

(** Releasing the only share of a cell allocated during the run. *)
Lemma run_reset_new_last t (h l : list ctrl_block) k v c :
  l !! k = Some (Block v (Some c) 1) ->
  reset lib (Some (length h + k)%nat) (mkWorld t (h ++ l)) =
  (Ok tt,
   mkWorld (t ++ [(closer_call c v, lib t (closer_call c v))])
     (h ++ <[k := Block v (Some c) 0]> l)).
Proof.
  intros E. unfold reset. simpl. rewrite lookup_new, E. simpl.
  now rewrite insert_app_r.
Qed.

(** The same steps at an arbitrary live cell. *)

Lemma run_load t (h : list ctrl_block) a b :
  h !! a = Some b -> use_count b <> O ->
  load (Some a) (mkWorld (V:=V) t h) = (Ok (value b), mkWorld t h).
Proof.
  intros E Hc. unfold load. simpl. rewrite E.
  destruct (use_count b); [congruence | reflexivity].
Qed.

Lemma run_reset_last t (h : list ctrl_block) a v c :
  h !! a = Some (Block v (Some c) 1) ->
  reset lib (Some a) (mkWorld t h) =
  (Ok tt,
   mkWorld (t ++ [(closer_call c v, lib t (closer_call c v))])
     (<[a := Block v (Some c) 0]> h)).
Proof. intros E. unfold reset. simpl. rewrite E. reflexivity. Qed.

Lemma run_reset_last_plain t (h : list ctrl_block) a v :
  h !! a = Some (Block v None 1) ->
  reset lib (Some a) (mkWorld t h) = (Ok tt, mkWorld t (<[a := Block v None 0]> h)).
Proof. intros E. unfold reset. simpl. rewrite E. reflexivity. Qed.

(** Whatever a release does, it only adds to the trace, and at most the one
    call of the deleter. *)
Lemma reset_trace p w r w' :
  reset lib p w = (r, w') ->
  trace w' = trace w \/
  exists c v z, trace w' = trace w ++ [(closer_call c v, z)].
Proof.
  unfold reset. destruct p as [a|]; [| intros [= <- <-]; now left].
  destruct (heap w !! a) as [b|]; [| intros [= <- <-]; now left].
  destruct (use_count b) as [|[|k]]; [intros [= <- <-]; now left | |
    intros [= <- <-]; now left].
  destruct (deleter b) as [c|]; [| intros [= <- <-]; now left].
  intros [= <- <-]. right. simpl. eauto.
Qed.

Lemma run_store t (h : list ctrl_block) a b v :
  h !! a = Some b -> use_count b <> O ->
  store (Some a) v (mkWorld (V:=V) t h) =
  (Ok tt, mkWorld t (<[a := Block v (deleter b) (use_count b)]> h)).
Proof.
  intros E Hc. unfold store. simpl. rewrite E.
  destruct (use_count b); [congruence | reflexivity].
Qed.

Lemma run_new_hid_end d t (h : list ctrl_block) :
  new_hid d (mkWorld (V:=V) t h) =
  (Ok (Some (length h)), mkWorld t (h ++ [Block Indeterminate d 1])).
Proof. reflexivity. Qed.

Lemma lookup_new0 (h l : list ctrl_block) : (h ++ l) !! length h = l !! O.
Proof. rewrite lookup_app_r by lia. now rewrite Nat.sub_diag. Qed.

Lemma insert_new0 (h l : list ctrl_block) b : <[length h := b]> (h ++ l) = h ++ <[O := b]> l.
Proof. rewrite insert_app_r_alt by lia. now rewrite Nat.sub_diag. Qed.

Lemma length_new (h l : list ctrl_block) : length (h ++ l) = (length h + length l)%nat.
Proof. apply length_app. Qed.

End Runs.

(** Tactics that run the next command of a sequence.  The heap is kept in
    the form [h ++ l] with [l] an explicit list. *)

Ltac heap_lookup :=
  first
    [ eassumption
    | rewrite lookup_new; reflexivity
    | rewrite lookup_new0; reflexivity
    | rewrite lookup_app_l by (eapply lookup_lt_Some; eassumption); eassumption ].

Ltac heap_norm :=
  rewrite <- ?app_assoc, ?length_new, ?insert_app_r, ?insert_new0;
  cbn [app length insert list_insert value deleter use_count Nat.add].

Ltac live := simpl; first [discriminate | eassumption | lia].

Ltac run_call := erewrite bind_Ok by apply run_call; cbv beta.
Ltac run_new := erewrite bind_Ok by apply run_new_hid_end; cbv beta; heap_norm.
Ltac run_load :=
  erewrite bind_Ok by (eapply run_load; [heap_lookup | live]);
  cbv beta; cbn [value].
Ltac run_store :=
  erewrite bind_Ok by (eapply run_store; [heap_lookup | live]);
  cbv beta; heap_norm.

Section Resolver.

Context {V : Type}.
Variable lib : list (event V) -> H5call V -> Z.
Variable sizeof_long_double : Z.

Lemma run_native_datatype native t (h l : list ctrl_block) :
  native_datatype native (mkWorld (V:=V) t (h ++ l)) =
  (Ok (Some (length h + length l)%nat),
   mkWorld t (h ++ (l ++ [Block native None 1]))).
Proof.
  unfold native_datatype.
  erewrite bind_Ok by apply run_new_hid. cbv beta.
  erewrite bind_Ok.
  2:{ apply run_store_new with (b := Block Indeterminate None 1).
      - rewrite lookup_app_r by lia. now rewrite Nat.sub_diag.
      - discriminate. }
  cbv beta. unfold ret. simpl.
  rewrite insert_app_r_alt by lia. now rewrite Nat.sub_diag.
Qed.

Lemma run_compound_datatype native width t (h l : list ctrl_block) :
  let c1 := H5Tcreate H5T_COMPOUND (sizeof_complex width) in
  let id := lib t c1 in
  let t1 := t ++ [(c1, id)] in
  let c2 := H5Tinsert (Hid id) "r" 0 native in
  let t2 := t1 ++ [(c2, lib t1 c2)] in
  let c3 := H5Tinsert (Hid id) "i" width native in
  compound_datatype lib native width (mkWorld t (h ++ l)) =
  (Ok (Some (length h + length l)%nat),
   mkWorld (t2 ++ [(c3, lib t2 c3)])
     (h ++ (l ++ [Block (Hid id) (Some close_H5T) 1]))).
Proof.
  intros c1 id t1 c2 t2 c3. unfold compound_datatype.
  assert (Hins : forall b : ctrl_block, <[length l := b]> (l ++ [Block Indeterminate (Some close_H5T) 1]) = l ++ [b]).
  { intros b. rewrite insert_app_r_alt by lia. now rewrite Nat.sub_diag. }
  assert (Hlk : forall b : ctrl_block, (l ++ [b]) !! length l = Some b).
  { intros b. rewrite lookup_app_r by lia. now rewrite Nat.sub_diag. }
  erewrite bind_Ok by apply run_new_hid. cbv beta.
  erewrite bind_Ok by apply run_call. cbv beta.
  erewrite bind_Ok by (apply run_store_new with (b := Block Indeterminate (Some close_H5T) 1); [apply Hlk | discriminate]).
  cbv beta. simpl deleter. simpl use_count. rewrite Hins.
  erewrite bind_Ok by (apply run_load_new with (b := Block (Hid id) (Some close_H5T) 1); [apply Hlk | discriminate]).
  cbv beta. simpl value.
  erewrite bind_Ok by apply run_call. cbv beta.
  erewrite bind_Ok by (apply run_load_new with (b := Block (Hid id) (Some close_H5T) 1); [apply Hlk | discriminate]).
  cbv beta. simpl value.
  erewrite bind_Ok by apply run_call. cbv beta.
  reflexivity.
Qed.

End Resolver.

(** * The type-descriptor resolver *)

Section ResolverClaims.

Context {V : Type}.
Variable lib : list (event V) -> H5call V -> Z.
Variable sizeof_long_double : Z.

Lemma compound_datatype_owned native width :
  forall w : World V, exists id r1 r2 r3 w' w'',
    compound_datatype lib native width w = (Ok (Some (length (heap w))), w') /\
    trace w' = trace w ++ [(H5Tcreate H5T_COMPOUND (2 * width), id);
                           (H5Tinsert (Hid id) "r" 0 native, r1);
                           (H5Tinsert (Hid id) "i" width native, r2)] /\
    heap w' = heap w ++ [Block (Hid id) (Some close_H5T) 1] /\
    reset lib (Some (length (heap w))) w' = (Ok tt, w'') /\
    trace w'' = trace w' ++ [(H5Tclose (Hid id), r3)].
Proof.
  intros [t h].
  pose proof (run_compound_datatype lib native width t h []) as R.
  cbv zeta in R. rewrite app_nil_r, Nat.add_0_r in R. simpl app in R.
  do 4 eexists. eexists. eexists.
  split; [exact R |].
  split; [simpl; rewrite <- !app_assoc; reflexivity |].
  split; [reflexivity |].
  split.
  - apply run_reset_last. simpl.
    rewrite lookup_app_r by lia. now rewrite Nat.sub_diag.
  - reflexivity.
Qed.

(** C7. For each of the three complex element types, [get_hdf5_datatype]
    returns a newly built compound descriptor with exactly the two fields
    "r" at byte offset 0 and "i" at the byte offset of one field's width,
    both of the matching native floating type, and the descriptor is owned:
    releasing it closes the compound type. *)
Theorem complex_datatype_is_owned_compound :
  owned_compound_descriptor lib sizeof_long_double
    t_complex_float H5T_NATIVE_FLOAT 4 /\
  owned_compound_descriptor lib sizeof_long_double
    t_complex_double H5T_NATIVE_DOUBLE 8 /\
  owned_compound_descriptor lib sizeof_long_double
    t_complex_long_double H5T_NATIVE_LDOUBLE sizeof_long_double.
Proof.
  repeat split; intros w; apply compound_datatype_owned.
Qed.

End ResolverClaims.

(** * DataSet<T>: construction *)

Section DataSetRuns.

Context {V : Type}.
Variable lib : list (event V) -> H5call V -> Z.
Variable sizeof_long_double rank_bits total_size_bits : Z.

#[local] Abbreviation get_hdf5_datatype := (get_hdf5_datatype lib sizeof_long_double).
#[local] Abbreviation DataSet_ctor :=
  (DataSet_ctor lib sizeof_long_double rank_bits total_size_bits).

(** For each of the eight instantiated element types the resolver returns
    a pointer to one new live cell and leaves the other cells alone. *)
Lemma run_get_hdf5_datatype T t (h : list ctrl_block) :
  T <> t_other ->
  exists t' ty d,
    get_hdf5_datatype T (mkWorld t h) =
    (Ok (Some (length h)), mkWorld t' (h ++ [Block ty d 1])).
Proof.
  intros HT.
  assert (P : forall native, native_datatype native (mkWorld (V:=V) t h) =
            (Ok (Some (length h)), mkWorld t (h ++ [Block native None 1]))).
  { intros native. pose proof (run_native_datatype native t h []) as R.
    now rewrite app_nil_r, Nat.add_0_r in R. }
  assert (C : forall native width, exists t' ty,
            compound_datatype lib native width (mkWorld t h) =
            (Ok (Some (length h)), mkWorld t' (h ++ [Block ty (Some close_H5T) 1]))).
  { intros native width. pose proof (run_compound_datatype lib native width t h []) as R.
    cbv zeta in R. rewrite app_nil_r, Nat.add_0_r in R. eauto. }
  destruct T; try congruence; simpl;
    first [ rewrite P; eauto | destruct (C H5T_NATIVE_FLOAT sizeof_float) as (?&?&->); eauto
          | destruct (C H5T_NATIVE_DOUBLE sizeof_double) as (?&?&->); eauto
          | destruct (C H5T_NATIVE_LDOUBLE sizeof_long_double) as (?&?&->); eauto ].
Qed.

Lemma run_DataSet_ctor_open T name parent dims mpi t (h : list ctrl_block) t1 ty d :
  get_hdf5_datatype T (mkWorld t h) =
    (Ok (Some (length h)), mkWorld t1 (h ++ [Block ty d 1])) ->
  let c := H5Gopen2 parent name H5P_DEFAULT in
  DataSet_ctor T name parent dims mpi open (mkWorld t h) =
  (Ok (mkDataSet (mkObject name mpi (Some (length h + 1)%nat))
         (wrap rank_bits (size dims)) dims
         (Some (length h)) (Some (length h + 2)%nat)
         (compute_total_size total_size_bits dims)),
   mkWorld (t1 ++ [(c, lib t1 c)])
     (h ++ [Block ty d 1; Block (Hid (lib t1 c)) (Some close_H5D) 1;
            Block Indeterminate (Some close_H5S) 1])).
Proof.
  intros E c. unfold HDF5.DataSet_ctor.
  erewrite bind_Ok by exact E. cbv beta.
  run_new. run_new.
  rewrite bind_assoc. run_call. run_store.
  reflexivity.
Qed.

Lemma run_DataSet_ctor_create T name parent dims mpi t (h : list ctrl_block) t1 ty d :
  get_hdf5_datatype T (mkWorld t h) =
    (Ok (Some (length h)), mkWorld t1 (h ++ [Block ty d 1])) ->
  let c1 := H5Screate_simple (wrap rank_bits (size dims)) dims None in
  let t2 := t1 ++ [(c1, lib t1 c1)] in
  let c2 := H5Dcreate2 parent name ty (Hid (lib t1 c1))
              H5P_DEFAULT H5P_DEFAULT H5P_DEFAULT in
  DataSet_ctor T name parent dims mpi create (mkWorld t h) =
  (Ok (mkDataSet (mkObject name mpi (Some (length h + 1)%nat))
         (wrap rank_bits (size dims)) dims
         (Some (length h)) (Some (length h + 2)%nat)
         (compute_total_size total_size_bits dims)),
   mkWorld (t2 ++ [(c2, lib t2 c2)])
     (h ++ [Block ty d 1; Block (Hid (lib t2 c2)) (Some close_H5D) 1;
            Block (Hid (lib t1 c1)) (Some close_H5S) 1])).
Proof.
  intros E c1 t2 c2. unfold HDF5.DataSet_ctor.
  erewrite bind_Ok by exact E. cbv beta.
  run_new. run_new.
  rewrite bind_assoc. run_call. rewrite bind_assoc. run_store.
  rewrite bind_assoc. run_load. rewrite bind_assoc. run_load.
  rewrite bind_assoc. run_call. run_store.
  subst c1 t2 c2. unfold ret. rewrite <- ?app_assoc. reflexivity.
Qed.

(** The members a constructed [DataSet] gets from the arguments. *)
Lemma DataSet_ctor_members T name parent dims mpi mode w ds w' :
  DataSet_ctor T name parent dims mpi mode w = (Ok ds, w') ->
  HDF5.name (base ds) = name /\ HDF5.mpi (base ds) = mpi /\
  rank ds = wrap rank_bits (size dims) /\ dimensions ds = dims /\
  total_size ds = compute_total_size total_size_bits dims.
Proof.
  unfold HDF5.DataSet_ctor. intros E.
  apply bind_inv_Ok in E as (ty & w1 & _ & E).
  apply bind_inv_Ok in E as (r & w2 & _ & E).
  apply bind_inv_Ok in E as (sp & w3 & _ & E).
  apply bind_inv_Ok in E as (u & w4 & _ & E).
  unfold ret in E. injection E as <- <-. simpl. auto.
Qed.

End DataSetRuns.

(** * Machine arithmetic of the size checks *)

Section Arithmetic.

Lemma pow2_pos bits : 0 <= bits -> 0 < 2 ^ bits.
Proof. intros. apply Z.pow_pos_nonneg; lia. Qed.

Lemma wrap_wrap_divide small big x :
  0 <= small <= big -> wrap small (wrap big x) = wrap small x.
Proof.
  intros H. unfold wrap. apply Z.mod_mod_divide.
  exists (2 ^ (big - small)). rewrite <- Z.pow_add_r by lia. f_equal. lia.
Qed.

Lemma wrap_mul_l bits a b :
  0 <= bits -> wrap bits (wrap bits a * b) = wrap bits (a * b).
Proof.
  intros H. unfold wrap. apply Z.mul_mod_idemp_l.
  pose proof (pow2_pos bits H). lia.
Qed.

Lemma total_size_fold bits dims acc :
  0 <= bits <= 64 ->
  fold_left (fun acc d => wrap bits (to_size_t (acc * d))) dims (wrap bits acc) =
  wrap bits (acc * product dims).
Proof.
  intros H. revert acc. induction dims as [|d dims IH]; intros acc; simpl.
  - now rewrite Z.mul_1_r.
  - unfold to_size_t. rewrite wrap_wrap_divide by lia.
    rewrite wrap_mul_l by lia. rewrite IH. f_equal.
    unfold product. simpl. ring.
Qed.

(** [total_size] is the product of the dimensions, reduced to the width of
    its type. *)
Lemma compute_total_size_spec bits dims :
  0 <= bits <= 64 ->
  compute_total_size bits dims = wrap bits (product dims).
Proof.
  intros H. unfold compute_total_size. rewrite total_size_fold by lia.
  now rewrite Z.mul_1_l.
Qed.

Lemma to_int_cong x y : wrap 32 x = wrap 32 y -> to_int x = to_int y.
Proof.
  unfold wrap, to_int. intros E.
  rewrite <- (Zplus_mod_idemp_l x), <- (Zplus_mod_idemp_l y). now rewrite E.
Qed.

Lemma wrap_to_int x : wrap 32 (to_int x) = wrap 32 x.
Proof.
  unfold wrap, to_int. rewrite Zminus_mod_idemp_l. f_equal. lia.
Qed.

Lemma wrap_multiplies a b : wrap 32 (multiplies_unsigned_int a b) = wrap 32 (a * b).
Proof.
  unfold multiplies_unsigned_int, to_unsigned_int, wrap.
  rewrite Z.mod_mod by lia. now rewrite <- Z.mul_mod by lia.
Qed.

Lemma accumulate_fold count acc :
  fold_left (fun acc c => to_int (multiplies_unsigned_int acc c)) count (to_int acc) =
  to_int (acc * product count).
Proof.
  revert acc. induction count as [|c count IH]; intros acc; simpl.
  - now rewrite Z.mul_1_r.
  - assert (E : to_int (multiplies_unsigned_int (to_int acc) c) = to_int (acc * c)).
    { apply to_int_cong. rewrite wrap_multiplies.
      rewrite <- wrap_mul_l by lia. rewrite wrap_to_int.
      now rewrite wrap_mul_l by lia. }
    rewrite E, IH. f_equal. unfold product. simpl. ring.
Qed.

(** The value [std::accumulate] returns: the product of the extents, reduced
    modulo 2^32 and read as a signed [int]. *)
Lemma accumulate_count_spec count :
  accumulate_count count = to_int (product count).
Proof.
  unfold accumulate_count. change 1 with (to_int 1) at 1.
  rewrite accumulate_fold. now rewrite Z.mul_1_l.
Qed.

(** ... and what it becomes in the comparison with a [std::size_t]. *)
Lemma to_size_t_to_int x :
  to_size_t (to_int x) =
  if wrap 32 x <? 2 ^ 31 then wrap 32 x else wrap 32 x + (2 ^ 64 - 2 ^ 32).
Proof.
  unfold to_size_t, to_int, wrap.
  pose proof (Z.mod_pos_bound x (2 ^ 32) ltac:(lia)) as B.
  set (p := x mod 2 ^ 32) in *.
  rewrite <- (Zplus_mod_idemp_l x). fold p.
  destruct (Z.ltb_spec p (2 ^ 31)).
  - rewrite (Z.mod_small (p + 2 ^ 31)) by lia.
    rewrite Z.mod_small by lia. lia.
  - replace (p + 2 ^ 31) with ((p - 2 ^ 31) + 1 * 2 ^ 32) by lia.
    rewrite Z.mod_add by lia. rewrite (Z.mod_small (p - 2 ^ 31)) by lia.
    replace (p - 2 ^ 31 - 2 ^ 31) with ((p + (2 ^ 64 - 2 ^ 32)) + (-1) * 2 ^ 64) by lia.
    rewrite Z.mod_add by lia. apply Z.mod_small. lia.
Qed.

(** Below 2^31 the folded value is the product itself. *)
Lemma accumulate_count_small count :
  0 <= product count < 2 ^ 31 ->
  to_size_t (accumulate_count count) = product count.
Proof.
  intros H. rewrite accumulate_count_spec, to_size_t_to_int.
  unfold wrap. rewrite Z.mod_small by lia.
  destruct (Z.ltb_spec (product count) (2 ^ 31)); lia.
Qed.

Example total_size_of_2x3 : compute_total_size 32 [2; 3] = 6.
Proof. reflexivity. Qed.

Example total_size_of_65536x65536 : compute_total_size 32 [65536; 65536] = 0.
Proof. reflexivity. Qed.

Example accumulate_count_of_3x5x7 : accumulate_count [3; 5; 7] = 105.
Proof. reflexivity. Qed.

Example accumulate_count_of_2pow31 : accumulate_count [2 ^ 31] = - 2 ^ 31.
Proof. reflexivity. Qed.

End Arithmetic.

(** * DataSet<T>: the write operations *)

Section WriteRuns.

Context {V : Type}.
Variable lib : list (event V) -> H5call V -> Z.

Lemma run_load_pt t (h : list ctrl_block) p v :
  points_to h p v -> load p (mkWorld (V:=V) t h) = (Ok v, mkWorld t h).
Proof.
  intros (a & b & -> & E & Hc & <-). now apply run_load.
Qed.

Ltac run_steps :=
  repeat first
    [ rewrite bind_ret
    | rewrite bind_assoc
    | erewrite bind_Ok by apply run_call; cbv beta
    | erewrite bind_Ok by (apply run_load_pt; eassumption); cbv beta ].

Ltac run_write :=
  unfold transfer_plist, transfer_plist_close, selected_write, transfer_write,
    perform;
  match goal with |- context [mpi (base ?ds)] => destruct (mpi (base ds)) end;
  run_steps; reflexivity.

Lemma run_write_data ds data t (h : list ctrl_block) dset type :
  points_to h (hdf5_reference (base ds)) dset ->
  points_to h (t_type ds) type ->
  write_data lib ds data (mkWorld t h) =
  if total_size ds =? size data then
    (Ok tt,
     mkWorld (transfer_write lib (mpi (base ds)) t dset type H5S_ALL H5S_ALL
                (Some data)) h)
  else (Fatal, mkWorld t h).
Proof.
  intros Hd Ht. unfold write_data, AssertDimension, Assert.
  destruct (total_size ds =? size data); [| reflexivity].
  run_write.
Qed.

Lemma run_write_data_matrix ds data t (h : list ctrl_block) dset type :
  points_to h (hdf5_reference (base ds)) dset ->
  points_to h (t_type ds) type ->
  write_data_matrix lib ds data (mkWorld t h) =
  if total_size ds =? to_size_t (m data * n data) then
    (Ok tt,
     mkWorld (transfer_write lib (mpi (base ds)) t dset type H5S_ALL H5S_ALL
                (Some (elements data))) h)
  else (Fatal, mkWorld t h).
Proof.
  intros Hd Ht. unfold write_data_matrix, AssertDimension, Assert.
  destruct (total_size ds =? to_size_t (m data * n data)); [| reflexivity].
  run_write.
Qed.

Lemma run_write_data_selection ds data coordinates t (h : list ctrl_block)
    dset type space :
  points_to h (hdf5_reference (base ds)) dset ->
  points_to h (t_type ds) type ->
  points_to h (dataspace ds) space ->
  write_data_selection lib ds data coordinates (mkWorld t h) =
  if size coordinates =? to_size_t (size data * rank ds) then
    (Ok tt,
     mkWorld (selected_write lib (mpi (base ds)) t [size data]
                (fun sp => H5Sselect_elements sp H5S_SELECT_SET (size data)
                             coordinates)
                dset type space (Some data)) h)
  else (Fatal, mkWorld t h).
Proof.
  intros Hd Ht Hs. unfold write_data_selection, AssertDimension, Assert.
  destruct (size coordinates =? to_size_t (size data * rank ds)); [| reflexivity].
  run_write.
Qed.

Lemma run_write_data_hyperslab ds data offset count t (h : list ctrl_block)
    dset type space :
  points_to h (hdf5_reference (base ds)) dset ->
  points_to h (t_type ds) type ->
  points_to h (dataspace ds) space ->
  write_data_hyperslab lib ds data offset count (mkWorld t h) =
  if to_size_t (accumulate_count count) =? size data then
    (Ok tt,
     mkWorld (selected_write lib (mpi (base ds)) t [size data]
                (fun sp => H5Sselect_hyperslab sp H5S_SELECT_SET offset None
                             count None)
                dset type space (Some data)) h)
  else (Fatal, mkWorld t h).
Proof.
  intros Hd Ht Hs. unfold write_data_hyperslab, AssertDimension, Assert.
  destruct (to_size_t (accumulate_count count) =? size data); [| reflexivity].
  run_write.
Qed.

Lemma run_write_data_hyperslab_matrix ds data offset count t
    (h : list ctrl_block) dset type space :
  points_to h (hdf5_reference (base ds)) dset ->
  points_to h (t_type ds) type ->
  points_to h (dataspace ds) space ->
  write_data_hyperslab_matrix lib ds data offset count (mkWorld t h) =
  if to_size_t (accumulate_count count) =? to_size_t (m data * n data) then
    (Ok tt,
     mkWorld (selected_write lib (mpi (base ds)) t [m data; n data]
                (fun sp => H5Sselect_hyperslab sp H5S_SELECT_SET offset None
                             count None)
                dset type space (Some (elements data))) h)
  else (Fatal, mkWorld t h).
Proof.
  intros Hd Ht Hs. unfold write_data_hyperslab_matrix, AssertDimension, Assert.
  destruct (to_size_t (accumulate_count count) =? to_size_t (m data * n data));
    [| reflexivity].
  run_write.
Qed.

Lemma run_write_data_none ds t (h : list ctrl_block) dset type space :
  points_to h (hdf5_reference (base ds)) dset ->
  points_to h (t_type ds) type ->
  points_to h (dataspace ds) space ->
  write_data_none lib ds (mkWorld t h) =
  (Ok tt,
   mkWorld (selected_write lib (mpi (base ds)) t [0]
              (fun sp => H5Sselect_none sp) dset type space None) h).
Proof.
  intros Hd Ht Hs. unfold write_data_none.
  run_write.
Qed.

(** None of the write operations touches the heap. *)

Lemma keeps_heap_ret {A} (a : A) : keeps_heap (V:=V) (ret a).
Proof. intros w r w' [= <- <-]. reflexivity. Qed.

Lemma keeps_heap_fatal {A} : keeps_heap (V:=V) (A:=A) fatal.
Proof. intros w r w' [= <- <-]. reflexivity. Qed.

Lemma keeps_heap_call c : keeps_heap (call lib c).
Proof. intros w r w' [= <- <-]. reflexivity. Qed.

Lemma keeps_heap_load p : keeps_heap (V:=V) (load p).
Proof.
  intros w r w'. unfold load. destruct p as [a|]; [| now intros [= <- <-]].
  destruct (heap w !! a) as [b|]; [| now intros [= <- <-]].
  destruct (Nat.eqb (use_count b) 0); now intros [= <- <-].
Qed.

Lemma keeps_heap_bind {A B} (c : M V A) (k : A -> M V B) :
  keeps_heap c -> (forall a, keeps_heap (k a)) -> keeps_heap (bind c k).
Proof.
  intros Hc Hk w r w'. unfold bind.
  destruct (c w) as [[a| |] w1] eqn:E; apply Hc in E.
  - intros R. apply Hk in R. congruence.
  - intros [= <- <-]. exact E.
  - intros [= <- <-]. exact E.
Qed.

Lemma keeps_heap_AssertDimension a b : keeps_heap (V:=V) (AssertDimension a b).
Proof.
  unfold AssertDimension, Assert.
  destruct (a =? b); [apply keeps_heap_ret | apply keeps_heap_fatal].
Qed.

Lemma keeps_heap_transfer_plist mpi : keeps_heap (transfer_plist lib mpi).
Proof.
  destruct mpi; simpl; [| apply keeps_heap_ret].
  repeat (apply keeps_heap_bind; [| intros ?]);
    first [apply keeps_heap_call | apply keeps_heap_ret].
Qed.

Lemma keeps_heap_transfer_plist_close mpi plist :
  keeps_heap (transfer_plist_close lib mpi plist).
Proof.
  destruct mpi; simpl; [| apply keeps_heap_ret].
  apply keeps_heap_bind; [apply keeps_heap_call | intros ?; apply keeps_heap_ret].
Qed.

Create HintDb keeps.

#[local] Hint Resolve keeps_heap_ret keeps_heap_fatal keeps_heap_call
  keeps_heap_load keeps_heap_AssertDimension keeps_heap_transfer_plist
  keeps_heap_transfer_plist_close : keeps.

Ltac keeps := repeat (apply keeps_heap_bind; [| intros ?]); auto with keeps.

Lemma keeps_heap_write_data ds data : keeps_heap (write_data lib ds data).
Proof. unfold write_data. keeps. Qed.

Lemma keeps_heap_write_data_matrix ds data :
  keeps_heap (write_data_matrix lib ds data).
Proof. unfold write_data_matrix. keeps. Qed.

End WriteRuns.

(** * Properties of DataSet<T> *)

Section DataSetClaims.

Context {V : Type}.
Variable lib : list (event V) -> H5call V -> Z.
Variable sizeof_long_double rank_bits total_size_bits : Z.

#[local] Abbreviation get_hdf5_datatype := (get_hdf5_datatype lib sizeof_long_double).
#[local] Abbreviation DataSet_ctor :=
  (DataSet_ctor lib sizeof_long_double rank_bits total_size_bits).

(** C1. What the constructor does in open mode, for any of the instantiated
    element types: after the type descriptor is resolved, the one library
    call it makes is the group-opening [H5Gopen2] on the given name; the
    identifier that call returns is what the object's handle holds (with
    [H5Dclose] as its disposal action), and the cell of the dataspace handle
    is left as allocated, never assigned.  No dataset is opened and no
    dataspace is derived from it. *)
Theorem DataSet_open_stores_group_handle T name parent dims mpi t
    (h : list ctrl_block) :
  T <> t_other ->
  exists t1 ty d ds id w',
    get_hdf5_datatype T (mkWorld t h) =
      (Ok (t_type ds), mkWorld t1 (h ++ [Block ty d 1])) /\
    DataSet_ctor T name parent dims mpi open (mkWorld t h) = (Ok ds, w') /\
    trace w' = t1 ++ [(H5Gopen2 parent name H5P_DEFAULT, id)] /\
    heap w' = h ++ [Block ty d 1; Block (Hid id) (Some close_H5D) 1;
                    Block Indeterminate (Some close_H5S) 1] /\
    hdf5_reference (base ds) = Some (length h + 1)%nat /\
    dataspace ds = Some (length h + 2)%nat.
Proof.
  intros HT.
  destruct (run_get_hdf5_datatype lib sizeof_long_double T t h HT) as (t1 & ty & d & E).
  pose proof (run_DataSet_ctor_open lib sizeof_long_double rank_bits total_size_bits
                T name parent dims mpi t h t1 ty d E) as R.
  cbv zeta in R.
  do 6 eexists. split; [| split; [exact R | simpl; auto 10]].
  exact E.
Qed.

(** C2 (amended). For a dataset created with dimensions [dims], the member
    [total_size] is the product of the dimensions reduced modulo 2^w, where
    w is the width of its unsigned type.  The full-array write takes the
    fatal path if and only if the element count of the buffer differs from
    that value; when they are equal it makes one write of the whole buffer
    over the entire extent ([H5S_ALL] in memory and in the file).  When the
    product fits in w bits, that value is the product itself. *)
Theorem write_data_checks_wrapped_total_size T name parent dims mpi w0 ds w1
    data t (h : list ctrl_block) dset type :
  0 <= total_size_bits <= 64 ->
  DataSet_ctor T name parent dims mpi create w0 = (Ok ds, w1) ->
  points_to h (hdf5_reference (base ds)) dset ->
  points_to h (t_type ds) type ->
  total_size ds = wrap total_size_bits (product dims) /\
  (fst (write_data lib ds data (mkWorld t h)) = Fatal <->
   size data <> wrap total_size_bits (product dims)) /\
  (size data = wrap total_size_bits (product dims) ->
   write_data lib ds data (mkWorld t h) =
   (Ok tt,
    mkWorld (transfer_write lib mpi t dset type H5S_ALL H5S_ALL (Some data)) h)) /\
  (0 <= product dims < 2 ^ total_size_bits ->
   wrap total_size_bits (product dims) = product dims).
Proof.
  intros Hb E Hd Ht.
  apply DataSet_ctor_members in E as (_ & Hm & _ & _ & Hs).
  rewrite compute_total_size_spec in Hs by exact Hb.
  rewrite (run_write_data lib ds data t h dset type Hd Ht), Hs, Hm.
  split; [reflexivity |].
  destruct (Z.eqb_spec (wrap total_size_bits (product dims)) (size data)) as [e|ne];
    simpl.
  - split; [split; [discriminate | congruence] |].
    split; [reflexivity |].
    intros. unfold wrap. apply Z.mod_small. lia.
  - split; [split; [congruence | reflexivity] |].
    split; [congruence |].
    intros. unfold wrap. apply Z.mod_small. lia.
Qed.

(** C8. Destroying a [DataSet] that is the only owner of its dataset handle
    [d] and of its dataspace handle [s] closes [d] first and [s] after it;
    whatever follows is at most the one disposal of the type descriptor. *)
Theorem DataSet_dtor_closes_dataset_then_dataspace ds t (h : list ctrl_block)
    a_d a_s d s :
  hdf5_reference (base ds) = Some a_d ->
  dataspace ds = Some a_s ->
  a_d <> a_s ->
  h !! a_d = Some (Block d (Some close_H5D) 1) ->
  h !! a_s = Some (Block s (Some close_H5S) 1) ->
  exists r1 r2 rest res w',
    DataSet_dtor lib ds (mkWorld t h) = (res, w') /\
    trace w' = t ++ [(H5Dclose d, r1); (H5Sclose s, r2)] ++ rest /\
    (rest = [] \/ exists c v z, rest = [(closer_call c v, z)]).
Proof.
  intros Ed Es Hne Hd Hs. unfold DataSet_dtor. rewrite Ed, Es.
  erewrite bind_Ok by (apply run_reset_last; exact Hd). cbv beta.
  erewrite bind_Ok.
  2:{ apply run_reset_last. rewrite list_lookup_insert_ne by exact Hne. exact Hs. }
  cbv beta. simpl closer_call.
  match goal with |- context [reset lib ?p ?w] =>
    destruct (reset lib p w) as [res w'] eqn:R end.
  apply reset_trace in R. simpl trace in R. rewrite <- app_assoc in R. simpl in R.
  destruct R as [R | (c & v & z & R)].
  - do 2 eexists. exists [], res, w'.
    split; [reflexivity |]. split; [exact R | now left].
  - do 2 eexists. exists [(closer_call c v, z)], res, w'.
    split; [reflexivity |]. split; [| right; eauto].
    rewrite R, <- app_assoc. reflexivity.
Qed.

(** *** The transfer context *)

Lemma transfer_write_shape mpi t dset type ms fs buf :
  exists es,
    transfer_write lib mpi t dset type ms fs buf = t ++ es /\
    if mpi then collective_write es else default_write es.
Proof.
  destruct mpi; unfold transfer_write, perform; eexists;
    (split; [rewrite <- ?app_assoc; simpl; reflexivity |]).
  - unfold collective_write. exists []. do 9 eexists. exists [].
    split; [reflexivity | split; constructor].
  - unfold default_write. exists []. do 6 eexists. exists [].
    split; [reflexivity | split; constructor].
Qed.

Lemma selected_write_shape mpi t mem_dims select dset type space buf :
  transfer_or_write (select space) = false ->
  exists es,
    selected_write lib mpi t mem_dims select dset type space buf = t ++ es /\
    if mpi then collective_write es else default_write es.
Proof.
  intros Hsel.
  destruct mpi; unfold selected_write, transfer_write, perform; eexists;
    (split; [rewrite <- ?app_assoc; simpl; reflexivity |]).
  - unfold collective_write.
    eexists [_; _]. do 9 eexists. eexists [_].
    split; [reflexivity |].
    split; repeat constructor; simpl; assumption.
  - unfold default_write.
    eexists [_; _]. do 6 eexists. eexists [_].
    split; [reflexivity |].
    split; repeat constructor; simpl; assumption.
Qed.

(** C3. Whichever of the six write operations is issued on a dataset whose
    handles are live, it takes the fatal path, before any call is made,
    exactly when the dimension assertion it begins with fails; the empty
    write has no assertion and never takes it.  In every other case the
    write completes, and the calls it made contain exactly one [H5Dwrite]:
    if [mpi] is set, the write is made with a transfer property list
    created for it, set to collective mode before and closed after the
    write; if [mpi] is not set, no property list is created and the write
    is made with [H5P_DEFAULT]. *)
Theorem write_uses_collective_context_iff_mpi ds req t (h : list ctrl_block)
    dset type space :
  points_to h (hdf5_reference (base ds)) dset ->
  points_to h (t_type ds) type ->
  points_to h (dataspace ds) space ->
  (check_passes ds req = false ->
   issue lib ds req (mkWorld t h) = (Fatal, mkWorld t h)) /\
  (check_passes ds req = true ->
   exists es,
     issue lib ds req (mkWorld t h) = (Ok tt, mkWorld (t ++ es) h) /\
     if mpi (base ds) then collective_write es else default_write es) /\
  (exists es,
     write_data_none lib ds (mkWorld t h) = (Ok tt, mkWorld (t ++ es) h) /\
     if mpi (base ds) then collective_write es else default_write es).
Proof.
  intros Hd Ht Hs.
  assert (N : exists es,
            write_data_none lib ds (mkWorld t h) = (Ok tt, mkWorld (t ++ es) h) /\
            if mpi (base ds) then collective_write es else default_write es).
  { rewrite (run_write_data_none lib ds t h dset type space Hd Ht Hs).
    edestruct selected_write_shape as (es & -> & Hes); [| eauto]. reflexivity. }
  split; [| split; [| exact N]];
    destruct req as [data|data|data c|data o c|data o c|];
    unfold check_passes; simpl; intros Hc; try discriminate; try exact N.
  - now rewrite (run_write_data lib ds data t h dset type Hd Ht), Hc.
  - now rewrite (run_write_data_matrix lib ds data t h dset type Hd Ht), Hc.
  - now rewrite (run_write_data_selection lib ds data c t h dset type space
                   Hd Ht Hs), Hc.
  - now rewrite (run_write_data_hyperslab lib ds data o c t h dset type space
                   Hd Ht Hs), Hc.
  - now rewrite (run_write_data_hyperslab_matrix lib ds data o c t h dset type
                   space Hd Ht Hs), Hc.
  - rewrite (run_write_data lib ds data t h dset type Hd Ht), Hc.
    destruct (transfer_write_shape (mpi (base ds)) t dset type H5S_ALL H5S_ALL
                (Some data)) as (es & -> & Hes). eauto.
  - rewrite (run_write_data_matrix lib ds data t h dset type Hd Ht), Hc.
    destruct (transfer_write_shape (mpi (base ds)) t dset type H5S_ALL H5S_ALL
                (Some (elements data))) as (es & -> & Hes). eauto.
  - rewrite (run_write_data_selection lib ds data c t h dset type space
               Hd Ht Hs), Hc.
    edestruct selected_write_shape as (es & -> & Hes); [| eauto]. reflexivity.
  - rewrite (run_write_data_hyperslab lib ds data o c t h dset type space
               Hd Ht Hs), Hc.
    edestruct selected_write_shape as (es & -> & Hes); [| eauto]. reflexivity.
  - rewrite (run_write_data_hyperslab_matrix lib ds data o c t h dset type space
               Hd Ht Hs), Hc.
    edestruct selected_write_shape as (es & -> & Hes); [| eauto]. reflexivity.
Qed.

(** *** Hyperslab writes *)

(** C5 (amended). Both hyperslab writes compare the element count of the
    buffer with the value [std::accumulate] folds from [count] and take the
    fatal path when the two differ; otherwise they select, on the dataset's
    dataspace, the block that starts at [offset] and extends over [count],
    with no stride and no block argument, and write the buffer into it.
    The folded value is the product of [count] whenever that product is
    below 2^31, so for such [count] a buffer whose element count differs
    from the product is rejected. *)
Theorem hyperslab_selects_block_and_checks_folded_count ds offset count t
    (h : list ctrl_block) dset type space :
  points_to h (hdf5_reference (base ds)) dset ->
  points_to h (t_type ds) type ->
  points_to h (dataspace ds) space ->
  (forall data,
     write_data_hyperslab lib ds data offset count (mkWorld t h) =
     if to_size_t (accumulate_count count) =? size data then
       (Ok tt,
        mkWorld (selected_write lib (mpi (base ds)) t [size data]
                   (fun sp => H5Sselect_hyperslab sp H5S_SELECT_SET offset None
                                count None)
                   dset type space (Some data)) h)
     else (Fatal, mkWorld t h)) /\
  (forall data,
     write_data_hyperslab_matrix lib ds data offset count (mkWorld t h) =
     if to_size_t (accumulate_count count) =? to_size_t (m data * n data) then
       (Ok tt,
        mkWorld (selected_write lib (mpi (base ds)) t [m data; n data]
                   (fun sp => H5Sselect_hyperslab sp H5S_SELECT_SET offset None
                                count None)
                   dset type space (Some (elements data))) h)
     else (Fatal, mkWorld t h)) /\
  (0 <= product count < 2 ^ 31 ->
   to_size_t (accumulate_count count) = product count /\
   (forall data, size data <> product count ->
      write_data_hyperslab lib ds data offset count (mkWorld t h) =
      (Fatal, mkWorld t h)) /\
   (forall data, to_size_t (m data * n data) <> product count ->
      write_data_hyperslab_matrix lib ds data offset count (mkWorld t h) =
      (Fatal, mkWorld t h))).
Proof.
  intros Hd Ht Hs.
  split; [intros data; now apply run_write_data_hyperslab |].
  split; [intros data; now apply run_write_data_hyperslab_matrix |].
  intros Hp. pose proof (accumulate_count_small count Hp) as E.
  split; [exact E |]. split; intros data Hne.
  - rewrite (run_write_data_hyperslab lib ds data offset count t h dset type space
               Hd Ht Hs), E.
    destruct (Z.eqb_spec (product count) (size data)); congruence.
  - rewrite (run_write_data_hyperslab_matrix lib ds data offset count t h dset
               type space Hd Ht Hs), E.
    destruct (Z.eqb_spec (product count) (to_size_t (m data * n data))); congruence.
Qed.

(** C9 (amended). In both hyperslab writes the value compared with the
    buffer size is the product of [count] reduced modulo 2^32, read as a
    signed 32-bit [int] (the accumulator has the type of the initial value
    [1]) and converted to the unsigned 64-bit type of the buffer size: it is
    the residue when the residue is below 2^31, and the residue plus
    2^64 - 2^32 otherwise.  The check takes the fatal path exactly when the
    buffer size differs from that value, whatever the true product is. *)
Theorem hyperslab_check_uses_signed_wrapped_product ds offset count t
    (h : list ctrl_block) dset type space :
  points_to h (hdf5_reference (base ds)) dset ->
  points_to h (t_type ds) type ->
  points_to h (dataspace ds) space ->
  let residue := wrap 32 (product count) in
  let expected := if residue <? 2 ^ 31 then residue else residue + (2 ^ 64 - 2 ^ 32) in
  to_size_t (accumulate_count count) = expected /\
  (forall data,
     fst (write_data_hyperslab lib ds data offset count (mkWorld t h)) = Fatal <->
     size data <> expected) /\
  (forall data,
     fst (write_data_hyperslab_matrix lib ds data offset count (mkWorld t h)) = Fatal <->
     to_size_t (m data * n data) <> expected).
Proof.
  intros Hd Ht Hs residue expected.
  assert (E : to_size_t (accumulate_count count) = expected).
  { rewrite accumulate_count_spec. apply to_size_t_to_int. }
  split; [exact E |]. split; intros data.
  - rewrite (run_write_data_hyperslab lib ds data offset count t h dset type space
               Hd Ht Hs), E.
    destruct (Z.eqb_spec expected (size data)); simpl;
      (split; [intros; congruence | intros; congruence]).
  - rewrite (run_write_data_hyperslab_matrix lib ds data offset count t h dset
               type space Hd Ht Hs), E.
    destruct (Z.eqb_spec expected (to_size_t (m data * n data))); simpl;
      (split; [intros; congruence | intros; congruence]).
Qed.

(** *** Selection writes *)



End DataSetClaims.

Lemma DataSet_open_stores_group_handle_witness :
  t_double <> t_other /\
  exists t1 ty d ds id w',
    get_hdf5_datatype (@counting_lib Z) 16 t_double (mkWorld [] []) =
      (Ok (t_type ds), mkWorld t1 ([] ++ [Block ty d 1])) /\
    DataSet_ctor (@counting_lib Z) 16 32 32 t_double "d" (Hid 3) [2; 3]
      false open (mkWorld [] []) = (Ok ds, w') /\
    trace w' = t1 ++ [(H5Gopen2 (Hid 3) "d" H5P_DEFAULT, id)] /\
    heap w' = [] ++ [Block ty d 1; Block (Hid id) (Some close_H5D) 1;
                     Block Indeterminate (Some close_H5S) 1] /\
    hdf5_reference (base ds) = Some (length (@nil ctrl_block) + 1)%nat /\
    dataspace ds = Some (length (@nil ctrl_block) + 2)%nat.
Proof.
  split; [discriminate |].
  apply (DataSet_open_stores_group_handle (@counting_lib Z) 16 32 32
           t_double "d" (Hid 3) [2; 3] false [] []).
  discriminate.
Defined.

(** The scenario is what the wrapper produces. *)
Lemma demo_world_reached :
  File_ctor (@counting_lib Z) "f.h5" true 0 create empty_world =
    (Ok demo_file, demo_file_world) /\
  create_dataset (@counting_lib Z) 16 32 32 t_double demo_file "d" [2; 3]
    demo_file_world = (Ok demo_dataset, demo_world).
Proof. split; reflexivity. Qed.

Lemma demo_handles :
  points_to (heap demo_world) (hdf5_reference (base demo_dataset)) (Hid 6) /\
  points_to (heap demo_world) (t_type demo_dataset) H5T_NATIVE_DOUBLE /\
  points_to (heap demo_world) (dataspace demo_dataset) (Hid 5).
Proof.
  repeat split; eexists _, _;
    (split; [reflexivity | split; [reflexivity | split; [discriminate | reflexivity]]]).
Defined.

Lemma write_data_checks_wrapped_total_size_witness :
  0 <= 32 <= 64 /\
  DataSet_ctor (@counting_lib Z) 16 32 32 t_double "d" (Hid 3) [2; 3] true create
    demo_file_world = (Ok demo_dataset, demo_world) /\
  total_size demo_dataset = wrap 32 (product [2; 3]) /\
  (fst (write_data (@counting_lib Z) demo_dataset [1; 2; 3; 4; 5; 6]
          (mkWorld (trace demo_world) (heap demo_world))) = Fatal <->
   size [1; 2; 3; 4; 5; 6] <> wrap 32 (product [2; 3])) /\
  (size [1; 2; 3; 4; 5; 6] = wrap 32 (product [2; 3]) ->
   write_data (@counting_lib Z) demo_dataset [1; 2; 3; 4; 5; 6]
     (mkWorld (trace demo_world) (heap demo_world)) =
   (Ok tt,
    mkWorld (transfer_write (@counting_lib Z) true (trace demo_world) (Hid 6)
               H5T_NATIVE_DOUBLE H5S_ALL H5S_ALL (Some [1; 2; 3; 4; 5; 6]))
      (heap demo_world))) /\
  (0 <= product [2; 3] < 2 ^ 32 -> wrap 32 (product [2; 3]) = product [2; 3]).
Proof.
  split; [lia |]. split; [reflexivity |].
  apply (write_data_checks_wrapped_total_size (@counting_lib Z) 16 32 32
           t_double "d" (Hid 3) [2; 3] true demo_file_world demo_dataset
           demo_world [1; 2; 3; 4; 5; 6] (trace demo_world) (heap demo_world)
           (Hid 6) H5T_NATIVE_DOUBLE).
  - lia.
  - reflexivity.
  - apply demo_handles.
  - apply demo_handles.
Defined.

(** C2, as stated, fails: a dataset declared with dimensions 2^32 x 2^32
    has [total_size] 0 in any unsigned type of at most 64 bits, and the
    full-array write of an empty buffer passes the check and issues the
    write, although the element count 0 differs from the product 2^64.
    In a 32-bit [total_size] the same happens already for 2^16 x 2^16. *)
Lemma write_data_accepts_buffer_of_wrong_size :
  (exists ds w1 w2,
     DataSet_ctor (@counting_lib Z) 16 32 64 t_double "d" (Hid 3)
       [2 ^ 32; 2 ^ 32] false create demo_file_world = (Ok ds, w1) /\
     write_data (@counting_lib Z) ds [] w1 = (Ok tt, w2) /\
     size (@nil Z) <> product [2 ^ 32; 2 ^ 32]) /\
  (exists ds w1 w2,
     DataSet_ctor (@counting_lib Z) 16 32 32 t_double "d" (Hid 3)
       [2 ^ 16; 2 ^ 16] false create demo_file_world = (Ok ds, w1) /\
     write_data (@counting_lib Z) ds [] w1 = (Ok tt, w2) /\
     size (@nil Z) <> product [2 ^ 16; 2 ^ 16]).
Proof.
  split; do 3 eexists;
    (split; [lazy; reflexivity |]; split; [lazy; reflexivity |];
     vm_compute; discriminate).
Qed.

Lemma write_uses_collective_context_iff_mpi_witness :
  let passing := Selection [7; 8] [0; 0; 1; 1] in
  let failing := FullVector [7; 8] in
  points_to (heap demo_world) (hdf5_reference (base demo_dataset)) (Hid 6) /\
  points_to (heap demo_world) (t_type demo_dataset) H5T_NATIVE_DOUBLE /\
  points_to (heap demo_world) (dataspace demo_dataset) (Hid 5) /\
  check_passes demo_dataset passing = true /\
  check_passes demo_dataset failing = false /\
  (exists es,
     issue (@counting_lib Z) demo_dataset passing
       (mkWorld (trace demo_world) (heap demo_world)) =
     (Ok tt, mkWorld (trace demo_world ++ es) (heap demo_world)) /\
     if mpi (base demo_dataset) then collective_write es else default_write es) /\
  issue (@counting_lib Z) demo_dataset failing
    (mkWorld (trace demo_world) (heap demo_world)) =
  (Fatal, mkWorld (trace demo_world) (heap demo_world)).
Proof.
  intros passing failing.
  split; [apply demo_handles |]. split; [apply demo_handles |].
  split; [apply demo_handles |].
  split; [reflexivity |]. split; [reflexivity |]. split.
  - apply (write_uses_collective_context_iff_mpi (@counting_lib Z) demo_dataset
             passing (trace demo_world) (heap demo_world)
             (Hid 6) H5T_NATIVE_DOUBLE (Hid 5));
      first [apply demo_handles | reflexivity].
  - apply (write_uses_collective_context_iff_mpi (@counting_lib Z) demo_dataset
             failing (trace demo_world) (heap demo_world)
             (Hid 6) H5T_NATIVE_DOUBLE (Hid 5));
      first [apply demo_handles | reflexivity].
Defined.

Lemma DataSet_dtor_closes_dataset_then_dataspace_witness :
  hdf5_reference (base demo_dataset) = Some 2%nat /\
  dataspace demo_dataset = Some 3%nat /\
  2%nat <> 3%nat /\
  heap demo_world !! 2%nat = Some (Block (Hid 6) (Some close_H5D) 1) /\
  heap demo_world !! 3%nat = Some (Block (Hid 5) (Some close_H5S) 1) /\
  exists r1 r2 rest res w',
    DataSet_dtor (@counting_lib Z) demo_dataset
      (mkWorld (trace demo_world) (heap demo_world)) = (res, w') /\
    trace w' = trace demo_world ++
               [(H5Dclose (Hid 6), r1); (H5Sclose (Hid 5), r2)] ++ rest /\
    (rest = [] \/ exists c v z, rest = [(closer_call c v, z)]).
Proof.
  split; [reflexivity |]. split; [reflexivity |]. split; [discriminate |].
  split; [reflexivity |]. split; [reflexivity |].
  apply (DataSet_dtor_closes_dataset_then_dataspace (@counting_lib Z)
           demo_dataset (trace demo_world) (heap demo_world) 2%nat 3%nat
           (Hid 6) (Hid 5));
    first [reflexivity | discriminate].
Defined.

Lemma hyperslab_selects_block_and_checks_folded_count_witness :
  points_to (heap demo_world) (hdf5_reference (base demo_dataset)) (Hid 6) /\
  points_to (heap demo_world) (t_type demo_dataset) H5T_NATIVE_DOUBLE /\
  points_to (heap demo_world) (dataspace demo_dataset) (Hid 5) /\
  0 <= product [2; 2] < 2 ^ 31 /\
  to_size_t (accumulate_count [2; 2]) = product [2; 2] /\
  write_data_hyperslab (@counting_lib Z) demo_dataset [7; 8; 9] [0; 1] [2; 2]
    (mkWorld (trace demo_world) (heap demo_world)) =
  (Fatal, mkWorld (trace demo_world) (heap demo_world)) /\
  write_data_hyperslab (@counting_lib Z) demo_dataset [7; 8; 9; 10] [0; 1] [2; 2]
    (mkWorld (trace demo_world) (heap demo_world)) =
  (Ok tt,
   mkWorld (selected_write (@counting_lib Z) true (trace demo_world) [4]
              (fun sp => H5Sselect_hyperslab sp H5S_SELECT_SET [0; 1] None
                           [2; 2] None)
              (Hid 6) H5T_NATIVE_DOUBLE (Hid 5) (Some [7; 8; 9; 10]))
     (heap demo_world)).
Proof.
  split; [apply demo_handles |]. split; [apply demo_handles |].
  split; [apply demo_handles |].
  assert (Hp : 0 <= product [2; 2] < 2 ^ 31) by (unfold product; simpl; lia).
  split; [exact Hp |].
  destruct (hyperslab_selects_block_and_checks_folded_count (@counting_lib Z)
              demo_dataset [0; 1] [2; 2] (trace demo_world) (heap demo_world)
              (Hid 6) H5T_NATIVE_DOUBLE (Hid 5)
              (proj1 demo_handles) (proj1 (proj2 demo_handles))
              (proj2 (proj2 demo_handles)))
    as (Hv & _ & Hs).
  destruct (Hs Hp) as (E & Hf & _).
  split; [exact E |]. split.
  - apply Hf. vm_compute. discriminate.
  - rewrite (Hv [7; 8; 9; 10]). reflexivity.
Defined.

(** C5, as stated, fails: with [count] = 2^16 x 2^16 the folded value is 0,
    so the hyperslab write of an empty buffer passes the check and is
    issued, although its element count 0 differs from the product 2^32. *)
Lemma hyperslab_accepts_buffer_of_wrong_size :
  exists w',
    write_data_hyperslab (@counting_lib Z) demo_dataset [] [0; 0]
      [2 ^ 16; 2 ^ 16] demo_world = (Ok tt, w') /\
    size (@nil Z) <> product [2 ^ 16; 2 ^ 16].
Proof.
  eexists. split; [lazy; reflexivity |]. vm_compute. discriminate.
Qed.

Lemma hyperslab_check_uses_signed_wrapped_product_witness :
  points_to (heap demo_world) (hdf5_reference (base demo_dataset)) (Hid 6) /\
  points_to (heap demo_world) (t_type demo_dataset) H5T_NATIVE_DOUBLE /\
  points_to (heap demo_world) (dataspace demo_dataset) (Hid 5) /\
  let residue := wrap 32 (product [2 ^ 31; 3]) in
  let expected := if residue <? 2 ^ 31 then residue else residue + (2 ^ 64 - 2 ^ 32) in
  to_size_t (accumulate_count [2 ^ 31; 3]) = expected /\
  (forall data,
     fst (write_data_hyperslab (@counting_lib Z) demo_dataset data [0; 0]
            [2 ^ 31; 3] (mkWorld (trace demo_world) (heap demo_world))) = Fatal <->
     size data <> expected) /\
  (forall data,
     fst (write_data_hyperslab_matrix (@counting_lib Z) demo_dataset data [0; 0]
            [2 ^ 31; 3] (mkWorld (trace demo_world) (heap demo_world))) = Fatal <->
     to_size_t (m data * n data) <> expected).
Proof.
  split; [apply demo_handles |]. split; [apply demo_handles |].
  split; [apply demo_handles |].
  apply (hyperslab_check_uses_signed_wrapped_product (@counting_lib Z)
           demo_dataset [0; 0] [2 ^ 31; 3] (trace demo_world) (heap demo_world)
           (Hid 6) H5T_NATIVE_DOUBLE (Hid 5)); apply demo_handles.
Defined.

(** C9, as stated, fails: for [count] = 2^31 x 3 the true product is
    3 * 2^31 >= 2^32 and its residue modulo 2^32 is 2^31, but the value the
    check compares with the buffer size is 2^64 - 2^31; a buffer of 2^31
    elements, which matches the residue, is rejected. *)
Lemma hyperslab_check_value_is_not_the_residue :
  2 ^ 32 <= product [2 ^ 31; 3] /\
  wrap 32 (product [2 ^ 31; 3]) = 2 ^ 31 /\
  to_size_t (accumulate_count [2 ^ 31; 3]) = 2 ^ 64 - 2 ^ 31 /\
  to_size_t (accumulate_count [2 ^ 31; 3]) <> wrap 32 (product [2 ^ 31; 3]) /\
  (forall data : list Z,
     size data = wrap 32 (product [2 ^ 31; 3]) ->
     write_data_hyperslab (@counting_lib Z) demo_dataset data [0; 0]
       [2 ^ 31; 3] demo_world = (Fatal, demo_world)).
Proof.
  split; [vm_compute; discriminate |].
  split; [reflexivity |]. split; [reflexivity |].
  split; [vm_compute; discriminate |].
  intros data Hsz.
  change demo_world with (mkWorld (trace demo_world) (heap demo_world)).
  rewrite (run_write_data_hyperslab (@counting_lib Z) demo_dataset data [0; 0]
             [2 ^ 31; 3] (trace demo_world) (heap demo_world)
             (Hid 6) H5T_NATIVE_DOUBLE (Hid 5)
             (proj1 demo_handles) (proj1 (proj2 demo_handles))
             (proj2 (proj2 demo_handles))).
  rewrite Hsz. reflexivity.
Qed.



(** * Properties of Group *)

Section GroupClaims.

Context {V : Type}.
Variable lib : list (event V) -> H5call V -> Z.
Variable sizeof_long_double rank_bits total_size_bits : Z.

#[local] Abbreviation create_dataset :=
  (create_dataset lib sizeof_long_double rank_bits total_size_bits).
#[local] Abbreviation write_dataset :=
  (write_dataset lib sizeof_long_double rank_bits total_size_bits).
#[local] Abbreviation write_dataset_matrix :=
  (write_dataset_matrix lib sizeof_long_double rank_bits total_size_bits).

(** C4. [write_dataset(name, data)] is the sequence a caller would issue by
    hand: [create_dataset<T>(name, dims)] followed by the full-array
    [write_data(data)], with [dims] the length of a flat buffer, or the row
    and column counts of a matrix.  From every state and for every
    behaviour of the library the two make the same calls, leave the same
    state and return the same result. *)
Theorem write_dataset_is_create_then_write T g name :
  (forall (data : list V) w,
     write_dataset T g name data w =
     create_then_write lib sizeof_long_double rank_bits total_size_bits
       (write_data lib) T g name [size data] data w) /\
  (forall (data : FullMatrix) w,
     write_dataset_matrix T g name data w =
     create_then_write lib sizeof_long_double rank_bits total_size_bits
       (write_data_matrix lib) T g name [m data; n data] data w).
Proof.
  split; intros data w.
  - unfold HDF5.write_dataset, create_then_write, bind.
    destruct (create_dataset T g name [size data] w) as [[ds| |] w1];
      [| reflexivity ..].
    destruct (write_data lib ds data w1) as [[u| |] w2]; reflexivity.
  - unfold HDF5.write_dataset_matrix, create_then_write, bind.
    destruct (create_dataset T g name [m data; n data] w) as [[ds| |] w1];
      [| reflexivity ..].
    destruct (write_data_matrix lib ds data w1) as [[u| |] w2]; reflexivity.
Qed.

Lemma run_Group_ctor name this mpi mode t (h : list ctrl_block) a b :
  hdf5_reference this = Some a -> h !! a = Some b -> use_count b <> O ->
  exists c,
    Group_ctor lib name this mpi mode (mkWorld t h) =
    (Ok (mkObject name mpi (Some (length h))),
     mkWorld (t ++ [(c, lib t c)])
       (h ++ [Block (Hid (lib t c)) (Some close_H5G) 1])) /\
    c = match mode with
        | create => H5Gcreate2 (value b) name H5P_DEFAULT H5P_DEFAULT H5P_DEFAULT
        | open => H5Gopen2 (value b) name H5P_DEFAULT
        end.
Proof.
  intros Ea Hb Hc. unfold Group_ctor. rewrite Ea.
  run_new. destruct mode; eexists; (split; [| reflexivity]).
  - rewrite bind_assoc. run_load. rewrite bind_assoc. run_call. run_store.
    reflexivity.
  - rewrite bind_assoc. run_load. rewrite bind_assoc. run_call. run_store.
    reflexivity.
Qed.

Lemma run_create_dataset T this name dims t (h : list ctrl_block) a b :
  T <> t_other ->
  hdf5_reference this = Some a -> h !! a = Some b -> use_count b <> O ->
  exists t' ty d dset space,
    create_dataset T this name dims (mkWorld t h) =
    (Ok (mkDataSet (mkObject name (mpi this) (Some (length h + 1)%nat))
           (wrap rank_bits (size dims)) dims
           (Some (length h)) (Some (length h + 2)%nat)
           (compute_total_size total_size_bits dims)),
     mkWorld t'
       (h ++ [Block ty d 1; Block (Hid dset) (Some close_H5D) 1;
              Block (Hid space) (Some close_H5S) 1])).
Proof.
  intros HT Ea Hb Hc. unfold HDF5.create_dataset. rewrite Ea.
  erewrite bind_Ok by (apply run_load; eassumption). cbv beta.
  destruct (run_get_hdf5_datatype lib sizeof_long_double T t h HT) as (t1 & ty & d & E).
  pose proof (run_DataSet_ctor_create lib sizeof_long_double rank_bits
                total_size_bits T name (value b) dims (mpi this) t h t1 ty d E) as R.
  cbv zeta in R. rewrite R. eauto 10.
Qed.

(** The three cells of a dataset that owns them alone are released by its
    destructor; the cells in front of them stay as they are. *)
Lemma run_DataSet_dtor_new ds t (h : list ctrl_block) ty d dset space :
  hdf5_reference (base ds) = Some (length h + 1)%nat ->
  t_type ds = Some (length h) ->
  dataspace ds = Some (length h + 2)%nat ->
  exists t' l,
    DataSet_dtor lib ds
      (mkWorld t (h ++ [Block ty d 1; Block (Hid dset) (Some close_H5D) 1;
                        Block (Hid space) (Some close_H5S) 1])) =
    (Ok tt, mkWorld t' (h ++ l)).
Proof.
  intros E1 E2 E3. unfold DataSet_dtor. rewrite E1, E2, E3.
  erewrite bind_Ok by (apply run_reset_new_last; reflexivity). cbv beta.
  cbn [insert list_insert].
  erewrite bind_Ok by (apply run_reset_new_last; reflexivity). cbv beta.
  cbn [insert list_insert].
  destruct d as [c|].
  - rewrite run_reset_last with (v := ty) (c := c)
      by (rewrite lookup_new0; reflexivity).
    rewrite insert_new0. eauto.
  - rewrite run_reset_last_plain with (v := ty)
      by (rewrite lookup_new0; reflexivity).
    rewrite insert_new0. eauto.
Qed.

Lemma write_dataset_frame {D} (write : DataSet -> D -> M V unit) T this name dims
    (data : D) t (h : list ctrl_block) a b res w' :
  (forall ds, keeps_heap (write ds data)) ->
  hdf5_reference this = Some a -> h !! a = Some b -> use_count b <> O ->
  bind (create_dataset T this name dims)
    (fun ds => bind (write ds data) (fun _ => DataSet_dtor lib ds))
    (mkWorld t h) = (res, w') ->
  heap w' !! a = Some b.
Proof.
  intros Hw Ea Hb Hc.
  assert (Hold : forall l : list ctrl_block, (h ++ l) !! a = Some b).
  { intros l. rewrite lookup_app_l by (eapply lookup_lt_Some; exact Hb). exact Hb. }
  destruct (decide (T = t_other)) as [->|HT].
  - assert (F : create_dataset t_other this name dims (mkWorld t h) =
                (Fatal, mkWorld t h)).
    { unfold HDF5.create_dataset. rewrite Ea.
      erewrite bind_Ok by (apply run_load; eassumption). reflexivity. }
    erewrite bind_Fatal by exact F. intros [= <- <-]. exact Hb.
  - destruct (run_create_dataset T this name dims t h a b HT Ea Hb Hc)
      as (t1 & ty & d & dset & space & R).
    erewrite bind_Ok by exact R. cbv beta.
    match goal with |- bind (write ?ds data) _ ?w = _ -> _ =>
      destruct (write ds data w) as [r [t2 h2]] eqn:W;
      pose proof (Hw ds _ _ _ W) as Hh; simpl in Hh; subst h2
    end.
    unfold bind at 1. rewrite W. destruct r as [[]| |].
    + edestruct run_DataSet_dtor_new as (t3 & l & ->); [reflexivity .. |].
      intros [= <- <-]. apply Hold.
    + intros [= <- <-]. apply Hold.
    + intros [= <- <-]. apply Hold.
Qed.

(** C10. On a group whose handle is live, [group(name)] and
    [create_group(name)] return a child group, and [create_dataset(name,
    dimensions)] a dataset, that carry the [mpi] flag of the group; and
    after each of these operations, and after [write_dataset] in either
    form and however it ends, the cell of the group's own handle is what it
    was: same identifier, same disposal action, same use count.  (The
    members [name] and [mpi] of the group are values the operations only
    read.) *)
Theorem group_children_inherit_mpi_and_leave_parent this name t
    (h : list ctrl_block) a b :
  hdf5_reference this = Some a -> h !! a = Some b -> use_count b <> O ->
  (exists child w',
     group lib this name (mkWorld t h) = (Ok child, w') /\
     mpi child = mpi this /\ heap w' !! a = Some b) /\
  (exists child w',
     create_group lib this name (mkWorld t h) = (Ok child, w') /\
     mpi child = mpi this /\ heap w' !! a = Some b) /\
  (forall T dims, T <> t_other ->
   exists ds w',
     create_dataset T this name dims (mkWorld t h) = (Ok ds, w') /\
     mpi (base ds) = mpi this /\ heap w' !! a = Some b) /\
  (forall T (data : list V) res w',
     write_dataset T this name data (mkWorld t h) = (res, w') ->
     heap w' !! a = Some b) /\
  (forall T (data : FullMatrix) res w',
     write_dataset_matrix T this name data (mkWorld t h) = (res, w') ->
     heap w' !! a = Some b).
Proof.
  intros Ea Hb Hc.
  assert (Hold : forall l : list ctrl_block, (h ++ l) !! a = Some b).
  { intros l. rewrite lookup_app_l by (eapply lookup_lt_Some; exact Hb). exact Hb. }
  split; [| split; [| split; [| split]]].
  - destruct (run_Group_ctor name this (mpi this) open t h a b Ea Hb Hc)
      as (c & R & _).
    do 2 eexists. split; [exact R |]. split; [reflexivity | apply Hold].
  - destruct (run_Group_ctor name this (mpi this) create t h a b Ea Hb Hc)
      as (c & R & _).
    do 2 eexists. split; [exact R |]. split; [reflexivity | apply Hold].
  - intros T dims HT.
    destruct (run_create_dataset T this name dims t h a b HT Ea Hb Hc)
      as (t1 & ty & d & dset & space & R).
    do 2 eexists. split; [exact R |]. split; [reflexivity | apply Hold].
  - intros T data res w' R.
    eapply (write_dataset_frame (write_data lib)); eauto using keeps_heap_write_data.
  - intros T data res w' R.
    eapply (write_dataset_frame (write_data_matrix lib));
      eauto using keeps_heap_write_data_matrix.
Qed.

End GroupClaims.

Lemma group_children_inherit_mpi_and_leave_parent_witness :
  let L := @counting_lib Z in
  let t := trace demo_file_world in
  let h := heap demo_file_world in
  let b := Block (Hid 3) (Some close_H5F) 1 in
  hdf5_reference demo_file = Some 0%nat /\
  h !! 0%nat = Some b /\
  use_count b <> O /\
  (exists child w',
     group L demo_file "g" (mkWorld t h) = (Ok child, w') /\
     mpi child = mpi demo_file /\ heap w' !! 0%nat = Some b) /\
  (exists child w',
     create_group L demo_file "g" (mkWorld t h) = (Ok child, w') /\
     mpi child = mpi demo_file /\ heap w' !! 0%nat = Some b) /\
  (forall T dims, T <> t_other ->
   exists ds w',
     create_dataset L 16 32 32 T demo_file "g" dims (mkWorld t h) = (Ok ds, w') /\
     mpi (base ds) = mpi demo_file /\ heap w' !! 0%nat = Some b) /\
  (forall T (data : list Z) res w',
     write_dataset L 16 32 32 T demo_file "g" data (mkWorld t h) = (res, w') ->
     heap w' !! 0%nat = Some b) /\
  (forall T (data : FullMatrix) res w',
     write_dataset_matrix L 16 32 32 T demo_file "g" data (mkWorld t h) = (res, w') ->
     heap w' !! 0%nat = Some b).
Proof.
  intros L t h b.
  split; [reflexivity |]. split; [reflexivity |]. split; [discriminate |].
  apply (group_children_inherit_mpi_and_leave_parent L 16 32 32 demo_file "g"
           t h 0%nat b); first [reflexivity | discriminate].
Defined.

(** The calls [write_dataset] makes for a buffer of three complex doubles
    under a group of a file opened for collective access. *)
Example write_dataset_calls :
  trace (snd (write_dataset (@counting_lib Z) 16 32 32 t_complex_double
                demo_file "d" [1; 2; 3] demo_file_world)) =
  trace demo_file_world ++
  [(H5Tcreate H5T_COMPOUND 16, 5);
   (H5Tinsert (Hid 5) "r" 0 H5T_NATIVE_DOUBLE, 6);
   (H5Tinsert (Hid 5) "i" 8 H5T_NATIVE_DOUBLE, 7);
   (H5Screate_simple 1 [3] None, 8);
   (H5Dcreate2 (Hid 3) "d" (Hid 5) (Hid 8) H5P_DEFAULT H5P_DEFAULT H5P_DEFAULT, 9);
   (H5Pcreate H5P_DATASET_XFER, 10);
   (H5Pset_dxpl_mpio (Hid 10) H5FD_MPIO_COLLECTIVE, 11);
   (H5Dwrite (Hid 9) (Hid 5) H5S_ALL H5S_ALL (Hid 10) (Some [1; 2; 3]), 12);
   (H5Pclose (Hid 10), 13);
   (H5Dclose (Hid 9), 14);
   (H5Sclose (Hid 8), 15);
   (H5Tclose (Hid 5), 16)].
Proof. reflexivity. Qed.

(** * Further properties of the wrapper *)

Section MoreResolver.

Context {V : Type}.
Variable lib : list (event V) -> H5call V -> Z.
Variable sizeof_long_double rank_bits total_size_bits : Z.

#[local] Abbreviation get_hdf5_datatype := (get_hdf5_datatype lib sizeof_long_double).
#[local] Abbreviation DataSet_ctor :=
  (DataSet_ctor lib sizeof_long_double rank_bits total_size_bits).
#[local] Abbreviation create_dataset :=
  (create_dataset lib sizeof_long_double rank_bits total_size_bits).
#[local] Abbreviation write_dataset :=
  (write_dataset lib sizeof_long_double rank_bits total_size_bits).
#[local] Abbreviation write_dataset_matrix :=
  (write_dataset_matrix lib sizeof_long_double rank_bits total_size_bits).

(** X1. For the five primitive element types the resolver makes no library
    call: it returns a new cell that holds the predefined identifier of the
    type and has the default deleter, so that giving the descriptor up
    makes no library call either (nothing is closed). *)
Theorem primitive_datatype_is_not_owned T native (w : World V) :
  native_of T = Some native ->
  get_hdf5_datatype T w =
    (Ok (Some (length (heap w))),
     mkWorld (trace w) (heap w ++ [Block native None 1])) /\
  reset lib (Some (length (heap w)))
    (mkWorld (trace w) (heap w ++ [Block native None 1])) =
    (Ok tt, mkWorld (trace w) (heap w ++ [Block native None 0])).
Proof.
  intros HT. destruct w as [t h]. simpl trace. simpl heap.
  assert (P : native_datatype native (mkWorld (V:=V) t h) =
              (Ok (Some (length h)), mkWorld t (h ++ [Block native None 1]))).
  { pose proof (run_native_datatype native t h []) as R.
    now rewrite app_nil_r, Nat.add_0_r in R. }
  split.
  - destruct T; simpl in HT; try discriminate; injection HT as <-; exact P.
  - rewrite run_reset_last_plain with (v := native)
      by (rewrite lookup_new0; reflexivity).
    now rewrite insert_new0.
Qed.

(** X2. An element type outside the eight instantiated ones is refused on
    the fatal path before any library call is made and before any handle
    is allocated: by the [DataSet] constructor in either mode, by
    [create_dataset] and by both forms of [write_dataset]. *)
Theorem unsupported_type_is_fatal_before_any_call this name dims t
    (h : list ctrl_block) a b :
  hdf5_reference this = Some a -> h !! a = Some b -> use_count b <> O ->
  (forall parent mpi mode,
     DataSet_ctor t_other name parent dims mpi mode (mkWorld t h) =
     (Fatal, mkWorld t h)) /\
  create_dataset t_other this name dims (mkWorld t h) = (Fatal, mkWorld t h) /\
  (forall data : list V,
     write_dataset t_other this name data (mkWorld t h) = (Fatal, mkWorld t h)) /\
  (forall data : FullMatrix,
     write_dataset_matrix t_other this name data (mkWorld t h) =
     (Fatal, mkWorld t h)).
Proof.
  intros Ea Hb Hc.
  assert (F : forall dims', create_dataset t_other this name dims' (mkWorld t h) =
                            (Fatal, mkWorld t h)).
  { intros dims'. unfold HDF5.create_dataset. rewrite Ea.
    erewrite bind_Ok by (apply run_load; eassumption). reflexivity. }
  split; [reflexivity |]. split; [apply F |].
  split; intros data.
  - unfold HDF5.write_dataset. now erewrite bind_Fatal by apply F.
  - unfold HDF5.write_dataset_matrix. now erewrite bind_Fatal by apply F.
Qed.

(** X3. [create_dataset] on a group with a live handle, for an instantiated
    element type: after the type descriptor is resolved it makes exactly two
    calls, [H5Screate_simple] with the rank and the dimensions, and
    [H5Dcreate2] under the group's identifier with the resolved type and
    with the dataspace the first call returned.  The dataset returned has
    the given name and dimensions and the group's [mpi] flag, and its three
    handles are live: they hold what the two calls returned and the type. *)
Theorem create_dataset_wires_handles T this name dims t (h : list ctrl_block) a b :
  T <> t_other ->
  hdf5_reference this = Some a -> h !! a = Some b -> use_count b <> O ->
  exists ds t1 ty d space dset w',
    get_hdf5_datatype T (mkWorld t h) =
      (Ok (t_type ds), mkWorld t1 (h ++ [Block ty d 1])) /\
    create_dataset T this name dims (mkWorld t h) = (Ok ds, w') /\
    trace w' =
      t1 ++ [(H5Screate_simple (wrap rank_bits (size dims)) dims None, space);
             (H5Dcreate2 (value b) name ty (Hid space)
                H5P_DEFAULT H5P_DEFAULT H5P_DEFAULT, dset)] /\
    heap w' = h ++ [Block ty d 1; Block (Hid dset) (Some close_H5D) 1;
                    Block (Hid space) (Some close_H5S) 1] /\
    HDF5.name (base ds) = name /\ mpi (base ds) = mpi this /\
    dimensions ds = dims /\
    points_to (heap w') (hdf5_reference (base ds)) (Hid dset) /\
    points_to (heap w') (t_type ds) ty /\
    points_to (heap w') (dataspace ds) (Hid space).
Proof.
  intros HT Ea Hb Hc.
  destruct (run_get_hdf5_datatype lib sizeof_long_double T t h HT) as (t1 & ty & d & E).
  pose proof (run_DataSet_ctor_create lib sizeof_long_double rank_bits
                total_size_bits T name (value b) dims (mpi this) t h t1 ty d E) as R.
  cbv zeta in R.
  do 7 eexists. split; [| split].
  2:{ unfold HDF5.create_dataset. rewrite Ea.
      erewrite bind_Ok by (apply run_load; eassumption). cbv beta. exact R. }
  - exact E.
  - simpl. split; [now rewrite <- app_assoc |]. split; [reflexivity |].
    split; [reflexivity |]. split; [reflexivity |]. split; [reflexivity |].
    split; [| split]; eexists _, _;
      (split; [reflexivity |]; split;
       [first [rewrite lookup_new | rewrite lookup_new0]; reflexivity |]; split;
       [discriminate | reflexivity]).
Qed.

End MoreResolver.

Section MoreWrites.

Context {V : Type}.
Variable lib : list (event V) -> H5call V -> Z.
Variable sizeof_long_double rank_bits total_size_bits : Z.

#[local] Abbreviation DataSet_ctor :=
  (DataSet_ctor lib sizeof_long_double rank_bits total_size_bits).

(** X4. The full-array write from a matrix takes the fatal path if and
    only if [total_size] differs from the number of rows times the number of
    columns (taken in [std::size_t]); otherwise it makes one write of the
    matrix's storage over the entire extent.  For a matrix whose two
    dimensions multiply without overflow that number is the product. *)
Theorem write_data_matrix_checks_element_count ds data t (h : list ctrl_block)
    dset type :
  points_to h (hdf5_reference (base ds)) dset ->
  points_to h (t_type ds) type ->
  (fst (write_data_matrix lib ds data (mkWorld t h)) = Fatal <->
   total_size ds <> to_size_t (m data * n data)) /\
  (total_size ds = to_size_t (m data * n data) ->
   write_data_matrix lib ds data (mkWorld t h) =
   (Ok tt,
    mkWorld (transfer_write lib (mpi (base ds)) t dset type H5S_ALL H5S_ALL
               (Some (elements data))) h)) /\
  (0 <= m data * n data < 2 ^ 64 -> to_size_t (m data * n data) = m data * n data).
Proof.
  intros Hd Ht.
  rewrite (run_write_data_matrix lib ds data t h dset type Hd Ht).
  destruct (Z.eqb_spec (total_size ds) (to_size_t (m data * n data))) as [e|ne];
    simpl.
  - split; [split; [discriminate | congruence] |].
    split; [reflexivity |].
    intros. unfold to_size_t, wrap. now apply Z.mod_small.
  - split; [split; [congruence | reflexivity] |].
    split; [congruence |].
    intros. unfold to_size_t, wrap. now apply Z.mod_small.
Qed.

(** X5. The empty write never takes the fatal path: on live handles it
    always completes, and its calls are the creation of a one-dimensional
    memory dataspace of extent 0, [H5Sselect_none] on the dataset's
    dataspace, one [H5Dwrite] from the one to the other with a [NULL]
    buffer (inside the collective transfer property list under [mpi]), and
    the closing of the memory dataspace. *)
Theorem write_data_none_always_issues_empty_write ds t (h : list ctrl_block)
    dset type space :
  points_to h (hdf5_reference (base ds)) dset ->
  points_to h (t_type ds) type ->
  points_to h (dataspace ds) space ->
  exists ms r1 p q r2 r3 r4,
    write_data_none lib ds (mkWorld t h) =
    (Ok tt,
     mkWorld
       (t ++
        if mpi (base ds) then
          [(H5Screate_simple 1 [0] None, ms); (H5Sselect_none space, r1);
           (H5Pcreate H5P_DATASET_XFER, p);
           (H5Pset_dxpl_mpio (Hid p) H5FD_MPIO_COLLECTIVE, q);
           (H5Dwrite dset type (Hid ms) space (Hid p) None, r2);
           (H5Pclose (Hid p), r3); (H5Sclose (Hid ms), r4)]
        else
          [(H5Screate_simple 1 [0] None, ms); (H5Sselect_none space, r1);
           (H5Dwrite dset type (Hid ms) space H5P_DEFAULT None, r2);
           (H5Sclose (Hid ms), r4)])
       h).
Proof.
  intros Hd Ht Hs.
  rewrite (run_write_data_none lib ds t h dset type space Hd Ht Hs).
  unfold selected_write, transfer_write, perform.
  destruct (mpi (base ds)).
  - eexists _, _, _, _, _, _, _. rewrite <- ?app_assoc. simpl. reflexivity.
  - eexists _, _, 0, 0, _, 0, _. rewrite <- ?app_assoc. simpl. reflexivity.
Qed.

(** X6. Every write operation that completes has closed what it created:
    the identifiers closed during the operation are exactly the identifiers
    that [H5Screate_simple] and [H5Pcreate] returned during it, in the
    reverse order. *)
Theorem writes_close_what_they_create ds req t (h : list ctrl_block)
    dset type space w' :
  points_to h (hdf5_reference (base ds)) dset ->
  points_to h (t_type ds) type ->
  points_to h (dataspace ds) space ->
  issue lib ds req (mkWorld t h) = (Ok tt, w') ->
  exists es,
    trace w' = t ++ es /\
    closed_ids es = rev (created_ids es).
Proof.
  intros Hd Ht Hs.
  destruct req as [data|data|data c|data o c|data o c|]; simpl.
  - rewrite (run_write_data lib ds data t h dset type Hd Ht).
    destruct (_ =? _); [| discriminate]. intros [= <-].
    unfold transfer_write, perform.
    destruct (mpi (base ds)); eexists;
      (split; [simpl; rewrite <- ?app_assoc; reflexivity | reflexivity]).
  - rewrite (run_write_data_matrix lib ds data t h dset type Hd Ht).
    destruct (_ =? _); [| discriminate]. intros [= <-].
    unfold transfer_write, perform.
    destruct (mpi (base ds)); eexists;
      (split; [simpl; rewrite <- ?app_assoc; reflexivity | reflexivity]).
  - rewrite (run_write_data_selection lib ds data c t h dset type space Hd Ht Hs).
    destruct (_ =? _); [| discriminate]. intros [= <-].
    unfold selected_write, transfer_write, perform.
    destruct (mpi (base ds)); eexists;
      (split; [simpl; rewrite <- ?app_assoc; reflexivity | reflexivity]).
  - rewrite (run_write_data_hyperslab lib ds data o c t h dset type space Hd Ht Hs).
    destruct (_ =? _); [| discriminate]. intros [= <-].
    unfold selected_write, transfer_write, perform.
    destruct (mpi (base ds)); eexists;
      (split; [simpl; rewrite <- ?app_assoc; reflexivity | reflexivity]).
  - rewrite (run_write_data_hyperslab_matrix lib ds data o c t h dset type space
               Hd Ht Hs).
    destruct (_ =? _); [| discriminate]. intros [= <-].
    unfold selected_write, transfer_write, perform.
    destruct (mpi (base ds)); eexists;
      (split; [simpl; rewrite <- ?app_assoc; reflexivity | reflexivity]).
  - rewrite (run_write_data_none lib ds t h dset type space Hd Ht Hs).
    intros [= <-].
    unfold selected_write, transfer_write, perform.
    destruct (mpi (base ds)); eexists;
      (split; [simpl; rewrite <- ?app_assoc; reflexivity | reflexivity]).
Qed.

Create HintDb keeps_more.

#[local] Hint Resolve keeps_heap_ret keeps_heap_fatal keeps_heap_call
  keeps_heap_load keeps_heap_AssertDimension keeps_heap_transfer_plist
  keeps_heap_transfer_plist_close : keeps_more.

(** X7. However a write operation ends (completed, on the fatal path, or on
    a dead handle) it leaves every handle cell as it found it: no write
    reassigns, shares or releases a handle. *)
Theorem writes_keep_the_handles ds req : keeps_heap (issue lib ds req).
Proof.
  destruct req; simpl;
    [ apply keeps_heap_write_data | apply keeps_heap_write_data_matrix | .. ];
    unfold write_data_selection, write_data_hyperslab,
      write_data_hyperslab_matrix, write_data_none;
    repeat (apply keeps_heap_bind; [| intros ?]); auto with keeps_more.
Qed.

(** X8. A hyperslab write whose extents multiply to a residue modulo 2^32
    of 2^31 or more is refused on the fatal path for every buffer of fewer
    than 2^63 elements, before any library call: no buffer that can exist
    passes the check, in either form of the write. *)
Theorem hyperslab_rejects_counts_from_2pow31 ds offset count (w : World V) :
  2 ^ 31 <= wrap 32 (product count) ->
  (forall data : list V,
     size data < 2 ^ 63 ->
     write_data_hyperslab lib ds data offset count w = (Fatal, w)) /\
  (forall data : FullMatrix,
     to_size_t (m data * n data) < 2 ^ 63 ->
     write_data_hyperslab_matrix lib ds data offset count w = (Fatal, w)).
Proof.
  intros Hres.
  assert (E : 2 ^ 63 <= to_size_t (accumulate_count count)).
  { rewrite accumulate_count_spec, to_size_t_to_int.
    destruct (Z.ltb_spec (wrap 32 (product count)) (2 ^ 31)); lia. }
  split; intros data Hsz.
  - unfold write_data_hyperslab, AssertDimension, Assert.
    destruct (Z.eqb_spec (to_size_t (accumulate_count count)) (size data));
      [lia | reflexivity].
  - unfold write_data_hyperslab_matrix, AssertDimension, Assert.
    destruct (Z.eqb_spec (to_size_t (accumulate_count count))
                (to_size_t (m data * n data))); [lia | reflexivity].
Qed.

Lemma product_with_zero dims : 0 ∈ dims -> product dims = 0.
Proof.
  induction dims as [|d dims IH]; intros Hin; [inversion Hin |].
  unfold product in *. simpl.
  apply elem_of_cons in Hin as [<- | Hin]; [reflexivity |].
  rewrite IH by exact Hin. lia.
Qed.

(** X9. The degenerate shapes.  A dataset created with a zero extent among
    its dimensions has [total_size] 0: the full-array write accepts the
    empty buffer and nothing else.  A dataset created with no dimension at
    all (rank 0) has [total_size] 1: the full-array write accepts buffers
    of exactly one element. *)
Theorem degenerate_dimensions_fix_the_buffer_size T name parent dims mpi w0 ds
    w1 t (h : list ctrl_block) dset type :
  1 <= total_size_bits <= 64 ->
  DataSet_ctor T name parent dims mpi create w0 = (Ok ds, w1) ->
  points_to h (hdf5_reference (base ds)) dset ->
  points_to h (t_type ds) type ->
  (0 ∈ dims ->
   total_size ds = 0 /\
   forall data : list V,
     fst (write_data lib ds data (mkWorld t h)) = Fatal <-> data <> []) /\
  (dims = [] ->
   total_size ds = 1 /\
   forall data : list V,
     fst (write_data lib ds data (mkWorld t h)) = Fatal <-> length data <> 1%nat).
Proof.
  intros Hb E Hd Ht.
  apply DataSet_ctor_members in E as (_ & _ & _ & _ & Hs).
  rewrite compute_total_size_spec in Hs by lia.
  assert (P : 1 < 2 ^ total_size_bits).
  { apply (Z.pow_gt_1 2 total_size_bits); lia. }
  split.
  - intros Hin. rewrite (product_with_zero dims Hin) in Hs.
    unfold wrap in Hs. rewrite Z.mod_0_l in Hs by lia.
    split; [exact Hs |]. intros data.
    rewrite (run_write_data lib ds data t h dset type Hd Ht), Hs.
    destruct data as [|x data]; simpl.
    + split; [discriminate | congruence].
    + split; [discriminate | reflexivity].
  - intros ->. unfold product, wrap in Hs. simpl in Hs.
    rewrite Z.mod_small in Hs by lia.
    split; [exact Hs |]. intros data.
    rewrite (run_write_data lib ds data t h dset type Hd Ht), Hs.
    unfold size.
    destruct (Z.eqb_spec 1 (Z.of_nat (length data))); simpl.
    + split; [discriminate | lia].
    + split; [lia | reflexivity].
Qed.

(** The destructor of a dataset that alone owns its three cells, the last
    three of the heap. *)
Lemma run_DataSet_dtor_events ds t (h : list ctrl_block) ty d dv sv :
  hdf5_reference (base ds) = Some (length h + 1)%nat ->
  t_type ds = Some (length h) ->
  dataspace ds = Some (length h + 2)%nat ->
  exists r1 r2 rest,
    DataSet_dtor lib ds
      (mkWorld t (h ++ [Block ty d 1; Block dv (Some close_H5D) 1;
                        Block sv (Some close_H5S) 1])) =
    (Ok tt,
     mkWorld (t ++ [(H5Dclose dv, r1); (H5Sclose sv, r2)] ++ rest)
       (h ++ [Block ty d 0; Block dv (Some close_H5D) 0;
              Block sv (Some close_H5S) 0])) /\
    match d with
    | Some c => exists r3, rest = [(closer_call c ty, r3)]
    | None => rest = []
    end.
Proof.
  intros E1 E2 E3. unfold DataSet_dtor. rewrite E1, E2, E3.
  erewrite bind_Ok by (apply run_reset_new_last; reflexivity). cbv beta.
  cbn [insert list_insert].
  erewrite bind_Ok by (apply run_reset_new_last; reflexivity). cbv beta.
  cbn [insert list_insert]. simpl closer_call.
  destruct d as [c|].
  - rewrite run_reset_last with (v := ty) (c := c)
      by (rewrite lookup_new0; reflexivity).
    rewrite insert_new0. cbn [insert list_insert].
    do 2 eexists. eexists [_]. split; [| eauto].
    rewrite <- !app_assoc. reflexivity.
  - rewrite run_reset_last_plain with (v := ty)
      by (rewrite lookup_new0; reflexivity).
    rewrite insert_new0. cbn [insert list_insert].
    do 2 eexists. exists []. split; [| reflexivity].
    rewrite <- !app_assoc. reflexivity.
Qed.

(** X10. What follows from the open branch leaving the dataspace cell
    unassigned: on a dataset constructed in open mode, the empty write
    passes the indeterminate content of that cell to [H5Sselect_none] and
    to [H5Dwrite] as the file dataspace, and the destructor passes it to
    [H5Sclose], after closing with [H5Dclose] the identifier that the
    dataset's own handle holds. *)
Theorem open_mode_dataset_uses_indeterminate_dataspace T name parent dims mpi t
    (h : list ctrl_block) :
  T <> t_other ->
  exists ds w' id ty,
    DataSet_ctor T name parent dims mpi open (mkWorld t h) = (Ok ds, w') /\
    points_to (heap w') (hdf5_reference (base ds)) (Hid id) /\
    points_to (heap w') (dataspace ds) Indeterminate /\
    (exists es ms plist r1 r2,
       write_data_none lib ds w' = (Ok tt, mkWorld (trace w' ++ es) (heap w')) /\
       (H5Sselect_none Indeterminate, r1) ∈ es /\
       (H5Dwrite (Hid id) ty (Hid ms) Indeterminate plist None, r2) ∈ es) /\
    (exists r1 r2 rest w'',
       DataSet_dtor lib ds w' = (Ok tt, w'') /\
       trace w'' =
         trace w' ++ [(H5Dclose (Hid id), r1); (H5Sclose Indeterminate, r2)] ++ rest).
Proof.
  intros HT.
  destruct (run_get_hdf5_datatype lib sizeof_long_double T t h HT) as (t1 & ty & d & E).
  pose proof (run_DataSet_ctor_open lib sizeof_long_double rank_bits total_size_bits
                T name parent dims mpi t h t1 ty d E) as R.
  cbv zeta in R.
  set (id := lib t1 (H5Gopen2 parent name H5P_DEFAULT)) in *.
  eexists _, _, id, ty. split; [exact R |].
  assert (Pd : points_to (h ++ [Block ty d 1; Block (Hid id) (Some close_H5D) 1;
                                Block Indeterminate (Some close_H5S) 1])
                 (Some (length h + 1)%nat) (Hid id)).
  { eexists _, _. split; [reflexivity |].
    split; [rewrite lookup_new; reflexivity |]. split; [discriminate | reflexivity]. }
  assert (Pt : points_to (h ++ [Block ty d 1; Block (Hid id) (Some close_H5D) 1;
                                Block Indeterminate (Some close_H5S) 1])
                 (Some (length h)) ty).
  { eexists _, _. split; [reflexivity |].
    split; [rewrite lookup_new0; reflexivity |]. split; [discriminate | reflexivity]. }
  assert (Ps : points_to (h ++ [Block ty d 1; Block (Hid id) (Some close_H5D) 1;
                                Block Indeterminate (Some close_H5S) 1])
                 (Some (length h + 2)%nat) Indeterminate).
  { eexists _, _. split; [reflexivity |].
    split; [rewrite lookup_new; reflexivity |]. split; [discriminate | reflexivity]. }
  split; [exact Pd |]. split; [exact Ps |]. split.
  - simpl trace. simpl heap.
    erewrite run_write_data_none by (simpl; eassumption).
    unfold selected_write, transfer_write, perform. cbn [base HDF5.mpi].
    destruct mpi; eexists _, _, _, _, _;
      (split; [rewrite <- ?app_assoc; simpl; reflexivity |]);
      split;
      solve [repeat first [apply list_elem_of_here | apply list_elem_of_further]].
  - simpl trace. simpl heap.
    edestruct run_DataSet_dtor_events as (r1 & r2 & rest & -> & _);
      [reflexivity .. |].
    eexists _, _, _, _. split; reflexivity.
Qed.

End MoreWrites.

Section Lifecycle.

Context {V : Type}.
Variable lib : list (event V) -> H5call V -> Z.
Variable sizeof_long_double rank_bits total_size_bits : Z.

#[local] Abbreviation get_hdf5_datatype := (get_hdf5_datatype lib sizeof_long_double).
#[local] Abbreviation create_dataset :=
  (create_dataset lib sizeof_long_double rank_bits total_size_bits).
#[local] Abbreviation write_dataset :=
  (write_dataset lib sizeof_long_double rank_bits total_size_bits).
#[local] Abbreviation write_dataset_matrix :=
  (write_dataset_matrix lib sizeof_long_double rank_bits total_size_bits).

(** The resolver either adds nothing to the trace and returns a cell with
    the default deleter, or creates one identifier, closes none, and
    returns a cell that holds it and closes it on release. *)
Lemma run_get_hdf5_datatype_cases T t (h : list ctrl_block) :
  T <> t_other ->
  exists ext ty d,
    get_hdf5_datatype T (mkWorld t h) =
      (Ok (Some (length h)), mkWorld (t ++ ext) (h ++ [Block ty d 1])) /\
    ((d = None /\ ext = []) \/
     (d = Some close_H5T /\ created_ids ext = [ty] /\ closed_ids ext = [])).
Proof.
  intros HT.
  assert (P : forall native, exists ext ty d,
            native_datatype native (mkWorld (V:=V) t h) =
              (Ok (Some (length h)), mkWorld (t ++ ext) (h ++ [Block ty d 1])) /\
            ((d = None /\ ext = []) \/
             (d = Some close_H5T /\ created_ids ext = [ty] /\ closed_ids ext = []))).
  { intros native. pose proof (run_native_datatype native t h []) as R.
    rewrite app_nil_r, Nat.add_0_r in R. simpl app in R.
    exists [], native, None. rewrite app_nil_r. auto. }
  assert (C : forall native width, exists ext ty d,
            compound_datatype lib native width (mkWorld t h) =
              (Ok (Some (length h)), mkWorld (t ++ ext) (h ++ [Block ty d 1])) /\
            ((d = None /\ ext = []) \/
             (d = Some close_H5T /\ created_ids ext = [ty] /\ closed_ids ext = []))).
  { intros native width.
    pose proof (run_compound_datatype lib native width t h []) as R.
    cbv zeta in R. rewrite app_nil_r, Nat.add_0_r in R. simpl app in R.
    rewrite <- !app_assoc in R. simpl app in R.
    eexists _, _, _. split; [exact R |]. right. auto. }
  destruct T; try congruence; simpl; first [apply P | apply C].
Qed.

Lemma get_hdf5_datatype_never_writes T t (h : list ctrl_block) r ext h' :
  get_hdf5_datatype T (mkWorld t h) = (r, mkWorld (t ++ ext) h') ->
  Forall (fun e => is_H5Dwrite e = false) ext.
Proof.
  intros E.
  assert (N : t = t ++ ext -> Forall (fun e => is_H5Dwrite e = false) ext).
  { intros Ht. assert (ext = []) as ->; [| constructor].
    apply (app_inv_head t). rewrite app_nil_r. symmetry. exact Ht. }
  assert (P : forall native,
            native_datatype native (mkWorld (V:=V) t h) =
              (r, mkWorld (t ++ ext) h') ->
            Forall (fun e => is_H5Dwrite e = false) ext).
  { intros native. pose proof (run_native_datatype native t h []) as R.
    rewrite app_nil_r in R. rewrite R. intros [= _ Ht _]. now apply N. }
  assert (C : forall native width,
            compound_datatype lib native width (mkWorld t h) =
              (r, mkWorld (t ++ ext) h') ->
            Forall (fun e => is_H5Dwrite e = false) ext).
  { intros native width.
    pose proof (run_compound_datatype lib native width t h []) as R.
    cbv zeta in R. rewrite app_nil_r in R. rewrite R. intros [= _ Ht _].
    rewrite <- !app_assoc in Ht. apply app_inv_head in Ht. subst ext.
    repeat constructor. }
  destruct T; simpl in E; first [now apply (P _ E) | now apply (C _ _ E) | idtac].
  injection E as _ Ht _. now apply N.
Qed.

(** Create, write the whole buffer, destroy: the run when the write passes
    its check. *)
Lemma run_create_write_destroy {D} (write : DataSet -> D -> M V unit)
    (buf : option (list V)) T this name dims (data : D) t (h : list ctrl_block)
    a b :
  T <> t_other ->
  hdf5_reference this = Some a -> h !! a = Some b -> use_count b <> O ->
  (forall ds t1 (h1 : list ctrl_block) dset type,
     total_size ds = compute_total_size total_size_bits dims ->
     points_to h1 (hdf5_reference (base ds)) dset ->
     points_to h1 (t_type ds) type ->
     write ds data (mkWorld t1 h1) =
     (Ok tt,
      mkWorld (transfer_write lib (mpi (base ds)) t1 dset type H5S_ALL H5S_ALL
                 buf) h1)) ->
  exists es cells,
    bind (create_dataset T this name dims)
      (fun ds => bind (write ds data) (fun _ => DataSet_dtor lib ds))
      (mkWorld t h) = (Ok tt, mkWorld (t ++ es) (h ++ cells)) /\
    closed_ids es = rev (created_ids es) /\
    length cells = 3%nat /\
    Forall (fun c => use_count c = O) cells /\
    exists dset type plist r,
      (H5Dwrite dset type H5S_ALL H5S_ALL plist buf, r) ∈ es.
Proof.
  intros HT Ea Hb Hc Hw.
  destruct (run_get_hdf5_datatype_cases T t h HT) as (ext & ty & d & E & Hcase).
  pose proof (run_DataSet_ctor_create lib sizeof_long_double rank_bits
                total_size_bits T name (value b) dims (mpi this) t h (t ++ ext)
                ty d E) as R.
  cbv zeta in R.
  erewrite bind_Ok.
  2:{ unfold HDF5.create_dataset. rewrite Ea.
      erewrite bind_Ok by (apply run_load; eassumption). cbv beta. exact R. }
  cbv beta.
  erewrite bind_Ok.
  2:{ eapply Hw; [reflexivity | |];
        eexists _, _;
        (split; [reflexivity |]; split;
         [first [rewrite lookup_new | rewrite lookup_new0]; reflexivity |]; split;
         [discriminate | reflexivity]). }
  cbv beta.
  edestruct (run_DataSet_dtor_events lib) as (r1 & r2 & rest & -> & Hrest);
    [reflexivity .. |].
  unfold transfer_write, perform. cbn [base HDF5.mpi].
  assert (Capp : forall l1 l2 : list (event V),
            created_ids (l1 ++ l2) = created_ids l1 ++ created_ids l2)
    by (intros; apply omap_app).
  assert (Dapp : forall l1 l2 : list (event V),
            closed_ids (l1 ++ l2) = closed_ids l1 ++ closed_ids l2)
    by (intros; apply omap_app).
  destruct (mpi this);
    (eexists (ext ++ _), _;
     split; [rewrite <- ?app_assoc; simpl; reflexivity |];
     split; [| split; [reflexivity | split;
       [repeat constructor |
        eexists _, _, _, _; apply elem_of_app; right;
        solve [repeat first [apply list_elem_of_here | apply list_elem_of_further]]]]]);
    rewrite Capp, Dapp;
    destruct Hcase as [[-> ->] | (-> & -> & ->)];
    [ subst rest | destruct Hrest as (r3 & ->)
    | subst rest | destruct Hrest as (r3 & ->) ]; reflexivity.
Qed.

(** ... and the run when the write fails its check. *)
Lemma run_create_write_fatal {D} (write : DataSet -> D -> M V unit)
    T this name dims (data : D) t (h : list ctrl_block) a b :
  T <> t_other ->
  hdf5_reference this = Some a -> h !! a = Some b -> use_count b <> O ->
  (forall ds w,
     total_size ds = compute_total_size total_size_bits dims ->
     write ds data w = (Fatal, w)) ->
  exists es cells type space dset,
    bind (create_dataset T this name dims)
      (fun ds => bind (write ds data) (fun _ => DataSet_dtor lib ds))
      (mkWorld t h) = (Fatal, mkWorld (t ++ es) (h ++ cells)) /\
    closed_ids es = [] /\
    (H5Dcreate2 (value b) name type (Hid space)
       H5P_DEFAULT H5P_DEFAULT H5P_DEFAULT, dset) ∈ es /\
    Forall (fun c => use_count c = 1%nat) cells /\
    Forall (fun e => is_H5Dwrite e = false) es.
Proof.
  intros HT Ea Hb Hc Hw.
  destruct (run_get_hdf5_datatype_cases T t h HT) as (ext & ty & d & E & Hcase).
  pose proof (run_DataSet_ctor_create lib sizeof_long_double rank_bits
                total_size_bits T name (value b) dims (mpi this) t h (t ++ ext)
                ty d E) as R.
  cbv zeta in R.
  erewrite bind_Ok.
  2:{ unfold HDF5.create_dataset. rewrite Ea.
      erewrite bind_Ok by (apply run_load; eassumption). cbv beta. exact R. }
  cbv beta.
  erewrite bind_Fatal by (apply Hw; reflexivity).
  eexists (ext ++ _), _, _, _, _.
  split; [rewrite <- ?app_assoc; simpl; reflexivity |].
  split; [| split; [| split; [repeat constructor |]]].
  - unfold closed_ids. rewrite omap_app. fold (closed_ids ext).
    destruct Hcase as [[_ ->] | (_ & _ & ->)]; reflexivity.
  - apply elem_of_app. right. simpl.
    solve [repeat first [apply list_elem_of_here | apply list_elem_of_further]].
  - apply Forall_app. split; [| repeat constructor].
    exact (get_hdf5_datatype_never_writes T t h _ ext _ E).
Qed.

Lemma total_size_of_one_dimension d :
  0 <= total_size_bits <= 64 ->
  compute_total_size total_size_bits [d] = wrap total_size_bits d.
Proof.
  intros Hb. rewrite compute_total_size_spec by exact Hb.
  unfold product. simpl. now rewrite Z.mul_1_r.
Qed.

Lemma total_size_of_two_dimensions d1 d2 :
  0 <= total_size_bits <= 64 ->
  compute_total_size total_size_bits [d1; d2] = wrap total_size_bits (d1 * d2).
Proof.
  intros Hb. rewrite compute_total_size_spec by exact Hb.
  unfold product. simpl. now rewrite Z.mul_1_r.
Qed.

(** X11. [write_dataset] of a flat buffer that has fewer than 2^w elements
    (w the width of [total_size]), of an instantiated element type, on a
    group with a live handle: the dimension check of the write it issues
    always passes; the operation completes, writes the whole buffer, and
    closes every identifier it created (type, dataspace, dataset, transfer
    property list) in the reverse order of their creation; its three handle
    cells are all released when it returns. *)
Theorem write_dataset_completes_and_closes_everything T this name
    (data : list V) t (h : list ctrl_block) a b :
  T <> t_other ->
  hdf5_reference this = Some a -> h !! a = Some b -> use_count b <> O ->
  0 <= total_size_bits <= 64 ->
  size data < 2 ^ total_size_bits ->
  exists es cells,
    write_dataset T this name data (mkWorld t h) =
      (Ok tt, mkWorld (t ++ es) (h ++ cells)) /\
    closed_ids es = rev (created_ids es) /\
    length cells = 3%nat /\
    Forall (fun c => use_count c = O) cells /\
    exists dset type plist r,
      (H5Dwrite dset type H5S_ALL H5S_ALL plist (Some data), r) ∈ es.
Proof.
  intros HT Ea Hb Hc Hbits Hsz.
  apply (run_create_write_destroy (write_data lib) (Some data) T this name
           [size data] data t h a b HT Ea Hb Hc).
  intros ds t1 h1 dset type Hts Hd Ht.
  rewrite (run_write_data lib ds data t1 h1 dset type Hd Ht), Hts.
  rewrite total_size_of_one_dimension by exact Hbits.
  unfold wrap, size in *. rewrite Z.mod_small by lia.
  now rewrite Z.eqb_refl.
Qed.

(** X12. [write_dataset] of a matrix whose number of elements, rows times
    columns, is below 2^w (w the width of [total_size]), of an instantiated
    element type, on a group with a live handle: the dimension check of the
    write it issues always passes; the operation completes, writes the
    whole storage of the matrix, and closes every identifier it created in
    the reverse order of their creation; its three handle cells are all
    released when it returns. *)
Theorem write_dataset_matrix_completes_and_closes_everything T this name
    (data : FullMatrix) t (h : list ctrl_block) a b :
  T <> t_other ->
  hdf5_reference this = Some a -> h !! a = Some b -> use_count b <> O ->
  0 <= total_size_bits <= 64 ->
  0 <= m data * n data < 2 ^ total_size_bits ->
  exists es cells,
    write_dataset_matrix T this name data (mkWorld t h) =
      (Ok tt, mkWorld (t ++ es) (h ++ cells)) /\
    closed_ids es = rev (created_ids es) /\
    length cells = 3%nat /\
    Forall (fun c => use_count c = O) cells /\
    exists dset type plist r,
      (H5Dwrite dset type H5S_ALL H5S_ALL plist (Some (elements data)), r) ∈ es.
Proof.
  intros HT Ea Hb Hc Hbits Hsz.
  apply (run_create_write_destroy (write_data_matrix lib) (Some (elements data))
           T this name [m data; n data] data t h a b HT Ea Hb Hc).
  intros ds t1 h1 dset type Hts Hd Ht.
  rewrite (run_write_data_matrix lib ds data t1 h1 dset type Hd Ht), Hts.
  rewrite total_size_of_two_dimensions by exact Hbits.
  assert (2 ^ total_size_bits <= 2 ^ 64) by (apply Z.pow_le_mono_r; lia).
  unfold to_size_t, wrap. rewrite !Z.mod_small by lia.
  now rewrite Z.eqb_refl.
Qed.

(** X13. [write_dataset] of a flat buffer with 2^w elements or more: the
    dataset is created in the file (the [H5Dcreate2] call is made), and then
    the dimension check of the write fails, because [total_size] holds the
    length reduced modulo 2^w: the operation ends on the fatal path with no
    [H5Dwrite] made, nothing closed and its three handles still held. *)
Theorem write_dataset_of_oversized_buffer_is_fatal T this name (data : list V)
    t (h : list ctrl_block) a b :
  T <> t_other ->
  hdf5_reference this = Some a -> h !! a = Some b -> use_count b <> O ->
  0 <= total_size_bits <= 64 ->
  2 ^ total_size_bits <= size data ->
  exists es cells type space dset,
    write_dataset T this name data (mkWorld t h) =
      (Fatal, mkWorld (t ++ es) (h ++ cells)) /\
    closed_ids es = [] /\
    (H5Dcreate2 (value b) name type (Hid space)
       H5P_DEFAULT H5P_DEFAULT H5P_DEFAULT, dset) ∈ es /\
    Forall (fun c => use_count c = 1%nat) cells /\
    Forall (fun e => is_H5Dwrite e = false) es.
Proof.
  intros HT Ea Hb Hc Hbits Hsz.
  apply (run_create_write_fatal (write_data lib) T this name [size data] data
           t h a b HT Ea Hb Hc).
  intros ds w Hts. unfold write_data, AssertDimension, Assert. rewrite Hts.
  rewrite total_size_of_one_dimension by exact Hbits.
  assert (P : 0 < 2 ^ total_size_bits) by (apply pow2_pos; lia).
  pose proof (Z.mod_pos_bound (size data) (2 ^ total_size_bits) P) as B.
  unfold wrap.
  destruct (Z.eqb_spec (size data mod 2 ^ total_size_bits) (size data));
    [lia | reflexivity].
Qed.

End Lifecycle.

Section GroupsAndFiles.

Context {V : Type}.
Variable lib : list (event V) -> H5call V -> Z.
Variable MPI_COMM_NULL : MPI_Comm.
Variable sizeof_long_double rank_bits total_size_bits : Z.

#[local] Abbreviation write_dataset :=
  (write_dataset lib sizeof_long_double rank_bits total_size_bits).

(** X14. On a group with a live handle, [group(name)] makes exactly one
    library call, [H5Gopen2] under the group's identifier (it creates
    nothing), and [create_group(name)] exactly one, [H5Gcreate2].  Either
    returns an object with the given name and the group's [mpi] flag whose
    handle is a new cell holding what the call returned; destroying that
    object closes that identifier with [H5Gclose] and nothing else. *)
Theorem group_opens_and_create_group_creates this name t (h : list ctrl_block)
    a b :
  hdf5_reference this = Some a -> h !! a = Some b -> use_count b <> O ->
  let child := mkObject name (mpi this) (Some (length h)) in
  (exists id r,
     let opened := t ++ [(H5Gopen2 (value b) name H5P_DEFAULT, id)] in
     group lib this name (mkWorld t h) =
       (Ok child, mkWorld opened (h ++ [Block (Hid id) (Some close_H5G) 1])) /\
     HDF5Object_dtor lib child
       (mkWorld opened (h ++ [Block (Hid id) (Some close_H5G) 1])) =
       (Ok tt,
        mkWorld (opened ++ [(H5Gclose (Hid id), r)])
          (h ++ [Block (Hid id) (Some close_H5G) 0]))) /\
  (exists id r,
     let made := t ++ [(H5Gcreate2 (value b) name H5P_DEFAULT H5P_DEFAULT
                          H5P_DEFAULT, id)] in
     create_group lib this name (mkWorld t h) =
       (Ok child, mkWorld made (h ++ [Block (Hid id) (Some close_H5G) 1])) /\
     HDF5Object_dtor lib child
       (mkWorld made (h ++ [Block (Hid id) (Some close_H5G) 1])) =
       (Ok tt,
        mkWorld (made ++ [(H5Gclose (Hid id), r)])
          (h ++ [Block (Hid id) (Some close_H5G) 0]))).
Proof.
  intros Ea Hb Hc child. split.
  - destruct (run_Group_ctor lib name this (mpi this) open t h a b Ea Hb Hc)
      as (c & R & ->).
    eexists _, _. cbv zeta. split; [exact R |].
    unfold HDF5Object_dtor. simpl hdf5_reference.
    rewrite run_reset_last with (v := Hid _) (c := close_H5G)
      by (rewrite lookup_new0; reflexivity).
    now rewrite insert_new0.
  - destruct (run_Group_ctor lib name this (mpi this) create t h a b Ea Hb Hc)
      as (c & R & ->).
    eexists _, _. cbv zeta. split; [exact R |].
    unfold HDF5Object_dtor. simpl hdf5_reference.
    rewrite run_reset_last with (v := Hid _) (c := close_H5G)
      by (rewrite lookup_new0; reflexivity).
    now rewrite insert_new0.
Qed.

(** The call that opens or creates the file, given the access property
    list; and the calls of the constructor. *)
Lemma run_File_ctor name mpi comm mode t (h : list ctrl_block) :
  exists es id,
    File_ctor lib name mpi comm mode (mkWorld t h) =
      (Ok (mkObject name mpi (Some (length h))),
       mkWorld (t ++ es) (h ++ [Block (Hid id) (Some close_H5F) 1])) /\
    if mpi then
      exists p r1 r2,
        es = [(H5Pcreate H5P_FILE_ACCESS, p);
              (H5Pset_fapl_mpio (Hid p) comm MPI_INFO_NULL, r1);
              (match mode with
               | create => H5Fcreate name H5F_ACC_TRUNC H5P_DEFAULT (Hid p)
               | open => H5Fopen name H5F_ACC_RDWR (Hid p)
               end, id);
              (H5Pclose (Hid p), r2)]
    else
      es = [(match mode with
             | create => H5Fcreate name H5F_ACC_TRUNC H5P_DEFAULT H5P_DEFAULT
             | open => H5Fopen name H5F_ACC_RDWR H5P_DEFAULT
             end, id)].
Proof.
  unfold File_ctor. run_new.
  destruct mpi, mode; cbv iota;
    repeat first
      [ rewrite bind_ret
      | rewrite bind_assoc
      | erewrite bind_Ok by apply run_call; cbv beta
      | erewrite bind_Ok by (eapply run_store; [heap_lookup | live]);
        cbv beta; heap_norm ];
    unfold ret; eexists _, _;
    (split; [rewrite <- ?app_assoc; simpl; reflexivity |]);
    first [reflexivity | eexists _, _, _; reflexivity].
Qed.

(** X15. The [File] constructors.  The one that takes a communicator creates
    a file-access property list, binds the communicator to it, passes it to
    the call that creates ([H5Fcreate], truncating) or opens ([H5Fopen],
    read-write) the file, and closes it again before it returns; the one
    that takes none makes that single call with [H5P_DEFAULT] and touches
    no property list.  Both return an object with the given name whose new
    handle cell holds what the call returned and closes it with
    [H5Fclose]. *)
Theorem File_constructors_use_a_short_lived_access_list name comm mode t
    (h : list ctrl_block) :
  let file_call plist :=
    match mode with
    | create => H5Fcreate name H5F_ACC_TRUNC H5P_DEFAULT plist
    | open => H5Fopen name H5F_ACC_RDWR plist
    end in
  (exists p r1 id r2,
     File_ctor_mpi lib name comm mode (mkWorld t h) =
       (Ok (mkObject name true (Some (length h))),
        mkWorld (t ++ [(H5Pcreate H5P_FILE_ACCESS, p);
                       (H5Pset_fapl_mpio (Hid p) comm MPI_INFO_NULL, r1);
                       (file_call (Hid p), id);
                       (H5Pclose (Hid p), r2)])
          (h ++ [Block (Hid id) (Some close_H5F) 1]))) /\
  (exists id,
     File_ctor_serial lib MPI_COMM_NULL name mode (mkWorld t h) =
       (Ok (mkObject name false (Some (length h))),
        mkWorld (t ++ [(file_call H5P_DEFAULT, id)])
          (h ++ [Block (Hid id) (Some close_H5F) 1]))).
Proof.
  intros file_call. split.
  - destruct (run_File_ctor name true comm mode t h) as (es & id & R & p & r1 & r2 & ->).
    exists p, r1, id, r2. unfold File_ctor_mpi, file_call.
    rewrite R. destruct mode; reflexivity.
  - destruct (run_File_ctor name false MPI_COMM_NULL mode t h) as (es & id & R & ->).
    exists id. unfold File_ctor_serial, file_call.
    rewrite R. destruct mode; reflexivity.
Qed.

(** X16. A whole session: construct the file (with or without a
    communicator, creating or opening), write a flat buffer of fewer than
    2^w elements as a new dataset under it, destroy the file object.  The
    session completes, and the identifiers it closed are exactly the
    identifiers it created (file, access and transfer property lists, type,
    dataspace, dataset), each as many times as it was returned; every
    handle cell it allocated is released. *)
Theorem session_closes_everything name mpi comm mode T dsname (data : list V) t
    (h : list ctrl_block) :
  T <> t_other ->
  0 <= total_size_bits <= 64 ->
  size data < 2 ^ total_size_bits ->
  exists es cells,
    (file <- File_ctor lib name mpi comm mode ;;
     write_dataset T file dsname data ;;
     HDF5Object_dtor lib file) (mkWorld t h) =
      (Ok tt, mkWorld (t ++ es) (h ++ cells)) /\
    closed_ids es ≡ₚ created_ids es /\
    Forall (fun c => use_count c = O) cells.
Proof.
  intros HT Hbits Hsz.
  destruct (run_File_ctor name mpi comm mode t h) as (fe & id & R & Hfe).
  erewrite bind_Ok by exact R. cbv beta.
  set (file := mkObject name mpi (Some (length h))).
  set (fb := Block (Hid id) (Some close_H5F) 1).
  destruct (run_create_write_destroy lib sizeof_long_double rank_bits
              total_size_bits (write_data lib) (Some data) T file dsname
              [size data] data (t ++ fe) (h ++ [fb]) (length h) fb HT)
    as (es & cells & W & Hbal & Hlen & Hrel & _).
  { reflexivity. }
  { rewrite lookup_new0. reflexivity. }
  { discriminate. }
  { intros ds t1 h1 dset type Hts Hd Ht.
    rewrite (run_write_data lib ds data t1 h1 dset type Hd Ht), Hts.
    rewrite (total_size_of_one_dimension total_size_bits) by exact Hbits.
    unfold wrap, size in *. rewrite Z.mod_small by lia.
    now rewrite Z.eqb_refl. }
  erewrite bind_Ok by exact W. cbv beta.
  unfold HDF5Object_dtor. simpl hdf5_reference.
  rewrite run_reset_last with (v := Hid id) (c := close_H5F)
    by (rewrite <- (app_assoc h), lookup_new0; reflexivity).
  rewrite <- (app_assoc h), insert_new0. cbn [app insert list_insert].
  eexists (fe ++ es ++ _), _.
  split; [rewrite <- ?app_assoc; reflexivity |].
  split; [| constructor; [reflexivity | exact Hrel]].
  unfold closed_ids, created_ids in *. rewrite !omap_app, Hbal. simpl.
  destruct mpi.
  - destruct Hfe as (p & r1 & r2 & ->). destruct mode; simpl;
      rewrite ?app_nil_r; apply Permutation_skip;
      rewrite <- Permutation_cons_append; apply Permutation_skip;
      symmetry; apply Permutation_rev.
  - rewrite Hfe. destruct mode; simpl; rewrite ?app_nil_r;
      rewrite <- Permutation_cons_append; apply Permutation_skip;
      symmetry; apply Permutation_rev.
Qed.

End GroupsAndFiles.

(** * The attribute functions *)

Section CopyLoops.

Context {V : Type}.
Variable zero : V.

Lemma foldl_seqZ_invariant {S} (f : S -> Z -> S) (P : Z -> S -> Prop) len :
  0 <= len ->
  forall i s,
    P i s ->
    (forall k s', i <= k < i + len -> P k s' -> P (k + 1) (f s' k)) ->
    P (i + len) (foldl f s (seqZ i len)).
Proof.
  intros Hlen. pattern len. apply natlike_ind; [| | exact Hlen]; clear len Hlen.
  - intros i s Hs _. rewrite Z.add_0_r. exact Hs.
  - intros len Hlen IH i s Hs Hstep.
    rewrite seqZ_cons by lia. simpl.
    replace (Z.pred (Z.succ len)) with len by lia.
    replace (i + Z.succ len) with (Z.succ i + len) by lia.
    apply IH.
    + replace (Z.succ i) with (i + 1) by lia. apply Hstep; [lia | exact Hs].
    + intros k s' Hk. apply Hstep. lia.
Qed.

(** A counted loop whose bound fits the counter runs its body once for each
    value below the bound, in order, and ends. *)
Lemma for_unsigned_run {S} (f : S -> Z -> S) (body : Z -> S -> loop S) bound
    fuel :
  bound < 2 ^ 32 ->
  forall i s,
    0 <= i <= bound ->
    (forall k s', i <= k < bound -> body k s' = Finished (f s' k)) ->
    (Z.to_nat (bound - i) < fuel)%nat ->
    for_unsigned fuel i bound body s = Finished (foldl f s (seqZ i (bound - i))).
Proof.
  intros Hb. induction fuel as [|fuel IH]; intros i s Hi Hbody Hfuel; [lia |].
  simpl. destruct (Z.ltb_spec i bound) as [Hlt | Hge].
  - rewrite Hbody by lia.
    unfold to_unsigned_int, wrap. rewrite Z.mod_small by lia.
    rewrite IH; [| lia | intros; apply Hbody; lia | lia].
    rewrite (seqZ_cons i) by lia. simpl.
    do 3 f_equal; lia.
  - replace (bound - i) with 0 by lia. reflexivity.
Qed.

(** A loop whose body stays inside the block stays inside it. *)
Lemma for_unsigned_no_overrun {S} (body : Z -> S -> loop S) bound fuel :
  (forall k s, 0 <= k < 2 ^ 32 -> k < bound -> body k s <> Overrun) ->
  forall i s, 0 <= i < 2 ^ 32 -> for_unsigned fuel i bound body s <> Overrun.
Proof.
  intros Hbody. induction fuel as [|fuel IH]; intros i s Hi; [discriminate |].
  simpl. destruct (Z.ltb_spec i bound) as [Hlt | Hge]; [| discriminate].
  pose proof (Hbody i s Hi Hlt) as Hn.
  destruct (body i s); [| discriminate | contradiction].
  apply IH. unfold to_unsigned_int, wrap. apply Z.mod_pos_bound. lia.
Qed.

(** A counted loop whose bound does not fit the 32-bit counter is still
    running after any number of steps, as long as its body stays inside the
    block. *)
Lemma for_unsigned_never_ends {S} (body : Z -> S -> loop S) bound fuel :
  2 ^ 32 <= bound ->
  (forall k s, 0 <= k < 2 ^ 32 -> body k s <> Overrun) ->
  forall i s, 0 <= i < 2 ^ 32 -> for_unsigned fuel i bound body s = Running.
Proof.
  intros Hb Hbody. induction fuel as [|fuel IH]; intros i s Hi; [reflexivity |].
  simpl. destruct (Z.ltb_spec i bound); [| lia].
  pose proof (Hbody i s Hi) as Hn.
  destruct (body i s); [| reflexivity | contradiction].
  apply IH. unfold to_unsigned_int, wrap. apply Z.mod_pos_bound. lia.
Qed.

#[local] Abbreviation filled := (filled zero).

Lemma set_entry_filled rows cols hdf5_data i j :
  0 <= i -> 0 <= j < cols -> i * cols + j < rows * cols ->
  rows * cols < 2 ^ 64 ->
  set_entry (filled rows cols hdf5_data (i * cols + j)) i j
    (hdf5_data (to_size_t (i * cols + j))) =
  filled rows cols hdf5_data (i * cols + j + 1).
Proof.
  intros Hi Hj Hlt Hfit. unfold set_entry, HDF5.filled. simpl. f_equal.
  assert (Hp : 0 <= i * cols + j) by nia.
  set (p := i * cols + j) in *.
  unfold to_size_t, wrap. rewrite Z.mod_small by lia.
  replace (Z.to_nat (rows * cols - p)) with (S (Z.to_nat (rows * cols - (p + 1))))
    by lia.
  simpl replicate.
  rewrite insert_app_r_alt by (rewrite length_fmap, length_seqZ; lia).
  rewrite length_fmap, length_seqZ, Nat.sub_diag. simpl.
  rewrite (seqZ_app 0 p 1) by lia. rewrite fmap_app, <- app_assoc.
  reflexivity.
Qed.

(** Reading inside a block that exists gives the element. *)
Lemma read_double_inside block bytes (content : Z -> V) k :
  block <> 0 -> 0 <= k -> sizeof_double * (k + 1) <= bytes ->
  read_double block bytes content k = Some (content k).
Proof.
  intros Hb Hk Hin. unfold read_double.
  destruct (Z.eqb_spec block 0); [contradiction |].
  destruct (Z.leb_spec 0 k); [| lia].
  destruct (Z.leb_spec (sizeof_double * (k + 1)) bytes); [reflexivity | lia].
Qed.

(** The two loops copy the buffer into the matrix in row-major order, when
    both dimensions fit the 32-bit counters, every element of the matrix
    can be read from the block, and the loops are given the steps they
    need. *)
Lemma copy_rows_spec fuel dims0 dims1 block bytes (content : Z -> V) :
  0 <= dims0 < 2 ^ 32 -> 0 <= dims1 < 2 ^ 32 ->
  (forall k, 0 <= k < dims0 * dims1 ->
     read_double block bytes content k = Some (content k)) ->
  (Z.to_nat (Z.max dims0 dims1) < fuel)%nat ->
  copy_rows fuel dims0 dims1 block bytes content (new_matrix zero dims0 dims1) =
  Finished (matrix_of dims0 dims1 content).
Proof.
  intros H0 H1 Hread Hfuel. unfold copy_rows.
  assert (Hfit : dims0 * dims1 < 2 ^ 64) by nia.
  set (row := fun (M : FullMatrix) (i : Z) =>
                foldl (fun M j => set_entry M i j
                                    (content (to_size_t (i * dims1 + j))))
                  M (seqZ 0 (dims1 - 0))).
  rewrite (for_unsigned_run row); [| lia | lia | | lia].
  2:{ intros i M Hi.
      apply (for_unsigned_run
               (fun M j => set_entry M i j (content (to_size_t (i * dims1 + j)))));
        [lia | lia | | lia].
      intros j M' Hj.
      assert (Hk : 0 <= i * dims1 + j < dims0 * dims1) by nia.
      replace (to_size_t (i * dims1 + j)) with (i * dims1 + j)
        by (unfold to_size_t, wrap; rewrite Z.mod_small; lia).
      now rewrite Hread by exact Hk. }
  f_equal.
  assert (E0 : new_matrix zero dims0 dims1 = filled dims0 dims1 content (0 * dims1)).
  { unfold new_matrix, HDF5.filled. simpl. now rewrite Z.sub_0_r. }
  rewrite E0, Z.sub_0_r.
  pose proof (foldl_seqZ_invariant row
                (fun i M => M = filled dims0 dims1 content (i * dims1))
                dims0 (proj1 H0) 0 _ eq_refl) as Outer.
  simpl in Outer. rewrite Outer.
  - unfold HDF5.filled, matrix_of. rewrite Z.sub_diag. simpl. now rewrite app_nil_r.
  - intros i M Hi ->. unfold row. rewrite Z.sub_0_r.
    pose proof (foldl_seqZ_invariant
                  (fun M j => set_entry M i j (content (to_size_t (i * dims1 + j))))
                  (fun j M => M = filled dims0 dims1 content (i * dims1 + j))
                  dims1 (proj1 H1) 0 (filled dims0 dims1 content (i * dims1))) as Inner.
    simpl in Inner. rewrite Inner.
    + f_equal. lia.
    + f_equal. lia.
    + intros j M' Hj ->. replace (i * dims1 + (j + 1)) with (i * dims1 + j + 1) by lia.
      apply set_entry_filled; [lia | lia | nia | exact Hfit].
Qed.

Lemma for_unsigned_step {S} (body : Z -> S -> loop S) fuel i bound s :
  for_unsigned (Datatypes.S fuel) i bound body s =
  if i <? bound then
    match body i s with
    | Finished s' => for_unsigned fuel (to_unsigned_int (i + 1)) bound body s'
    | Running => Running
    | Overrun => Overrun
    end
  else Finished s.
Proof. reflexivity. Qed.

(** When a dimension does not fit the counter, the copy is still running
    after any number of steps, as long as the elements it reads are inside
    the block. *)
Lemma copy_rows_never_ends fuel dims0 dims1 block bytes (content : Z -> V)
    matrix :
  2 ^ 32 <= dims0 \/ (0 < dims0 /\ 2 ^ 32 <= dims1) ->
  (forall i j, 0 <= i < 2 ^ 32 -> 0 <= j < 2 ^ 32 -> i < dims0 -> j < dims1 ->
     read_double block bytes content (to_size_t (i * dims1 + j)) <> None) ->
  copy_rows fuel dims0 dims1 block bytes content matrix = Running.
Proof.
  intros Hbig Hread. unfold copy_rows.
  assert (Hin : forall i M' n, 0 <= i < 2 ^ 32 -> i < dims0 ->
            for_unsigned n 0 dims1
              (fun dim1_idx matrix0 =>
                 match read_double block bytes content
                         (to_size_t (i * dims1 + dim1_idx)) with
                 | Some x => Finished (set_entry matrix0 i dim1_idx x)
                 | None => Overrun
                 end) M' <> Overrun).
  { intros i M' n Hi Hlt. apply for_unsigned_no_overrun; [| lia].
    intros j M'' Hj Hjlt. pose proof (Hread i j Hi Hj Hlt Hjlt) as Hn.
    destruct (read_double _ _ _ _); [discriminate | contradiction]. }
  destruct Hbig as [Hbig | [Hpos Hbig]].
  - apply for_unsigned_never_ends; [exact Hbig | | lia].
    intros i M' Hi. apply Hin; lia.
  - destruct fuel as [|fuel']; [reflexivity |].
    rewrite for_unsigned_step.
    destruct (Z.ltb_spec 0 dims0); [| lia].
    rewrite for_unsigned_never_ends; [reflexivity | exact Hbig | | lia].
    intros j M' Hj. pose proof (Hread 0 j ltac:(lia) Hj Hpos ltac:(lia)) as Hn.
    destruct (read_double _ _ _ _); [discriminate | contradiction].
Qed.

End CopyLoops.

Section AttributeRuns.

Context {V : Type}.
Variable lib : list (event V) -> H5call V -> Z.
Variable alib : AttrLib V.
Variable sizeof_long_double : Z.
Variable zero : V.

#[local] Abbreviation get_hdf5_datatype := (get_hdf5_datatype lib sizeof_long_double).
#[local] Abbreviation attr := (attr lib alib sizeof_long_double).
#[local] Abbreviation write_attr := (write_attr lib alib sizeof_long_double).
#[local] Abbreviation attr_bool := (attr_bool alib).
#[local] Abbreviation attr_string := (attr_string lib alib).
#[local] Abbreviation attr_matrix := (attr_matrix lib alib zero).

Lemma abind_Ok {A B} (c : MA V A) (k : A -> MA V B) aw a aw' :
  c aw = (Ok a, aw') -> abind c k aw = k a aw'.
Proof. intros E. unfold abind. now rewrite E. Qed.

Lemma abind_Fatal {A B} (c : MA V A) (k : A -> MA V B) aw aw' :
  c aw = (Fatal, aw') -> abind c k aw = (Fatal, aw').
Proof. intros E. unfold abind. now rewrite E. Qed.

Lemma run_lift {A} (c : M V A) t (h : list ctrl_block) l r ext h' :
  c (mkWorld t h) = (r, mkWorld (t ++ ext) h') ->
  lift c (mkAWorld (mkWorld t h) l) =
  (r, mkAWorld (mkWorld (t ++ ext) h') (l ++ map Base ext)).
Proof.
  intros E. unfold lift. simpl. rewrite E. simpl.
  now rewrite drop_app_length.
Qed.

Lemma run_lift_keep {A} (c : M V A) t (h : list ctrl_block) l r h' :
  c (mkWorld t h) = (r, mkWorld t h') ->
  lift c (mkAWorld (mkWorld t h) l) = (r, mkAWorld (mkWorld t h') l).
Proof.
  intros E. unfold lift. simpl. rewrite E. simpl.
  now rewrite drop_all, app_nil_r.
Qed.

Lemma run_lift_call c t (h : list ctrl_block) l :
  lift (call lib c) (mkAWorld (mkWorld t h) l) =
  (Ok (lib t c),
   mkAWorld (mkWorld (t ++ [(c, lib t c)]) h) (l ++ [Base (c, lib t c)])).
Proof. apply (run_lift (call lib c) t h l (Ok (lib t c)) [(c, lib t c)] h). reflexivity. Qed.

Lemma run_lift_load t (h : list ctrl_block) l a b :
  h !! a = Some b -> use_count b <> O ->
  lift (load (Some a)) (mkAWorld (mkWorld t h) l) =
  (Ok (value b), mkAWorld (mkWorld (V:=V) t h) l).
Proof. intros E Hc. apply run_lift_keep. now apply run_load. Qed.

Lemma run_acall c w l :
  acall alib c (mkAWorld w l) =
  (Ok (returns alib l c), mkAWorld w (l ++ [Attr c (returns alib l c)])).
Proof. reflexivity. Qed.

Lemma run_aread {A} (out : AttrLib V -> list (aevent V) -> H5Acall V -> A) c w l :
  aread alib out c (mkAWorld w l) =
  (Ok (returns alib l c, out alib l c),
   mkAWorld w (l ++ [Attr c (returns alib l c)])).
Proof. reflexivity. Qed.

(** Releasing the type descriptor the resolver returned, as the last cell
    of the heap. *)
Lemma run_lift_release_datatype t (h : list ctrl_block) l ty d :
  exists rest,
    lift (reset lib (Some (length h)))
      (mkAWorld (mkWorld t (h ++ [Block ty d 1])) l) =
    (Ok tt,
     mkAWorld (mkWorld (t ++ rest) (h ++ [Block ty d 0])) (l ++ map Base rest)) /\
    match d with
    | Some c => exists r, rest = [(closer_call c ty, r)]
    | None => rest = []
    end.
Proof.
  destruct d as [c|].
  - eexists [_]. split; [| eauto]. apply run_lift.
    rewrite run_reset_last with (v := ty) (c := c)
      by (rewrite lookup_new0; reflexivity).
    now rewrite insert_new0.
  - exists []. split; [| reflexivity]. rewrite !app_nil_r. apply run_lift_keep.
    rewrite run_reset_last_plain with (v := ty)
      by (rewrite lookup_new0; reflexivity).
    now rewrite insert_new0.
Qed.

Ltac arun :=
  repeat first
    [ erewrite abind_Ok by apply run_acall; cbv beta
    | erewrite abind_Ok by apply run_aread; cbv beta
    | erewrite abind_Ok by apply run_lift_call; cbv beta
    | erewrite abind_Ok
        by (apply run_lift_load;
            [first [eassumption
                   | rewrite lookup_new0; reflexivity
                   | rewrite lookup_app_l by (eapply lookup_lt_Some; eassumption);
                     eassumption]
            | first [eassumption | discriminate]]);
      cbv beta; cbn [value] ].

(** X17. [attr<T>] of an instantiated element type on an object with a live
    handle always completes.  It opens the attribute by name on the
    object's identifier, reads it with the type descriptor of [T] and
    closes it, then gives up the descriptor (which closes the compound type
    of a complex [T] and nothing for a primitive one).  It tests neither
    what [H5Aopen] nor what [H5Aread] returned: what it returns is the
    content of its buffer after the read, whatever these calls reported. *)
Theorem attr_reads_without_checking T this name t (h : list ctrl_block) l a b :
  T <> t_other ->
  hdf5_reference this = Some a -> h !! a = Some b -> use_count b <> O ->
  exists ext ty d rest,
    get_hdf5_datatype T (mkWorld t h) =
      (Ok (Some (length h)), mkWorld (t ++ ext) (h ++ [Block ty d 1])) /\
    let before_open := l ++ map Base ext in
    let open_call := H5Aopen (value b) name H5P_DEFAULT in
    let id := returns alib before_open open_call in
    let before_read := before_open ++ [Attr open_call id] in
    let read_call := H5Aread (Hid id) ty in
    let r1 := returns alib before_read read_call in
    let before_close := before_read ++ [Attr read_call r1] in
    attr T this name (mkAWorld (mkWorld t h) l) =
      (Ok (value_read alib before_read read_call),
       mkAWorld (mkWorld ((t ++ ext) ++ rest) (h ++ [Block ty d 0]))
         ((before_close ++
           [Attr (H5Aclose (Hid id)) (returns alib before_close (H5Aclose (Hid id)))])
          ++ map Base rest)) /\
    match d with
    | Some c => exists r, rest = [(closer_call c ty, r)]
    | None => rest = []
    end.
Proof.
  intros HT Ea Hb Hc.
  destruct (run_get_hdf5_datatype_cases lib sizeof_long_double T t h HT)
    as (ext & ty & d & E & _).
  edestruct (run_lift_release_datatype (t ++ ext) h) as (rest & R & Hrest).
  exists ext, ty, d, rest. split; [exact E |]. cbv zeta. split; [| exact Hrest].
  unfold HDF5.attr. rewrite Ea.
  erewrite abind_Ok by (apply run_lift; exact E). cbv beta.
  arun.
  erewrite abind_Ok by exact R. reflexivity.
Qed.

(** X18. [attr<bool>] on an object with a live handle makes three calls:
    it opens the attribute, reads it as a native integer and closes it; it
    returns true exactly when the integer read is not zero.  No type
    descriptor is resolved and no result is tested. *)
Theorem attr_bool_is_nonzero_int this name w l a b :
  hdf5_reference this = Some a -> heap w !! a = Some b -> use_count b <> O ->
  let open_call := H5Aopen (value b) name H5P_DEFAULT in
  let id := returns alib l open_call in
  let before_read := l ++ [Attr open_call id] in
  let read_call := H5Aread (Hid id) H5T_NATIVE_INT in
  let before_close := before_read ++ [Attr read_call (returns alib before_read read_call)] in
  exists answer,
    attr_bool this name (mkAWorld w l) =
      (Ok answer,
       mkAWorld w
         (before_close ++
          [Attr (H5Aclose (Hid id)) (returns alib before_close (H5Aclose (Hid id)))])) /\
    (answer = true <-> int_read alib before_read read_call <> 0).
Proof.
  intros Ea Hb Hc. cbv zeta. destruct w as [t h]. simpl in Hb.
  eexists. split.
  - unfold HDF5.attr_bool. rewrite Ea. arun. reflexivity.
  - cbv beta.
    match goal with |- context [?x =? 0] => destruct (Z.eqb_spec x 0) end;
      simpl; split; intros; first [discriminate | contradiction | reflexivity | assumption].
Qed.

Lemma abind_lift_Assert {B} cond (k : unit -> MA V B) w l :
  abind (lift (Assert cond)) k (mkAWorld w l) =
  if cond then k tt (mkAWorld w l) else (Fatal, mkAWorld w l).
Proof.
  destruct w as [t h].
  destruct cond.
  - erewrite abind_Ok by (apply run_lift_keep; reflexivity). reflexivity.
  - erewrite abind_Fatal by (apply run_lift_keep; reflexivity). reflexivity.
Qed.

(** X19. [attr<std::string>] on an object with a live handle.  It completes
    exactly when [H5Tcopy], [H5Tset_size], [H5Aopen] and [H5Aread] all
    return non-negative values, and takes the fatal path when one of them
    does not; in particular a missing attribute is fatal.  What
    [H5Tset_cset] returns is never examined: the assertion after it tests
    the copied type a second time.  When it completes it returns the text
    read, having freed the buffer, closed the copied type and then the
    attribute. *)
Theorem attr_string_checks_all_but_the_charset this name w l a b :
  hdf5_reference this = Some a -> heap w !! a = Some b -> use_count b <> O ->
  let c1 := H5Tcopy_C_S1 in
  let type := returns alib l c1 in
  let l1 := l ++ [Attr c1 type] in
  let c2 := H5Tset_cset (Hid type) H5T_CSET_UTF8 in
  let l2 := l1 ++ [Attr c2 (returns alib l1 c2)] in
  let c3 := H5Tset_size_variable (Hid type) in
  let r3 := returns alib l2 c3 in
  let l3 := l2 ++ [Attr c3 r3] in
  let c4 := H5Aopen (value b) name H5P_DEFAULT in
  let id := returns alib l3 c4 in
  let l4 := l3 ++ [Attr c4 id] in
  let c5 := H5Aread (Hid id) (Hid type) in
  let r5 := returns alib l4 c5 in
  let l5 := l4 ++ [Attr c5 r5] in
  (0 <= type -> 0 <= r3 -> 0 <= id -> 0 <= r5 ->
   exists r6 r7 r8,
     attr_string this name (mkAWorld w l) =
     (Ok (string_read alib l4 c5),
      mkAWorld (mkWorld (trace w ++ [(H5Tclose (Hid type), r7)]) (heap w))
        (l5 ++ [Attr (free string_out) r6; Base (H5Tclose (Hid type), r7);
                Attr (H5Aclose (Hid id)) r8]))) /\
  (type < 0 \/ r3 < 0 \/ id < 0 \/ r5 < 0 ->
   fst (attr_string this name (mkAWorld w l)) = Fatal).
Proof.
  intros Ea Hb Hc. destruct w as [t h]. simpl in Hb. cbv zeta.
  unfold HDF5.attr_string. rewrite Ea.
  erewrite abind_Ok by apply run_acall. cbv beta.
  rewrite abind_lift_Assert.
  destruct (Z.leb_spec 0 (returns alib l H5Tcopy_C_S1)) as [H1 | H1].
  2:{ split; [lia | reflexivity]. }
  erewrite abind_Ok by apply run_acall. cbv beta.
  rewrite abind_lift_Assert.
  destruct (Z.leb_spec 0 (returns alib l H5Tcopy_C_S1)) as [_ | H1']; [| lia].
  erewrite abind_Ok by apply run_acall. cbv beta.
  rewrite abind_lift_Assert.
  match goal with |- context [0 <=? ?x] => destruct (Z.leb_spec 0 x) as [H3 | H3] end.
  2:{ split; [lia | reflexivity]. }
  arun.
  rewrite abind_lift_Assert.
  match goal with |- context [0 <=? ?x] => destruct (Z.leb_spec 0 x) as [H4 | H4] end.
  2:{ split; [lia | reflexivity]. }
  arun.
  rewrite abind_lift_Assert. cbn [fst snd].
  match goal with |- context [0 <=? ?x] => destruct (Z.leb_spec 0 x) as [H5 | H5] end.
  2:{ split; [lia | reflexivity]. }
  arun. unfold aret. split; [| lia].
  intros _ _ _ _. eexists _, _, _.
  rewrite <- ?app_assoc. simpl. reflexivity.
Qed.

Lemma abind_AssertDimension_of_call {B} c dim2 (k : unit -> MA V B) w l :
  abind (AssertDimension_of_call alib c dim2) k (mkAWorld w l) =
  if returns alib l c =? dim2
  then k tt (mkAWorld w (l ++ [Attr c (returns alib l c)]))
  else (Fatal,
        mkAWorld w
          ((l ++ [Attr c (returns alib l c)]) ++
           [Attr c (returns alib (l ++ [Attr c (returns alib l c)]) c)])).
Proof.
  destruct w as [t h].
  unfold AssertDimension_of_call, abind at 1 2, acall. cbn [log world].
  destruct (returns alib l c =? dim2); [reflexivity |].
  unfold abind, acall, lift, fatal. cbn [log world trace].
  now rewrite drop_all, app_nil_r.
Qed.

(** The block holds the attribute, and every element of the matrix can be
    read from it, when the byte count did not wrap around and [malloc]
    returned a block. *)
Lemma block_holds_matrix dims0 dims1 block (content : Z -> V) :
  0 <= dims0 * dims1 -> dims0 * dims1 * 8 < 2 ^ 64 ->
  dims0 * dims1 = 0 \/ block <> 0 ->
  let bytes := to_size_t (dims0 * dims1 * sizeof_double) in
  holds_attribute block bytes (dims0 * dims1) = true /\
  forall k, 0 <= k < dims0 * dims1 ->
    read_double block bytes content k = Some (content k).
Proof.
  intros Hpos Hfit Hblock bytes.
  assert (E : bytes = dims0 * dims1 * 8).
  { unfold bytes, to_size_t, wrap, sizeof_double. apply Z.mod_small. lia. }
  split.
  - unfold holds_attribute. rewrite E. unfold sizeof_double.
    destruct (Z.leb_spec (8 * (dims0 * dims1)) (dims0 * dims1 * 8)); [| lia].
    apply orb_true_r.
  - intros k Hk. apply read_double_inside; [| lia |].
    + destruct Hblock; [lia | assumption].
    + rewrite E. unfold sizeof_double. lia.
Qed.

(** X20. [attr<FullMatrix<double>>] on an object with a live handle takes
    the fatal path whenever the dataspace of the attribute is not reported
    to have rank 2.  It has then made four calls: [H5Aopen],
    [H5Aget_space], and [H5Sget_simple_extent_ndims] twice, once for the
    comparison and once more for the exception of the failed assertion,
    whose operand is that call.  Nothing has been read or allocated, and
    the attribute and its dataspace are left open. *)
Theorem attr_matrix_requires_rank_two fuel this name w l a b :
  hdf5_reference this = Some a -> heap w !! a = Some b -> use_count b <> O ->
  let c1 := H5Aopen (value b) name H5P_DEFAULT in
  let id := returns alib l c1 in
  let l1 := l ++ [Attr c1 id] in
  let c2 := H5Aget_space (Hid id) in
  let space := returns alib l1 c2 in
  let l2 := l1 ++ [Attr c2 space] in
  let c3 := H5Sget_simple_extent_ndims (Hid space) in
  let l3 := l2 ++ [Attr c3 (returns alib l2 c3)] in
  returns alib l2 c3 <> 2 ->
  attr_matrix fuel this name (mkAWorld w l) =
  (Fatal, mkAWorld w (l3 ++ [Attr c3 (returns alib l3 c3)])).
Proof.
  intros Ea Hb Hc. destruct w as [t h]. simpl in Hb. cbv zeta. intros Hrank.
  unfold HDF5.attr_matrix. rewrite Ea. arun.
  rewrite abind_AssertDimension_of_call.
  match goal with |- context [?x =? 2] => destruct (Z.eqb_spec x 2) end;
    [contradiction | reflexivity].
Qed.

(** X21. When the rank is 2, the two dimensions reported are below 2^32,
    the byte count [dims[0] * dims[1] * 8] is below 2^64 and [malloc]
    returned a block for it (or there is no element at all),
    [attr<FullMatrix<double>>] completes (given the steps its loops need):
    it returns the matrix of those dimensions whose row-major storage is
    the buffer read, entry [i][j] being [hdf5_data[i * dims[1] + j]]; it
    asks [malloc] for [dims[0] * dims[1] * 8] bytes, and after the copy it
    closes the dataspace, closes the attribute and frees the buffer. *)
Theorem attr_matrix_copies_row_major fuel this name w l a b :
  hdf5_reference this = Some a -> heap w !! a = Some b -> use_count b <> O ->
  let c1 := H5Aopen (value b) name H5P_DEFAULT in
  let id := returns alib l c1 in
  let l1 := l ++ [Attr c1 id] in
  let c2 := H5Aget_space (Hid id) in
  let space := returns alib l1 c2 in
  let l2 := l1 ++ [Attr c2 space] in
  let c3 := H5Sget_simple_extent_ndims (Hid space) in
  let l3 := l2 ++ [Attr c3 (returns alib l2 c3)] in
  let c4 := H5Sget_simple_extent_dims (Hid space) in
  let dims := dims_read alib l3 c4 in
  let l4 := l3 ++ [Attr c4 (returns alib l3 c4)] in
  let c5 := malloc (to_size_t (fst dims * snd dims * 8)) in
  let l5 := l4 ++ [Attr c5 (returns alib l4 c5)] in
  let c6 := H5Aread (Hid id) H5T_NATIVE_DOUBLE in
  let l6 := l5 ++ [Attr c6 (returns alib l5 c6)] in
  returns alib l2 c3 = 2 ->
  0 <= fst dims < 2 ^ 32 -> 0 <= snd dims < 2 ^ 32 ->
  fst dims * snd dims * 8 < 2 ^ 64 ->
  fst dims * snd dims = 0 \/ returns alib l4 c5 <> 0 ->
  (Z.to_nat (Z.max (fst dims) (snd dims)) < fuel)%nat ->
  exists r7 r8 r9,
    attr_matrix fuel this name (mkAWorld w l) =
    (Ok (Some (matrix_of (fst dims) (snd dims) (doubles_read alib l5 c6))),
     mkAWorld (mkWorld (trace w ++ [(H5Sclose (Hid space), r7)]) (heap w))
       (l6 ++ [Base (H5Sclose (Hid space), r7); Attr (H5Aclose (Hid id)) r8;
               Attr (free hdf5_data) r9])).
Proof.
  intros Ea Hb Hc. destruct w as [t h]. simpl in Hb. cbv zeta.
  intros Hrank H0 H1 Hfit Hblock Hfuel.
  unfold HDF5.attr_matrix. rewrite Ea. arun.
  rewrite abind_AssertDimension_of_call.
  match goal with |- context [?x =? 2] => destruct (Z.eqb_spec x 2) end;
    [| contradiction].
  arun. cbn [fst snd].
  match goal with
  | |- context [copy_rows _ ?d0 ?d1 ?p _ ?content _] =>
      set (block := p) in *; set (dims0 := d0) in *; set (dims1 := d1) in *;
      destruct (block_holds_matrix dims0 dims1 block content
                  ltac:(nia) Hfit Hblock) as [Hholds Hread]
  end.
  cbv zeta in Hholds, Hread. rewrite Hholds.
  rewrite (copy_rows_spec zero) by assumption.
  subst block dims0 dims1.
  arun. unfold aret. eexists _, _, _.
  rewrite <- ?app_assoc. simpl. reflexivity.
Qed.

(** X22. Let the rank be 2, the byte count [dims[0] * dims[1] * 8] be below
    2^64 and [malloc] have returned a block for it (or the rows be empty,
    so that nothing is read from it).  When the first dimension reported
    is 2^32 or more, or the second is while there is at least one row, the
    copying loops of [attr<FullMatrix<double>>] never end: their 32-bit
    counters wrap around before they reach the bound.  After any number of
    steps the function has not returned, and neither the dataspace nor the
    attribute has been closed. *)
Theorem attr_matrix_loops_forever_on_large_dimensions fuel this name w l a b :
  hdf5_reference this = Some a -> heap w !! a = Some b -> use_count b <> O ->
  let c1 := H5Aopen (value b) name H5P_DEFAULT in
  let id := returns alib l c1 in
  let l1 := l ++ [Attr c1 id] in
  let c2 := H5Aget_space (Hid id) in
  let space := returns alib l1 c2 in
  let l2 := l1 ++ [Attr c2 space] in
  let c3 := H5Sget_simple_extent_ndims (Hid space) in
  let l3 := l2 ++ [Attr c3 (returns alib l2 c3)] in
  let c4 := H5Sget_simple_extent_dims (Hid space) in
  let dims := dims_read alib l3 c4 in
  let l4 := l3 ++ [Attr c4 (returns alib l3 c4)] in
  let c5 := malloc (to_size_t (fst dims * snd dims * 8)) in
  let l5 := l4 ++ [Attr c5 (returns alib l4 c5)] in
  let c6 := H5Aread (Hid id) H5T_NATIVE_DOUBLE in
  returns alib l2 c3 = 2 ->
  2 ^ 32 <= fst dims \/ (0 < fst dims /\ 2 ^ 32 <= snd dims) ->
  fst dims * snd dims * 8 < 2 ^ 64 ->
  snd dims <= 0 \/ returns alib l4 c5 <> 0 ->
  attr_matrix fuel this name (mkAWorld w l) =
  (Ok None, mkAWorld w (l5 ++ [Attr c6 (returns alib l5 c6)])).
Proof.
  intros Ea Hb Hc. destruct w as [t h]. simpl in Hb. cbv zeta.
  intros Hrank Hbig Hfit Hblock.
  unfold HDF5.attr_matrix. rewrite Ea. arun.
  rewrite abind_AssertDimension_of_call.
  match goal with |- context [?x =? 2] => destruct (Z.eqb_spec x 2) end;
    [| contradiction].
  arun. cbn [fst snd].
  match goal with
  | |- context [holds_attribute ?p ?bytes (?d0 * ?d1)] =>
      set (block := p) in *; set (dims0 := d0) in *; set (dims1 := d1) in *
  end.
  assert (Hd0 : 0 < dims0) by lia.
  assert (Hholds : holds_attribute block
                     (to_size_t (dims0 * dims1 * sizeof_double)) (dims0 * dims1)
                   = true).
  { destruct (Z.le_gt_cases dims1 0) as [Hle | Hgt].
    - unfold holds_attribute.
      destruct (Z.leb_spec (sizeof_double * (dims0 * dims1))
                  (to_size_t (dims0 * dims1 * sizeof_double))) as [_ | Hlt];
        [apply orb_true_r |].
      exfalso. unfold sizeof_double, to_size_t, wrap in Hlt.
      pose proof (Z.mod_pos_bound (dims0 * dims1 * 8) (2 ^ 64) ltac:(lia)). nia.
    - apply (block_holds_matrix dims0 dims1 block (fun _ => zero));
        [nia | exact Hfit | right; destruct Hblock; [lia | assumption]]. }
  rewrite Hholds.
  rewrite copy_rows_never_ends; [subst block dims0 dims1; reflexivity | exact Hbig |].
  intros i j Hi Hj Hlt Hjlt.
  assert (Hk : 0 <= i * dims1 + j < dims0 * dims1) by nia.
  replace (to_size_t (i * dims1 + j)) with (i * dims1 + j)
    by (unfold to_size_t, wrap; rewrite Z.mod_small; lia).
  match goal with
  | |- read_double _ _ ?content _ <> None =>
      destruct (block_holds_matrix dims0 dims1 block content
                  ltac:(nia) Hfit
                  ltac:(right; destruct Hblock; [lia | assumption]))
        as [_ Hread]
  end.
  cbv zeta in Hread. now rewrite Hread by exact Hk.
Qed.

(** X23. [write_attr<T>] of an instantiated element type on an object with
    a live handle always completes: it creates a scalar dataspace, creates
    the attribute under the object's identifier with the type descriptor of
    [T] and that dataspace, writes the value, closes the dataspace and then
    the attribute, and gives up the descriptor (closing the compound type
    of a complex [T]).  No result is tested. *)
Theorem write_attr_creates_writes_and_closes T this name value t
    (h : list ctrl_block) l a b :
  T <> t_other ->
  hdf5_reference this = Some a -> h !! a = Some b -> use_count b <> O ->
  exists ext ty d aid id r1 r2 r3 rest,
    get_hdf5_datatype T (mkWorld t h) =
      (Ok (Some (length h)), mkWorld (t ++ ext) (h ++ [Block ty d 1])) /\
    write_attr T this name value (mkAWorld (mkWorld t h) l) =
      (Ok tt,
       mkAWorld
         (mkWorld (t ++ ext ++ [(H5Sclose (Hid aid), r2)] ++ rest)
            (h ++ [Block ty d 0]))
         (l ++ map Base ext ++
          [Attr (H5Screate H5S_SCALAR) aid;
           Attr (H5Acreate2 (HDF5.value b) name ty (Hid aid) H5P_DEFAULT
                   H5P_DEFAULT) id;
           Attr (H5Awrite (Hid id) ty value) r1;
           Base (H5Sclose (Hid aid), r2);
           Attr (H5Aclose (Hid id)) r3] ++ map Base rest)) /\
    match d with
    | Some c => exists r, rest = [(closer_call c ty, r)]
    | None => rest = []
    end.
Proof.
  intros HT Ea Hb Hc.
  destruct (run_get_hdf5_datatype_cases lib sizeof_long_double T t h HT)
    as (ext & ty & d & E & _).
  set (aid := returns alib (l ++ map Base ext) (H5Screate H5S_SCALAR)).
  set (r2 := lib (t ++ ext) (H5Sclose (Hid aid))).
  edestruct (run_lift_release_datatype
               ((t ++ ext) ++ [(H5Sclose (Hid aid), r2)]) h) as (rest & R & Hrest).
  eexists ext, ty, d, aid, _, _, r2, _, rest.
  split; [exact E |]. split; [| exact Hrest].
  unfold HDF5.write_attr. rewrite Ea.
  erewrite abind_Ok by (apply run_lift; exact E). cbv beta.
  arun. rewrite R. rewrite <- ?app_assoc. simpl. reflexivity.
Qed.

End AttributeRuns.

(** * The further properties at concrete inputs *)

Lemma demo_file_live :
  hdf5_reference demo_file = Some 0%nat /\
  heap demo_file_world !! 0%nat = Some demo_file_cell /\
  use_count demo_file_cell <> O.
Proof. split; [reflexivity |]. split; [reflexivity | discriminate]. Defined.

Lemma primitive_datatype_is_not_owned_witness :
  native_of t_double = Some H5T_NATIVE_DOUBLE /\
  get_hdf5_datatype (@counting_lib Z) 16 t_double demo_file_world =
    (Ok (Some (length (heap demo_file_world))),
     mkWorld (trace demo_file_world)
       (heap demo_file_world ++ [Block H5T_NATIVE_DOUBLE None 1])) /\
  reset (@counting_lib Z) (Some (length (heap demo_file_world)))
    (mkWorld (trace demo_file_world)
       (heap demo_file_world ++ [Block H5T_NATIVE_DOUBLE None 1])) =
    (Ok tt,
     mkWorld (trace demo_file_world)
       (heap demo_file_world ++ [Block H5T_NATIVE_DOUBLE None 0])).
Proof.
  split; [reflexivity |].
  apply (primitive_datatype_is_not_owned (@counting_lib Z) 16 t_double
           H5T_NATIVE_DOUBLE demo_file_world).
  reflexivity.
Defined.

Lemma unsupported_type_is_fatal_before_any_call_witness :
  hdf5_reference demo_file = Some 0%nat /\
  heap demo_file_world !! 0%nat = Some demo_file_cell /\
  use_count demo_file_cell <> O /\
  write_dataset (@counting_lib Z) 16 32 32 t_other demo_file "d" [1; 2; 3]
    (mkWorld (trace demo_file_world) (heap demo_file_world)) =
  (Fatal, mkWorld (trace demo_file_world) (heap demo_file_world)).
Proof.
  split; [apply demo_file_live |]. split; [apply demo_file_live |].
  split; [apply demo_file_live |].
  apply (unsupported_type_is_fatal_before_any_call (@counting_lib Z) 16 32 32
           demo_file "d" [3] (trace demo_file_world) (heap demo_file_world)
           0%nat demo_file_cell); apply demo_file_live.
Defined.

Lemma create_dataset_wires_handles_witness :
  t_double <> t_other /\
  hdf5_reference demo_file = Some 0%nat /\
  heap demo_file_world !! 0%nat = Some demo_file_cell /\
  use_count demo_file_cell <> O /\
  exists ds w' space dset,
    create_dataset (@counting_lib Z) 16 32 32 t_double demo_file "d" [2; 3]
      (mkWorld (trace demo_file_world) (heap demo_file_world)) = (Ok ds, w') /\
    points_to (heap w') (hdf5_reference (base ds)) (Hid dset) /\
    points_to (heap w') (dataspace ds) (Hid space).
Proof.
  split; [discriminate |].
  split; [apply demo_file_live |]. split; [apply demo_file_live |].
  split; [apply demo_file_live |].
  destruct (create_dataset_wires_handles (@counting_lib Z) 16 32 32 t_double
              demo_file "d" [2; 3] (trace demo_file_world) (heap demo_file_world)
              0%nat demo_file_cell)
    as (ds & t1 & ty & d & space & dset & w' & _ & R & _ & _ & _ & _ & _ & Pd & _ & Ps);
    [discriminate | apply demo_file_live .. |].
  exists ds, w', space, dset. auto.
Defined.

Lemma write_data_matrix_checks_element_count_witness :
  let data := mkFullMatrix 2 3 [1; 2; 3; 4; 5; 6] in
  points_to (heap demo_world) (hdf5_reference (base demo_dataset)) (Hid 6) /\
  points_to (heap demo_world) (t_type demo_dataset) H5T_NATIVE_DOUBLE /\
  (fst (write_data_matrix (@counting_lib Z) demo_dataset data
          (mkWorld (trace demo_world) (heap demo_world))) = Fatal <->
   total_size demo_dataset <> to_size_t (m data * n data)).
Proof.
  intros data.
  split; [apply demo_handles |]. split; [apply demo_handles |].
  apply (write_data_matrix_checks_element_count (@counting_lib Z) demo_dataset
           data (trace demo_world) (heap demo_world) (Hid 6) H5T_NATIVE_DOUBLE);
    apply demo_handles.
Defined.

Lemma write_data_none_always_issues_empty_write_witness :
  points_to (heap demo_world) (hdf5_reference (base demo_dataset)) (Hid 6) /\
  points_to (heap demo_world) (t_type demo_dataset) H5T_NATIVE_DOUBLE /\
  points_to (heap demo_world) (dataspace demo_dataset) (Hid 5) /\
  exists w',
    write_data_none (@counting_lib Z) demo_dataset
      (mkWorld (trace demo_world) (heap demo_world)) = (Ok tt, w').
Proof.
  split; [apply demo_handles |]. split; [apply demo_handles |].
  split; [apply demo_handles |].
  destruct (write_data_none_always_issues_empty_write (@counting_lib Z)
              demo_dataset (trace demo_world) (heap demo_world)
              (Hid 6) H5T_NATIVE_DOUBLE (Hid 5))
    as (ms & r1 & p & q & r2 & r3 & r4 & R); [apply demo_handles .. |].
  eexists. exact R.
Defined.

Lemma writes_close_what_they_create_witness :
  let req := Hyperslab [7; 8; 9; 10] [0; 1] [2; 2] in
  let run := issue (@counting_lib Z) demo_dataset req
               (mkWorld (trace demo_world) (heap demo_world)) in
  points_to (heap demo_world) (hdf5_reference (base demo_dataset)) (Hid 6) /\
  points_to (heap demo_world) (t_type demo_dataset) H5T_NATIVE_DOUBLE /\
  points_to (heap demo_world) (dataspace demo_dataset) (Hid 5) /\
  run = (Ok tt, snd run) /\
  exists es,
    trace (snd run) = trace demo_world ++ es /\
    closed_ids es = rev (created_ids es).
Proof.
  intros req run.
  split; [apply demo_handles |]. split; [apply demo_handles |].
  split; [apply demo_handles |]. split; [reflexivity |].
  apply (writes_close_what_they_create (@counting_lib Z) demo_dataset req
           (trace demo_world) (heap demo_world) (Hid 6) H5T_NATIVE_DOUBLE (Hid 5)
           (snd run)); first [apply demo_handles | reflexivity].
Defined.

Lemma writes_keep_the_handles_witness :
  let run := issue (@counting_lib Z) demo_dataset (FullVector [1; 2; 3])
               demo_world in
  run = (Fatal, snd run) /\ heap (snd run) = heap demo_world.
Proof.
  intros run. split; [reflexivity |].
  apply (writes_keep_the_handles (@counting_lib Z) demo_dataset
           (FullVector [1; 2; 3]) demo_world Fatal (snd run)).
  reflexivity.
Defined.

Lemma hyperslab_rejects_counts_from_2pow31_witness :
  2 ^ 31 <= wrap 32 (product [2 ^ 31]) /\
  size (@nil Z) < 2 ^ 63 /\
  write_data_hyperslab (@counting_lib Z) demo_dataset [] [0] [2 ^ 31] demo_world =
  (Fatal, demo_world).
Proof.
  assert (H : 2 ^ 31 <= wrap 32 (product [2 ^ 31])) by (vm_compute; discriminate).
  split; [exact H |]. split; [reflexivity |].
  apply (hyperslab_rejects_counts_from_2pow31 (@counting_lib Z) demo_dataset
           [0] [2 ^ 31] demo_world H).
  reflexivity.
Defined.

Lemma degenerate_dimensions_fix_the_buffer_size_witness :
  let created := DataSet_ctor (@counting_lib Z) 16 32 32 t_double "z" (Hid 3)
                   [2; 0] true create demo_file_world in
  1 <= 32 <= 64 /\
  created = (Ok demo_empty_dataset, snd created) /\
  points_to (heap demo_world) (hdf5_reference (base demo_empty_dataset)) (Hid 6) /\
  points_to (heap demo_world) (t_type demo_empty_dataset) H5T_NATIVE_DOUBLE /\
  0 ∈ [2; 0] /\
  total_size demo_empty_dataset = 0 /\
  forall data : list Z,
    fst (write_data (@counting_lib Z) demo_empty_dataset data
           (mkWorld (trace demo_world) (heap demo_world))) = Fatal <->
    data <> [].
Proof.
  intros created.
  split; [lia |]. split; [reflexivity |].
  split; [apply demo_handles |]. split; [apply demo_handles |].
  assert (Hin : 0 ∈ [2; 0]) by (apply list_elem_of_further, list_elem_of_here).
  split; [exact Hin |].
  apply (degenerate_dimensions_fix_the_buffer_size (@counting_lib Z) 16 32 32
           t_double "z" (Hid 3) [2; 0] true demo_file_world demo_empty_dataset
           (snd created) (trace demo_world) (heap demo_world)
           (Hid 6) H5T_NATIVE_DOUBLE);
    first [lia | reflexivity | apply demo_handles | exact Hin].
Defined.

Lemma open_mode_dataset_uses_indeterminate_dataspace_witness :
  t_double <> t_other /\
  exists ds w' id,
    DataSet_ctor (@counting_lib Z) 16 32 32 t_double "d" (Hid 3) [2; 3] true open
      (mkWorld (trace demo_file_world) (heap demo_file_world)) = (Ok ds, w') /\
    points_to (heap w') (hdf5_reference (base ds)) (Hid id) /\
    points_to (heap w') (dataspace ds) Indeterminate.
Proof.
  split; [discriminate |].
  destruct (open_mode_dataset_uses_indeterminate_dataspace (@counting_lib Z)
              16 32 32 t_double "d" (Hid 3) [2; 3] true
              (trace demo_file_world) (heap demo_file_world))
    as (ds & w' & id & ty & R & Pd & Ps & _); [discriminate |].
  exists ds, w', id. auto.
Defined.

Lemma write_dataset_completes_and_closes_everything_witness :
  t_complex_double <> t_other /\
  hdf5_reference demo_file = Some 0%nat /\
  heap demo_file_world !! 0%nat = Some demo_file_cell /\
  use_count demo_file_cell <> O /\
  0 <= 32 <= 64 /\
  size [7; 8; 9] < 2 ^ 32 /\
  exists es cells,
    write_dataset (@counting_lib Z) 16 32 32 t_complex_double demo_file "d"
      [7; 8; 9] (mkWorld (trace demo_file_world) (heap demo_file_world)) =
      (Ok tt, mkWorld (trace demo_file_world ++ es)
                (heap demo_file_world ++ cells)) /\
    closed_ids es = rev (created_ids es).
Proof.
  split; [discriminate |].
  split; [apply demo_file_live |]. split; [apply demo_file_live |].
  split; [apply demo_file_live |]. split; [lia |]. split; [reflexivity |].
  destruct (write_dataset_completes_and_closes_everything (@counting_lib Z)
              16 32 32 t_complex_double demo_file "d" [7; 8; 9]
              (trace demo_file_world) (heap demo_file_world) 0%nat demo_file_cell)
    as (es & cells & R & B & _);
    [discriminate | apply demo_file_live .. | lia | reflexivity |].
  exists es, cells. auto.
Defined.

Lemma write_dataset_matrix_completes_and_closes_everything_witness :
  let data := mkFullMatrix 2 3 [1; 2; 3; 4; 5; 6] in
  t_float <> t_other /\
  hdf5_reference demo_file = Some 0%nat /\
  heap demo_file_world !! 0%nat = Some demo_file_cell /\
  use_count demo_file_cell <> O /\
  0 <= 32 <= 64 /\
  0 <= m data * n data < 2 ^ 32 /\
  exists es cells,
    write_dataset_matrix (@counting_lib Z) 16 32 32 t_float demo_file "d"
      data (mkWorld (trace demo_file_world) (heap demo_file_world)) =
      (Ok tt, mkWorld (trace demo_file_world ++ es)
                (heap demo_file_world ++ cells)) /\
    closed_ids es = rev (created_ids es).
Proof.
  intros data.
  split; [discriminate |].
  split; [apply demo_file_live |]. split; [apply demo_file_live |].
  split; [apply demo_file_live |]. split; [lia |]. split; [simpl; lia |].
  destruct (write_dataset_matrix_completes_and_closes_everything
              (@counting_lib Z) 16 32 32 t_float demo_file "d" data
              (trace demo_file_world) (heap demo_file_world) 0%nat demo_file_cell)
    as (es & cells & R & B & _);
    [discriminate | apply demo_file_live .. | lia | simpl; lia |].
  exists es, cells. auto.
Defined.

Lemma write_dataset_of_oversized_buffer_is_fatal_witness :
  t_int <> t_other /\
  hdf5_reference demo_file = Some 0%nat /\
  heap demo_file_world !! 0%nat = Some demo_file_cell /\
  use_count demo_file_cell <> O /\
  0 <= 1 <= 64 /\
  2 ^ 1 <= size [7; 8] /\
  exists es cells,
    write_dataset (@counting_lib Z) 16 32 1 t_int demo_file "d" [7; 8]
      (mkWorld (trace demo_file_world) (heap demo_file_world)) =
      (Fatal, mkWorld (trace demo_file_world ++ es)
                (heap demo_file_world ++ cells)) /\
    closed_ids es = [].
Proof.
  split; [discriminate |].
  split; [apply demo_file_live |]. split; [apply demo_file_live |].
  split; [apply demo_file_live |]. split; [lia |].
  assert (Hsz : 2 ^ 1 <= size [7; 8]) by (vm_compute; discriminate).
  split; [exact Hsz |].
  destruct (write_dataset_of_oversized_buffer_is_fatal (@counting_lib Z)
              16 32 1 t_int demo_file "d" [7; 8]
              (trace demo_file_world) (heap demo_file_world) 0%nat demo_file_cell)
    as (es & cells & ty & space & dset & R & B & _);
    [discriminate | apply demo_file_live .. | lia | exact Hsz |].
  exists es, cells. auto.
Defined.

Lemma group_opens_and_create_group_creates_witness :
  hdf5_reference demo_file = Some 0%nat /\
  heap demo_file_world !! 0%nat = Some demo_file_cell /\
  use_count demo_file_cell <> O /\
  (exists id w',
     group (@counting_lib Z) demo_file "g"
       (mkWorld (trace demo_file_world) (heap demo_file_world)) =
       (Ok (mkObject "g" (mpi demo_file) (Some (length (heap demo_file_world)))),
        w') /\
     trace w' = trace demo_file_world ++
                [(H5Gopen2 (value demo_file_cell) "g" H5P_DEFAULT, id)]).
Proof.
  split; [apply demo_file_live |]. split; [apply demo_file_live |].
  split; [apply demo_file_live |].
  destruct (group_opens_and_create_group_creates (@counting_lib Z) demo_file "g"
              (trace demo_file_world) (heap demo_file_world) 0%nat demo_file_cell)
    as [(id & r & R & _) _]; [apply demo_file_live .. |].
  exists id. eexists. split; [exact R | reflexivity].
Defined.

Lemma session_closes_everything_witness :
  t_double <> t_other /\
  0 <= 32 <= 64 /\
  size [7; 8; 9] < 2 ^ 32 /\
  exists es cells,
    (file <- File_ctor (@counting_lib Z) "f.h5" true 0 create ;;
     write_dataset (@counting_lib Z) 16 32 32 t_double file "d" [7; 8; 9] ;;
     HDF5Object_dtor (@counting_lib Z) file) (mkWorld [] []) =
      (Ok tt, mkWorld ([] ++ es) ([] ++ cells)) /\
    closed_ids es ≡ₚ created_ids es /\
    Forall (fun c => use_count c = O) cells.
Proof.
  split; [discriminate |]. split; [lia |]. split; [reflexivity |].
  apply (session_closes_everything (@counting_lib Z) 16 32 32 "f.h5" true 0
           create t_double "d" [7; 8; 9] [] []);
    [discriminate | lia | reflexivity].
Defined.

Lemma attr_reads_without_checking_witness :
  t_complex_double <> t_other /\
  hdf5_reference demo_file = Some 0%nat /\
  heap demo_file_world !! 0%nat = Some demo_file_cell /\
  use_count demo_file_cell <> O /\
  exists w',
    attr (@counting_lib Z) counting_alib 16 t_complex_double demo_file "a"
      (mkAWorld (mkWorld (trace demo_file_world) (heap demo_file_world)) []) =
    (Ok 7, w').
Proof.
  split; [discriminate |].
  split; [apply demo_file_live |]. split; [apply demo_file_live |].
  split; [apply demo_file_live |].
  destruct (attr_reads_without_checking (@counting_lib Z) counting_alib 16
              t_complex_double demo_file "a"
              (trace demo_file_world) (heap demo_file_world) [] 0%nat
              demo_file_cell)
    as (ext & ty & d & rest & _ & R & _);
    [discriminate | apply demo_file_live .. |].
  eexists. exact R.
Defined.

Lemma attr_bool_is_nonzero_int_witness :
  hdf5_reference demo_file = Some 0%nat /\
  heap demo_file_world !! 0%nat = Some demo_file_cell /\
  use_count demo_file_cell <> O /\
  exists w',
    attr_bool counting_alib demo_file "flag" (mkAWorld demo_file_world []) =
    (Ok true, w').
Proof.
  split; [apply demo_file_live |]. split; [apply demo_file_live |].
  split; [apply demo_file_live |].
  destruct (attr_bool_is_nonzero_int counting_alib demo_file "flag"
              demo_file_world [] 0%nat demo_file_cell)
    as (answer & R & A); [apply demo_file_live .. |].
  eexists. rewrite R. f_equal. f_equal. apply A. discriminate.
Defined.

Lemma attr_string_checks_all_but_the_charset_witness :
  hdf5_reference demo_file = Some 0%nat /\
  heap demo_file_world !! 0%nat = Some demo_file_cell /\
  use_count demo_file_cell <> O /\
  (exists w',
     attr_string (@counting_lib Z) counting_alib demo_file "label"
       (mkAWorld demo_file_world []) = (Ok "seven"%string, w')) /\
  fst (attr_string (@counting_lib Z) missing_alib demo_file "label"
         (mkAWorld demo_file_world [])) = Fatal.
Proof.
  split; [apply demo_file_live |]. split; [apply demo_file_live |].
  split; [apply demo_file_live |]. split.
  - destruct (attr_string_checks_all_but_the_charset (@counting_lib Z)
                counting_alib demo_file "label" demo_file_world [] 0%nat
                demo_file_cell) as [Hok _]; [apply demo_file_live .. |].
    destruct Hok as (r6 & r7 & r8 & R);
      [vm_compute; discriminate .. |].
    eexists. exact R.
  - destruct (attr_string_checks_all_but_the_charset (@counting_lib Z)
                missing_alib demo_file "label" demo_file_world [] 0%nat
                demo_file_cell) as [_ Hfatal]; [apply demo_file_live .. |].
    apply Hfatal. right. right. left. reflexivity.
Defined.

Lemma attr_matrix_requires_rank_two_witness :
  hdf5_reference demo_file = Some 0%nat /\
  heap demo_file_world !! 0%nat = Some demo_file_cell /\
  use_count demo_file_cell <> O /\
  returns flat_alib
    [Attr (H5Aopen (Hid 3) "a" H5P_DEFAULT) 1; Attr (H5Aget_space (Hid 1)) 2]
    (H5Sget_simple_extent_ndims (Hid 2)) <> 2 /\
  attr_matrix (@counting_lib Z) flat_alib 0 9 demo_file "a"
    (mkAWorld demo_file_world []) =
  (Fatal,
   mkAWorld demo_file_world
     [Attr (H5Aopen (Hid 3) "a" H5P_DEFAULT) 1; Attr (H5Aget_space (Hid 1)) 2;
      Attr (H5Sget_simple_extent_ndims (Hid 2)) 1;
      Attr (H5Sget_simple_extent_ndims (Hid 2)) 1]).
Proof.
  split; [apply demo_file_live |]. split; [apply demo_file_live |].
  split; [apply demo_file_live |]. split; [discriminate |].
  apply (attr_matrix_requires_rank_two (@counting_lib Z) flat_alib 0 9%nat
           demo_file "a" demo_file_world [] 0%nat demo_file_cell);
    first [apply demo_file_live | discriminate].
Defined.

Lemma attr_matrix_copies_row_major_witness :
  hdf5_reference demo_file = Some 0%nat /\
  heap demo_file_world !! 0%nat = Some demo_file_cell /\
  use_count demo_file_cell <> O /\
  2 * 3 * 8 < 2 ^ 64 /\
  returns counting_alib
    [Attr (H5Aopen (Hid 3) "a" H5P_DEFAULT) 1; Attr (H5Aget_space (Hid 1)) 2;
     Attr (H5Sget_simple_extent_ndims (Hid 2)) 2;
     Attr (H5Sget_simple_extent_dims (Hid 2)) 4]
    (malloc 48) <> 0 /\
  exists w',
    attr_matrix (@counting_lib Z) counting_alib 0 4 demo_file "a"
      (mkAWorld demo_file_world []) =
    (Ok (Some (mkFullMatrix 2 3 [10; 11; 12; 13; 14; 15])), w').
Proof.
  split; [apply demo_file_live |]. split; [apply demo_file_live |].
  split; [apply demo_file_live |].
  split; [lia |]. split; [discriminate |].
  destruct (attr_matrix_copies_row_major (@counting_lib Z) counting_alib 0
              4%nat demo_file "a" demo_file_world [] 0%nat demo_file_cell)
    as (r7 & r8 & r9 & R);
    [apply demo_file_live .. | reflexivity | simpl; lia | simpl; lia
     | simpl; lia | right; discriminate | simpl; lia |].
  eexists. exact R.
Defined.

Lemma attr_matrix_loops_forever_on_large_dimensions_witness :
  hdf5_reference demo_file = Some 0%nat /\
  heap demo_file_world !! 0%nat = Some demo_file_cell /\
  use_count demo_file_cell <> O /\
  2 ^ 32 * 1 * 8 < 2 ^ 64 /\
  returns huge_alib
    [Attr (H5Aopen (Hid 3) "a" H5P_DEFAULT) 1; Attr (H5Aget_space (Hid 1)) 2;
     Attr (H5Sget_simple_extent_ndims (Hid 2)) 2;
     Attr (H5Sget_simple_extent_dims (Hid 2)) 4]
    (malloc (2 ^ 35)) <> 0 /\
  fst (attr_matrix (@counting_lib Z) huge_alib 0 1000 demo_file "a"
         (mkAWorld demo_file_world [])) = Ok None.
Proof.
  split; [apply demo_file_live |]. split; [apply demo_file_live |].
  split; [apply demo_file_live |].
  split; [lia |]. split; [discriminate |].
  rewrite (attr_matrix_loops_forever_on_large_dimensions (@counting_lib Z)
             huge_alib 0 1000%nat demo_file "a" demo_file_world [] 0%nat
             demo_file_cell);
    [reflexivity | apply demo_file_live .. | reflexivity
     | left; simpl; lia | simpl; lia | right; discriminate].
Defined.

Lemma write_attr_creates_writes_and_closes_witness :
  t_complex_double <> t_other /\
  hdf5_reference demo_file = Some 0%nat /\
  heap demo_file_world !! 0%nat = Some demo_file_cell /\
  use_count demo_file_cell <> O /\
  exists w',
    write_attr (@counting_lib Z) counting_alib 16 t_complex_double demo_file
      "a" 5 (mkAWorld (mkWorld (trace demo_file_world) (heap demo_file_world)) [])
    = (Ok tt, w').
Proof.
  split; [discriminate |].
  split; [apply demo_file_live |]. split; [apply demo_file_live |].
  split; [apply demo_file_live |].
  destruct (write_attr_creates_writes_and_closes (@counting_lib Z)
              counting_alib 16 t_complex_double demo_file "a" 5
              (trace demo_file_world) (heap demo_file_world) [] 0%nat
              demo_file_cell)
    as (ext & ty & d & aid & id & r1 & r2 & r3 & rest & _ & R & _);
    [discriminate | apply demo_file_live .. |].
  eexists. exact R.
Defined.

End HDF5.
